(** * mediawiki_to_git_md: a shallow embedding of [convert.py]

    The script turns a MediaWiki XML export into a git history.  This file
    embeds its pure text functions ([un_div], [cleanup_mediawiki],
    [cleanup_markdown], the path helpers), its extraction loop over the
    XML events, the staging table with its [ORDER BY date, title] drain and
    the commit loop with the external tools (pandoc, git) as oracles, and
    proves the properties stated about them.

    What the model takes for granted:
    - Python text is a [string]: the sequence of bytes of its UTF-8
      encoding, so [.encode("utf8")] is the identity.  Characters above
      U+007F are several bytes long; the ASCII-only tests of the script
      (prefixes, brackets, tags) read the same on bytes and on code
      points.  White space is Python's for one-byte characters, case
      mapping is the ASCII one, and the encoding errors of Python 2 are
      left out.
    - A text that comes from the XML export or from the table is a
      [unicode] object as soon as it has a character above U+007F; the
      lines of the two flat files are byte strings.  Python 2 finds such a
      [unicode] object equal to no byte string, so a username is found in
      the blocklist or among the keys of the user mapping only when it is
      ASCII only: [in_bytes], [lookup_bytes].
    - An exception is a value ([Raise]); assertions are checked, as they
      are without [-O].
    - Opening and writing a file always succeeds; [print] and the writes
      to [sys.stderr] are not recorded.
    - pandoc, [os.system], [git commit] and [base64.b64decode] are
      parameters: the theorems hold whatever they answer. *)

From Stdlib Require Import ZArith Lia Bool Ascii.
From Stdlib Require String.
From Stdlib Require Import Sorting.Sorted.
From stdpp Require Import base option list sorting strings gmap.

Local Open Scope Z_scope.
Local Open Scope stdpp_scope.

(** ** Python string primitives *)

Module Py.

(** Characters that cannot be written inside a literal here. *)
Definition nl_char : ascii := "010"%char.
Definition nl : string := String nl_char EmptyString.
Definition dq : string := String "034"%char EmptyString.
Definition sq : string := String "039"%char EmptyString.
Definition bslash : string := String "092"%char EmptyString.

Abbreviation len := String.length.

(** [s.startswith(p)] *)
Fixpoint startswith (s p : string) : bool :=
  match p with
  | EmptyString => true
  | String a p' =>
      match s with
      | EmptyString => false
      | String b s' => Ascii.eqb a b && startswith s' p'
      end
  end.

(** [s[n:]] for [n >= 0] *)
Fixpoint slice_from (n : nat) (s : string) : string :=
  match n with
  | O => s
  | S n' => match s with
            | EmptyString => EmptyString
            | String _ s' => slice_from n' s'
            end
  end.

(** [s[:n]] for [n >= 0] *)
Fixpoint slice_to (n : nat) (s : string) : string :=
  match n with
  | O => EmptyString
  | S n' => match s with
            | EmptyString => EmptyString
            | String c s' => String c (slice_to n' s')
            end
  end.

(** [s[:-k]] for [k > 0] *)
Definition slice_to_neg (k : nat) (s : string) : string :=
  slice_to (len s - k) s.

(** [s[i:-k]] for [i >= 0], [k > 0] *)
Definition slice_between (i k : nat) (s : string) : string :=
  slice_from i (slice_to_neg k s).

(** [s.endswith(p)] *)
Definition endswith (s p : string) : bool :=
  (len p <=? len s)%nat && String.eqb (slice_from (len s - len p) s) p.

(** [s.find(sub)], [None] for -1; [s.index(sub)] raises ValueError there. *)
Fixpoint find (s sub : string) : option nat :=
  if startswith s sub then Some O
  else match s with
       | EmptyString => None
       | String _ s' => S <$> find s' sub
       end.

(** [sub in s] *)
Fixpoint contains (s sub : string) : bool :=
  startswith s sub ||
  match s with
  | EmptyString => false
  | String _ s' => contains s' sub
  end.

(** [s.replace(old, new)]: all non-overlapping occurrences, leftmost first.
    [skip] counts the characters of a matched occurrence still to drop. *)
Fixpoint replace_go (old new : string) (skip : nat) (s : string) : string :=
  match s with
  | EmptyString => EmptyString
  | String c s' =>
      match skip with
      | S k => replace_go old new k s'
      | O => if startswith s old
             then new +:+ replace_go old new (len old - 1) s'
             else String c (replace_go old new O s')
      end
  end.

Fixpoint interleave (new s : string) : string :=
  match s with
  | EmptyString => new
  | String c s' => new +:+ String c (interleave new s')
  end.

Definition replace (s old new : string) : string :=
  match old with
  | EmptyString => interleave new s
  | _ => replace_go old new O s
  end.

(** White space of [unicode.strip()] among the one-byte characters:
    U+0009..U+000D, U+001C..U+001F and the space. *)
Definition is_space (c : ascii) : bool :=
  match c with
  | "009" | "010" | "011" | "012" | "013"
  | "028" | "029" | "030" | "031" | " " => true
  | _ => false
  end%char.

Fixpoint lstrip (s : string) : string :=
  match s with
  | EmptyString => EmptyString
  | String c s' => if is_space c then lstrip s' else s
  end.

Fixpoint rstrip (s : string) : string :=
  match s with
  | EmptyString => EmptyString
  | String c s' =>
      match rstrip s' with
      | EmptyString => if is_space c then EmptyString else String c EmptyString
      | r => String c r
      end
  end.

Definition strip (s : string) : string := rstrip (lstrip s).

Definition is_upper (c : ascii) : bool :=
  let n := nat_of_ascii c in (65 <=? n)%nat && (n <=? 90)%nat.

Definition is_lower (c : ascii) : bool :=
  let n := nat_of_ascii c in (97 <=? n)%nat && (n <=? 122)%nat.

Definition lower_char (c : ascii) : ascii :=
  if is_upper c then ascii_of_nat (nat_of_ascii c + 32) else c.

Definition upper_char (c : ascii) : ascii :=
  if is_lower c then ascii_of_nat (nat_of_ascii c - 32) else c.

Fixpoint lower (s : string) : string :=
  match s with
  | EmptyString => EmptyString
  | String c s' => String (lower_char c) (lower s')
  end.

Fixpoint upper (s : string) : string :=
  match s with
  | EmptyString => EmptyString
  | String c s' => String (upper_char c) (upper s')
  end.

(** [s.split("\n")] *)
Fixpoint split_lines (s : string) : list string :=
  match s with
  | EmptyString => [EmptyString]
  | String c s' =>
      if Ascii.eqb c nl_char then EmptyString :: split_lines s'
      else match split_lines s' with
           | h :: t => String c h :: t
           | [] => [String c EmptyString]
           end
  end.

(** [sep.join(l)] *)
Fixpoint join (sep : string) (l : list string) : string :=
  match l with
  | [] => EmptyString
  | [x] => x
  | x :: l' => x +:+ sep +:+ join sep l'
  end.

(** [str(x)] of an optional text: [None] prints as [None]. *)
Definition str_opt (o : option string) : string :=
  match o with Some s => s | None => "None" end.

(** No character above U+007F: every byte of the encoding is below 128. *)
Definition is_ascii_char (c : ascii) : bool :=
  match c with Ascii _ _ _ _ _ _ _ b7 => negb b7 end.

Fixpoint is_ascii (s : string) : bool :=
  match s with
  | EmptyString => true
  | String c s' => is_ascii_char c && is_ascii s'
  end.

(** Truth value of an optional text: [None] and the empty text are false. *)
Definition truthy (o : option string) : bool :=
  match o with
  | Some (String _ _) => true
  | _ => false
  end.

End Py.

Import Py.

(** [x in container] for a text [x] of the export or of the table and a
    set of byte strings: equal bytes, and an ASCII text.  A text with a
    character above U+007F is a [unicode] object, which compares (and
    hashes) as different from every byte string. *)
Definition in_bytes (x : string) (container : gset string) : bool :=
  is_ascii x && bool_decide (x ∈ container).

(** [d[x]] for such a text and a dictionary whose keys are byte strings;
    [None] where [x in d] is false. *)
Definition lookup_bytes {A : Type} (x : string) (d : gmap string A) : option A :=
  if is_ascii x then d !! x else None.

(** ** Exceptions

    What Python raises is a value here; [SystemExit] carries what
    [sys.exit] was given. *)

Inductive Exn : Type :=
  | AssertionError
  | ValueError
  | IndexError
  | KeyError
  | AttributeError
  | TypeError
  | SystemExit (code : Z).

Inductive Res (A : Type) : Type :=
  | Ok (a : A)
  | Raise (e : Exn).

Arguments Ok {A} a.
Arguments Raise {A} e.

#[global] Instance res_ret : MRet Res := fun A a => Ok a.

#[global] Instance res_bind : MBind Res := fun A B k m =>
  match m with
  | Ok a => k a
  | Raise e => Raise e
  end.

(** ** The markup cleaner *)

(** The left-to-right mark U+200E, as its three UTF-8 bytes. *)
Definition ltr_mark : string :=
  String "226"%char (String "128"%char (String "142"%char EmptyString)).

Definition languages : list string :=
  ["python"; "perl"; "sql"; "bash"; "ruby"; "java"; "xml"].

Definition toc_tokens : list string := ["__TOC__"; "__FORCETOC__"; "__NOTOC__"].

Definition str_in (s : string) (l : list string) : bool :=
  existsb (String.eqb s) l.

(** [un_div]: [text.index(">")] raises ValueError when the opening tag is
    never closed. *)
Definition un_div (text : string) : Res string :=
  if startswith (strip text) "<div " && endswith (strip text) "</div>" then
    let text1 := slice_to_neg 6 (strip text) in
    match find text1 ">" with
    | Some i => Ok (strip (slice_from (i + 1) text1))
    | None => Raise ValueError
    end
  else Ok text.

(** One round of the loop over [languages]. *)
Definition lang_step (line lang : string) : string :=
  let line1 :=
    if startswith (lower line) ("<" +:+ lang +:+ ">") then
      strip (("<source lang=" +:+ lang +:+ nl) +:+ slice_from (len lang + 2) line)
    else if startswith line ("<" +:+ lang +:+ " ") && contains line ">" then
      strip (("<source lang=" +:+ lang +:+ " ") +:+ slice_from (len lang + 2) line)
    else line in
  if String.eqb (rstrip line1) ("</" +:+ lang +:+ ">") then "</source>"
  else if endswith (rstrip line1) ("</" +:+ lang +:+ ">") then
    replace line1 ("</" +:+ lang +:+ ">") (nl +:+ "</source>")
  else line1.

Definition lang_steps (line : string) : string :=
  fold_left lang_step languages line.

(** The category block of the loop body: the new line and the label found,
    if any.  ValueError of [tag.index] is caught and leaves the line as it
    was; the assertion is not caught. *)
Definition category_step (line : string) : Res (string * option string) :=
  if contains line "[[Category:" then
    match find line "[[Category:" with
    | None => Ok (line, None)
    | Some i =>
        let tag0 := slice_from (i + 11) line in
        match find tag0 "]]" with
        | None => Ok (line, None)
        | Some j =>
            let tag := slice_to j tag0 in
            let construct := "[[Category:" +:+ tag +:+ "]]" in
            if contains line construct then
              Ok (strip (replace line construct EmptyString), Some tag)
            else Raise AssertionError
        end
    end
  else Ok (line, None).

Definition escape_links (line : string) : string :=
  let line1 :=
    if contains line "[[:Category:"
    then replace line "[[:Category:" "[[Category%3A" else line in
  if contains line1 "[[User:"
  then replace line1 "[[User:" "[[User%3A" else line1.

(** The body of the loop over the lines: [None] for a line that is
    dropped ([continue]), and the category label found on the line. *)
Definition clean_line (line0 : string) : Res (option string * option string) :=
  let line := lang_steps (replace line0 ltr_mark EmptyString) in
  undiv ← un_div line;
  if str_in undiv toc_tokens then Ok (None, None)
  else
    let line1 :=
      if startswith undiv "[[Image:" && endswith undiv "]]" then undiv else line in
    '(line2, cat) ← category_step line1;
    if contains line1 "[[Category:" && String.eqb line2 EmptyString
    then Ok (None, cat)
    else Ok (Some (escape_links line2), cat).

Fixpoint clean_lines (lines : list string) (new categories : list string)
  : Res (list string * list string) :=
  match lines with
  | [] => Ok (new, categories)
  | line :: rest =>
      '(kept, cat) ← clean_line line;
      clean_lines rest (new ++ option_list kept) (categories ++ option_list cat)
  end.

Definition cleanup_mediawiki (text : string) : Res (string * list string) :=
  '(new, categories) ← clean_lines (split_lines text) [] [];
  Ok (join nl new, categories).

(** The two assertions of [run_tests]. *)
Definition pear_div : string :=
  "<div style=" +:+ dq +:+
  "float:left; maxwidth: 180px; margin-left:25px; margin-right:15px; background-color: #FFFFFF"
  +:+ dq +:+ ">" +:+ "[[Image:Pear.png|left|The Bosc Pear]]</div>".

(** ** The link rewriter *)

(** The text that closes a wikilink target: a space, the quoted word and
    the closing parenthesis. *)
Definition wikilink_tail : string := " " +:+ dq +:+ "wikilink" +:+ dq +:+ ")".

(** The greedy [.*] of the pattern followed by [wikilink_tail]: the length
    of the longest run without a newline after which the tail stands. *)
Fixpoint greedy_tail (s : string) : option nat :=
  match s with
  | EmptyString => None
  | String c s' =>
      match (if Ascii.eqb c nl_char then None else greedy_tail s') with
      | Some k => Some (S k)
      | None => if startswith s wikilink_tail then Some O else None
      end
  end.

(** A match of the pattern, a bracket, a parenthesis, a letter of [A-Z],
    [.*] and the tail, at the start of [s]. *)
Definition match_at (s : string) : option string :=
  match s with
  | String "]" (String "(" (String u rest)) =>
      if is_upper u then
        match greedy_tail rest with
        | Some k => Some (slice_to (3 + k + len wikilink_tail) s)
        | None => None
        end
      else None
  | _ => None
  end.

(** [p.findall(text)]: the matches from left to right, none overlapping. *)
Fixpoint findall_go (skip : nat) (s : string) : list string :=
  match s with
  | EmptyString => []
  | String _ s' =>
      match skip with
      | S k => findall_go k s'
      | O => match match_at s with
             | Some m => m :: findall_go (len m - 1) s'
             | None => findall_go O s'
             end
      end
  end.

Definition findall (text : string) : list string := findall_go O text.

Definition scheme_prefixes : list string := ["](http"; "](ftp:"; "](mailto:"].

(** [old.startswith(("](http", "](ftp:", "](mailto:"))] *)
Definition startswith_any (s : string) (ps : list string) : bool :=
  existsb (startswith s) ps.

(** The body of the loop over the matches. *)
Definition rewrite_link (prefix : string) (text old : string) : string :=
  if startswith_any old scheme_prefixes then text
  else replace text old ("](/" +:+ prefix +:+ slice_from 2 old).

Definition cleanup_markdown (text source_url prefix : string) : Res string :=
  source ←
    (match prefix with
     | EmptyString => Ok source_url
     | _ =>
         if endswith prefix "/" && startswith source_url prefix then
           if negb (startswith prefix "/") then Ok (slice_from (len prefix) source_url)
           else Raise AssertionError
         else Raise AssertionError
     end);
  if negb (contains source "/") then Ok text
  else match prefix with
       | EmptyString => Ok text
       | _ => Ok (fold_left (rewrite_link prefix) (findall text) text)
       end.

(** ** Tags, titles and paths *)

(** [clean_tag]: the loop drops text up to a closing brace while there is
    one; every round shortens the tag, so its length bounds the rounds. *)
Fixpoint clean_tag_loop (fuel : nat) (tag : string) : string :=
  match fuel with
  | O => tag
  | S fuel' =>
      match find tag "}" with
      | Some i => clean_tag_loop fuel' (slice_from (i + 1) tag)
      | None => tag
      end
  end.

Definition clean_tag (tag : string) : string := clean_tag_loop (len tag) tag.

(** [os.path.join(a, b)] of [posixpath]. *)
Definition path_join (a b : string) : string :=
  if startswith b "/" then b
  else if String.eqb a EmptyString || endswith a "/" then a +:+ b
  else a +:+ "/" +:+ b.

(** [title[0].upper() + title[1:].lower()]; IndexError on the empty title. *)
Definition make_canonical (title : string) : Res string :=
  match replace title " " "_" with
  | EmptyString => Raise IndexError
  | String c rest => Ok (String (upper_char c) (lower rest))
  end.

Definition make_url (title prefix : string) : string :=
  path_join prefix (replace title " " "_" +:+ "/").

Definition make_filename (title ext prefix : string) : string :=
  path_join prefix
    (replace (replace (replace title " " "_") ":" "_") "/" "_" +:+ "." +:+ ext).

Fixpoint ignore_by_prefix (title : string) (page_prefixes_to_ignore : list string) : bool :=
  match page_prefixes_to_ignore with
  | [] => false
  | prefix :: rest =>
      if startswith title prefix then true else ignore_by_prefix title rest
  end.

Definition page_prefixes_to_ignore : list string :=
  ["Help:"; "MediaWiki:"; "Talk:"; "User:"; "User talk:"].

Definition safe_for_yaml (val : string) : string :=
  dq +:+ replace (replace val dq (bslash +:+ dq)) sq (bslash +:+ sq) +:+ dq.

(** ** Revision records and the extraction loop *)

(** A row of the [revisions] table.  [title] is a text in every row the
    script inserts (it calls [title.startswith] first); the other columns
    hold what the accumulators held, [None] being SQL NULL. *)
Record RevisionRecord : Type := {
  rev_title : string;
  rev_filename : option string;
  rev_date : option string;
  rev_username : string;
  rev_content : option string;
  rev_comment : string
}.

(** An element as [iterparse] hands it over: its tag (with the XML
    namespace in braces), its text and its attributes. *)
Record Element : Type := {
  el_tag : string;
  el_text : option string;
  el_attrib : gmap string string
}.

(** The six accumulators of [extract_revisions]. *)
Record Pending : Type := {
  title : option string;
  filename : option string;
  date : option string;
  comment : option string;
  username : option string;
  text : option string
}.

Definition no_pending : Pending :=
  {| title := None; filename := None; date := None;
     comment := None; username := None; text := None |}.

(** [filename = date = username = text = comment = None] *)
Definition reset_revision (p : Pending) : Pending :=
  {| title := title p; filename := None; date := None;
     comment := None; username := None; text := None |}.

(** [element.text.strip()]; AttributeError when the element has no text. *)
Definition text_strip (element : Element) : Res string :=
  match el_text element with
  | Some t => Ok (strip t)
  | None => Raise AttributeError
  end.

Definition assert (b : bool) : Res unit :=
  if b then Ok tt else Raise AssertionError.

Definition is_none {A : Type} (o : option A) : bool :=
  match o with None => true | Some _ => false end.

Section Extraction.

Variable blocklist : gset string.
Variable prefixes : list string.

Definition on_start (tag : string) (element : Element) (p : Pending) : Res unit :=
  _ ← (if String.eqb tag "page"
       then (_ ← assert (is_none (title p)); assert (is_none (date p)))
       else Ok tt);
  _ ← (if String.eqb tag "revision" || String.eqb tag "upload"
       then assert (is_none (date p)) else Ok tt);
  if String.eqb tag "contents" then
    match el_attrib element !! "encoding" with
    | Some enc => assert (String.eqb enc "base64")
    | None => Raise KeyError
    end
  else Ok tt.

(** The end of a [revision] element. *)
Definition close_revision (p : Pending) (rows : list RevisionRecord)
  : Res (list RevisionRecord) :=
  let username1 := default EmptyString (username p) in
  let comment1 := default EmptyString (comment p) in
  if in_bytes username1 blocklist then Ok rows
  else
    match title p with
    | None => Raise AttributeError
    | Some t =>
        if startswith t "File:" then Ok rows
        else if ignore_by_prefix t prefixes then Ok rows
        else match text p with
             | Some _ =>
                 Ok (rows ++ [ {| rev_title := t; rev_filename := filename p;
                                  rev_date := date p; rev_username := username1;
                                  rev_content := text p; rev_comment := comment1 |} ])
             | None => Ok rows
             end
    end.

(** The end of an [upload] element. *)
Definition close_upload (p : Pending) (rows : list RevisionRecord)
  : Res (list RevisionRecord) :=
  match title p with
  | None => Raise AttributeError
  | Some t =>
      _ ← assert (startswith t "File:");
      let username1 := default EmptyString (username p) in
      let comment1 := default EmptyString (comment p) in
      if in_bytes username1 blocklist then Ok rows
      else if negb (is_none (text p)) || startswith t "File:" then
        Ok (rows ++ [ {| rev_title := t; rev_filename := filename p;
                         rev_date := date p; rev_username := username1;
                         rev_content := text p; rev_comment := comment1 |} ])
      else Ok rows
  end.

Definition on_end (tag : string) (element : Element) (p : Pending)
    (rows : list RevisionRecord) : Res (Pending * list RevisionRecord) :=
  if String.eqb tag "title" then
    t ← text_strip element;
    Ok ({| title := Some t; filename := filename p; date := date p;
           comment := comment p; username := username p; text := text p |}, rows)
  else if String.eqb tag "timestamp" then
    t ← text_strip element;
    Ok ({| title := title p; filename := filename p; date := Some t;
           comment := comment p; username := username p; text := text p |}, rows)
  else if String.eqb tag "comment" then
    match el_text element with
    | Some t =>
        Ok ({| title := title p; filename := filename p; date := date p;
               comment := Some (strip t); username := username p; text := text p |}, rows)
    | None => Ok (p, rows)
    end
  else if String.eqb tag "username" then
    t ← text_strip element;
    Ok ({| title := title p; filename := filename p; date := date p;
           comment := comment p; username := Some t; text := text p |}, rows)
  else if String.eqb tag "text" then
    Ok ({| title := title p; filename := filename p; date := date p;
           comment := comment p; username := username p; text := el_text element |}, rows)
  else if String.eqb tag "contents" then
    t ← text_strip element;
    Ok ({| title := title p; filename := filename p; date := date p;
           comment := comment p; username := username p; text := Some t |}, rows)
  else if String.eqb tag "filename" then
    t ← text_strip element;
    Ok ({| title := title p; filename := Some t; date := date p;
           comment := comment p; username := username p; text := text p |}, rows)
  else if String.eqb tag "revision" then
    rows1 ← close_revision p rows;
    Ok (reset_revision p, rows1)
  else if String.eqb tag "upload" then
    rows1 ← close_upload p rows;
    Ok (reset_revision p, rows1)
  else if String.eqb tag "page" then
    _ ← assert (is_none (date p));
    Ok (no_pending, rows)
  else Ok (p, rows).

(** One round of the loop [for event, element in tree]. *)
Definition extract_step (st : Pending * list RevisionRecord)
    (ev : string * Element) : Res (Pending * list RevisionRecord) :=
  let '(p, rows) := st in
  let '(event, element) := ev in
  let tag := clean_tag (el_tag element) in
  if String.eqb event "start" then
    _ ← on_start tag element p; Ok (p, rows)
  else if String.eqb event "end" then on_end tag element p rows
  else Raise (SystemExit 1).

Fixpoint extract_loop (tree : list (string * Element))
    (st : Pending * list RevisionRecord) : Res (Pending * list RevisionRecord) :=
  match tree with
  | [] => Ok st
  | ev :: rest => st1 ← extract_step st ev; extract_loop rest st1
  end.

(** [extract_revisions]: the rows inserted into the table, in the order of
    their insertion, starting from the empty table of [create_db]. *)
Definition extract_revisions (tree : list (string * Element))
  : Res (list RevisionRecord) :=
  st ← extract_loop tree (no_pending, []); Ok (snd st).

End Extraction.

(** ** The staging table and its drain *)

(** Comparison of two values of a text column under [ORDER BY]: NULL sorts
    first, texts compare byte by byte, a proper prefix first. *)
Definition column_compare (a b : option string) : comparison :=
  match a, b with
  | None, None => Eq
  | None, Some _ => Lt
  | Some _, None => Gt
  | Some x, Some y => String.compare x y
  end.

(** [r1] may stand before [r2] under [ORDER BY date, title]. *)
Definition row_leb (r1 r2 : RevisionRecord) : bool :=
  match column_compare (rev_date r1) (rev_date r2) with
  | Lt => true
  | Eq => String.leb (rev_title r1) (rev_title r2)
  | Gt => false
  end.

Fixpoint insert_row (r : RevisionRecord) (sorted : list RevisionRecord)
  : list RevisionRecord :=
  match sorted with
  | [] => [r]
  | x :: rest => if row_leb r x then r :: sorted else x :: insert_row r rest
  end.

(** [SELECT * FROM revisions ORDER BY date, title].  SQL leaves the order of
    rows with equal keys open; here they keep their order of insertion. *)
Definition order_by_date_title (table : list RevisionRecord) : list RevisionRecord :=
  foldr insert_row [] table.

(** ** Authorship *)

(** The author block of [commit_files]: the identity used for the commit
    and the tally of usernames without a mapping. *)
Definition resolve_author (username : string) (user_mapping : gmap string string)
    (default_email : string) (missing_users : gmap string Z)
  : string * gmap string Z :=
  match lookup_bytes username user_mapping with
  | Some author => (author, missing_users)
  | None =>
      match username with
      | String _ _ =>
          let missing_users1 :=
            match missing_users !! username with
            | Some n => <[username := n + 1]> missing_users
            | None => <[username := 1]> missing_users
            end in
          (username +:+ " <" +:+ default_email +:+ ">", missing_users1)
      | EmptyString =>
          ("Anonymous Contributor <" +:+ default_email +:+ ">", missing_users)
      end
  end.

(** ** The outside world *)

(** The command line options the pipeline reads. *)
Record Args : Type := {
  prefix : string;
  mediawiki_ext : string;
  markdown_ext : string;
  default_email : string;
  default_layout : string;
  git : string;
  pandoc : string
}.

(** What the script does to the outside, as it is seen from there: a
    process it starts, with what came back. *)
Inductive Action : Type :=
  | ActPandoc (argv : list string) (returncode : Z) (stdout stderr : string)
  | ActSystem (cmd : string) (returncode : Z)
  | ActCommit (argv : list string) (stdin : string) (returncode : Z).

Definition is_commit (a : Action) : bool :=
  match a with ActCommit _ _ _ => true | _ => false end.

Definition is_pandoc (a : Action) : bool :=
  match a with ActPandoc _ _ _ _ => true | _ => false end.

(** The working tree as the script sees it, the content of each file, and
    whatever lies outside the script and its files: the repository behind
    the working tree, above all. *)
Record State (World : Type) : Type := {
  world : World;
  files : gmap string string
}.

Arguments world {World} s.
Arguments files {World} s.

(** The external collaborators.  pandoc reads, [os.system] runs git and may
    change the repository and the working tree, [git commit] changes the
    repository; [b64decode] is [None] where Python raises TypeError. *)
Record Tools (World : Type) : Type := {
  run_pandoc : State World -> list string -> Z * string * string;
  os_system : State World -> string -> Z * State World;
  run_git_commit : State World -> list string -> string -> Z * string * string * World;
  b64decode : string -> option string
}.

Arguments run_pandoc {World} t st argv.
Arguments os_system {World} t st cmd.
Arguments run_git_commit {World} t st argv stdin.
Arguments b64decode {World} t s.

(** Computations of the pipeline: a result or an exception, the state
    left behind and the actions done on the way. *)
Definition M (World : Type) (A : Type) : Type :=
  State World -> Res A * State World * list Action.

#[global] Instance M_ret {World : Type} : MRet (M World) :=
  fun A a st => (Ok a, st, []).

#[global] Instance M_bind {World : Type} : MBind (M World) := fun A B k m st =>
  match m st with
  | (Ok a, st1, acts1) =>
      let '(r, st2, acts2) := k a st1 in (r, st2, acts1 ++ acts2)
  | (Raise e, st1, acts1) => (Raise e, st1, acts1)
  end.

Section Pipeline.

Context {World : Type}.
Variable tools : Tools World.

Definition lift {A : Type} (r : Res A) : M World A := fun st => (r, st, []).

Definition raise {A : Type} (e : Exn) : M World A := lift (Raise e).

(** [with open(path, "w") as handle: handle.write(content)] *)
Definition write_file (path content : string) : M World unit := fun st =>
  (Ok tt, {| world := world st; files := <[path := content]> (files st) |}, []).

(** [os.path.isfile(path)] *)
Definition isfile (path : string) : M World bool := fun st =>
  (Ok (bool_decide (is_Some (files st !! path))), st, []).

Definition call_pandoc (argv : list string) : M World (Z * string * string) := fun st =>
  let '(returncode, stdout, stderr) := run_pandoc tools st argv in
  (Ok (returncode, stdout, stderr), st, [ActPandoc argv returncode stdout stderr]).

(** [run(cmd_string)]: [sys.exit] on a return code other than zero. *)
Definition run (cmd_string : string) : M World unit := fun st =>
  let '(return_code, st1) := os_system tools st cmd_string in
  ((if return_code =? 0 then Ok tt else Raise (SystemExit return_code)),
   st1, [ActSystem cmd_string return_code]).

Definition call_git_commit (argv : list string) (stdin : string) : M World Z := fun st =>
  let '(returncode, stdout, stderr, w1) := run_git_commit tools st argv stdin in
  (Ok returncode, {| world := w1; files := files st |}, [ActCommit argv stdin returncode]).

(** ** Writing a revision: [dump_revision] *)

(** The rendered stub of a redirect. *)
Definition redirect_stub (title : string) (date : option string)
    (redirect : string) (args : Args) : string :=
  "---" +:+ nl +:+
  "title: " +:+ safe_for_yaml title +:+ nl +:+
  "permalink: " +:+ safe_for_yaml (make_url title (prefix args)) +:+ nl +:+
  "redirect_to: /" +:+ safe_for_yaml (make_url redirect (prefix args)) +:+ nl +:+
  "date: " +:+ str_opt date +:+ nl +:+
  "---" +:+ nl +:+ nl +:+
  "You should automatically be redirected to [" +:+ redirect +:+ "](/" +:+
  make_url redirect (prefix args) +:+ ")" +:+ nl.

Definition tag_lines (categories : list string) : string :=
  String.concat EmptyString (map (fun category => " - " +:+ category +:+ nl) categories).

(** The front matter of a rendered page. *)
Definition front_matter (title : string) (date : option string)
    (categories : list string) (args : Args) : string :=
  "---" +:+ nl +:+
  "title: " +:+ safe_for_yaml title +:+ nl +:+
  "permalink: " +:+ safe_for_yaml (make_url title (prefix args)) +:+ nl +:+
  "date: " +:+ str_opt date +:+ nl +:+
  (if startswith title "Category:" then
     "layout: tagpage" +:+ nl +:+ "tag: " +:+ slice_from 9 title +:+ nl
   else
     (match default_layout args with
      | EmptyString => EmptyString
      | layout => "layout: " +:+ layout +:+ nl
      end) +:+
     (match categories with
      | [] => EmptyString
      | _ => "tags:" +:+ nl +:+ tag_lines categories
      end)) +:+
  "---" +:+ nl +:+ nl.

(** The target of a redirect, when the cleaned text is one. *)
Definition redirect_target (cleaned : string) : option string :=
  if startswith (strip cleaned) "#REDIRECT [[" && endswith (strip cleaned) "]]" then
    let redirect := slice_between 12 2 (strip cleaned) in
    if negb (contains redirect nl) && negb (contains redirect "]")
    then Some redirect else None
  else None.

Definition pandoc_argv (args : Args) (mw_filename : string) : list string :=
  [pandoc args; "-f"; "mediawiki"; "-t"; "markdown_github-hard_line_breaks"; mw_filename].

Definition dump_revision (mw_filename md_filename text title : string)
    (args : Args) (date : option string) : M World bool :=
  let original := text in
  '(text1, categories) ← lift (cleanup_mediawiki text);
  match redirect_target text1 with
  | Some redirect =>
      _ ← write_file mw_filename original;
      _ ← write_file md_filename (redirect_stub title date redirect args);
      mret true
  | None =>
      _ ← write_file mw_filename text1;
      '(returncode, stdout, stderr) ← call_pandoc (pandoc_argv args mw_filename);
      _ ← write_file mw_filename original;
      if negb (returncode =? 0) || String.eqb stdout EmptyString then mret false
      else
        let header := front_matter title date categories args in
        _ ← write_file md_filename header;
        body ← lift (cleanup_markdown stdout (make_url title (prefix args)) (prefix args));
        _ ← write_file md_filename (header +:+ body);
        mret true
  end.

(** ** Committing: [commit_files], [commit_revision], [commit_file] *)

Fixpoint assert_isfiles (filenames : list string) : M World unit :=
  match filenames with
  | [] => mret tt
  | f :: rest =>
      b ← isfile f;
      _ ← lift (assert b);
      assert_isfiles rest
  end.

Definition git_add_cmd (args : Args) (filenames : list string) : string :=
  dq +:+ git args +:+ dq +:+ " add " +:+ dq +:+
  join (dq +:+ " " +:+ dq) (map (fun x => replace x dq (bslash +:+ dq)) filenames) +:+ dq.

Definition git_commit_argv (args : Args) (filenames : list string)
    (date author : string) : list string :=
  [git args; "commit"] ++ filenames ++
  ["--date"; date; "--author"; author; "-F"; "-"; "--allow-empty"].

Definition commit_files (filenames : list string) (username : string)
    (date : option string) (comment : string) (user_mapping : gmap string string)
    (args : Args) (missing_users : gmap string Z) : M World (gmap string Z) :=
  _ ← lift (assert (negb (bool_decide (filenames = []))));
  _ ← assert_isfiles filenames;
  _ ← run (git_add_cmd args filenames);
  let '(author, missing_users1) :=
    resolve_author username user_mapping (default_email args) missing_users in
  let comment1 :=
    match comment with EmptyString => "No comment" | _ => comment end in
  match date with
  | None => raise TypeError
  | Some d =>
      returncode ← call_git_commit (git_commit_argv args filenames d author) comment1;
      if returncode =? 0 then mret missing_users1
      else raise (SystemExit returncode)
  end.

Definition commit_revision (mw_filename md_filename username : string)
    (date : option string) (comment : string) (user_mapping : gmap string string)
    (args : Args) (missing_users : gmap string Z) : M World (gmap string Z) :=
  b1 ← isfile md_filename;
  _ ← lift (assert b1);
  b2 ← isfile mw_filename;
  _ ← lift (assert b2);
  let comment1 :=
    match comment with EmptyString => "Change to wiki page" | _ => comment end in
  commit_files [md_filename; mw_filename] username date comment1 user_mapping args missing_users.

Definition commit_file (title : string) (filename : option string)
    (date : option string) (username : string) (contents : option string)
    (comment : string) (user_mapping : gmap string string) (args : Args)
    (missing_users : gmap string Z) : M World (gmap string Z) :=
  _ ← lift (assert (startswith title "File:"));
  filename1 ←
    (match filename with
     | Some (String c f) => mret (String c f)
     | _ => canonical ← lift (make_canonical (slice_from 5 title));
            mret (path_join (prefix args) canonical)
     end);
  _ ← write_file filename1 EmptyString;
  match contents ≫= b64decode tools with
  | None => raise TypeError
  | Some payload =>
      _ ← write_file filename1 payload;
      commit_files [filename1] username date comment user_mapping args missing_users
  end.

(** ** The commit loop: [commit_revisions] *)

Definition git_reset_cmd (args : Args) : string := git args +:+ " reset --hard".

(** The body of the loop, for one row of the table. *)
Definition commit_row (row : RevisionRecord) (user_mapping : gmap string string)
    (page_prefixes : list string) (args : Args) (missing_users : gmap string Z)
  : M World (gmap string Z) :=
  let title := rev_title row in
  let filename1 :=
    if truthy (rev_filename row)
    then path_join (prefix args) <$> rev_filename row
    else rev_filename row in
  _ ← lift (if is_none (rev_content row) then assert (startswith title "File:") else Ok tt);
  if ignore_by_prefix title page_prefixes then mret missing_users
  else if startswith title "File:" then
    commit_file title filename1 (rev_date row) (rev_username row) (rev_content row)
      (rev_comment row) user_mapping args missing_users
  else if startswith title "Template:" then mret missing_users
  else
    _ ← lift (assert (is_none filename1));
    let md_filename := make_filename title (markdown_ext args) (prefix args) in
    let mw_filename := make_filename title (mediawiki_ext args) (prefix args) in
    match rev_content row with
    | None => raise AttributeError
    | Some text =>
        converted ← dump_revision mw_filename md_filename text title args (rev_date row);
        if converted : bool then
          commit_revision mw_filename md_filename (rev_username row) (rev_date row)
            (rev_comment row) user_mapping args missing_users
        else
          _ ← run (git_reset_cmd args);
          mret missing_users
    end.

(** The loop over the rows the cursor yields.  Every action is recorded
    with the row during whose round it was done. *)
Fixpoint commit_loop (rows : list RevisionRecord) (user_mapping : gmap string string)
    (page_prefixes : list string) (args : Args) (missing_users : gmap string Z)
    (st : State World)
  : Res (gmap string Z) * State World * list (RevisionRecord * Action) :=
  match rows with
  | [] => (Ok missing_users, st, [])
  | row :: rest =>
      match commit_row row user_mapping page_prefixes args missing_users st with
      | (Ok missing_users1, st1, acts) =>
          let '(r, st2, log) :=
            commit_loop rest user_mapping page_prefixes args missing_users1 st1 in
          (r, st2, map (pair row) acts ++ log)
      | (Raise e, st1, acts) => (Raise e, st1, map (pair row) acts)
      end
  end.

Definition commit_revisions (table : list RevisionRecord)
    (user_mapping : gmap string string) (page_prefixes : list string)
    (args : Args) (missing_users : gmap string Z) (st : State World)
  : Res (gmap string Z) * State World * list (RevisionRecord * Action) :=
  commit_loop (order_by_date_title table) user_mapping page_prefixes args missing_users st.

(** The rows for which a commit was issued, in the order of the commits. *)
Definition committed (log : list (RevisionRecord * Action)) : list RevisionRecord :=
  fst <$> filter (fun e => is_commit (snd e) = true) log.

End Pipeline.

(** ** Texts on which rules of the cleaner find nothing *)

(** No tag of one of the languages: no opening tag in whatever case, none
    with attributes, no closing tag. *)
Definition lang_tag_free (s : string) : bool :=
  forallb (fun lang =>
             negb (contains (lower s) ("<" +:+ lang +:+ ">")) &&
             negb (contains s ("<" +:+ lang +:+ " ")) &&
             negb (contains s ("</" +:+ lang +:+ ">")))
          languages.

(** Nothing for the rules before the category rule: no left-to-right mark,
    no language tag, no wrapper div. *)
Definition markup_plain (s : string) : bool :=
  negb (contains s ltr_mark) && lang_tag_free s && negb (contains s "<div ").

(** Nothing for any rule: neither a table-of-contents token, nor a
    category tag, nor a category or user link to escape. *)
Definition already_clean (s : string) : bool :=
  markup_plain s &&
  forallb (fun token => negb (contains s token)) toc_tokens &&
  negb (contains s "[[Category:") &&
  negb (contains s "[[:Category:") &&
  negb (contains s "[[User:").

(** ** A small export and a small world, for examples *)

Definition ns (tag : string) : string := "{http://www.mediawiki.org/xml/export-0.10/}" +:+ tag.

Definition start_el (tag : string) : string * Element :=
  ("start", {| el_tag := ns tag; el_text := None; el_attrib := ∅ |}).

Definition end_el (tag : string) (txt : option string) : string * Element :=
  ("end", {| el_tag := ns tag; el_text := txt; el_attrib := ∅ |}).

(** A page with one edit. *)
Definition sample_page (title user stamp txt : string) : list (string * Element) :=
  [ start_el "page"; start_el "title"; end_el "title" (Some title);
    start_el "revision";
    start_el "timestamp"; end_el "timestamp" (Some stamp);
    start_el "username"; end_el "username" (Some user);
    start_el "text"; end_el "text" (Some txt);
    end_el "revision" None; end_el "page" None ].

(** A file page with one upload; [payload] is the base64 text of the file,
    if the export has it. *)
Definition sample_upload (title user stamp name : string) (payload : option string)
  : list (string * Element) :=
  [ start_el "page"; start_el "title"; end_el "title" (Some title);
    start_el "upload";
    start_el "timestamp"; end_el "timestamp" (Some stamp);
    start_el "username"; end_el "username" (Some user);
    start_el "filename"; end_el "filename" (Some name) ] ++
  match payload with
  | Some p =>
      [ ("start", {| el_tag := ns "contents"; el_text := None;
                     el_attrib := {[ "encoding" := "base64" ]} |});
        end_el "contents" (Some p) ]
  | None => []
  end ++
  [ end_el "upload" None; end_el "page" None ].

Definition sample_tree : list (string * Element) :=
  sample_page "Zebra" "alice" "2001-01-03T00:00:00Z" "Striped. [[Category:Animals]]" ++
  sample_page "Talk:Zebra" "bob" "2001-01-01T00:00:00Z" "Discussion" ++
  sample_page "Apple" "spammer" "2001-01-02T00:00:00Z" "Buy now" ++
  sample_page "Apple" "bob" "2001-01-02T00:00:00Z" "A fruit." ++
  sample_page "Broken" "bob" "2001-01-02T00:00:00Z" "{| unclosed" ++
  sample_page "Old Name" "" "2001-01-02T00:00:00Z" "#REDIRECT [[Apple]]" ++
  sample_upload "File:Logo.png" "alice" "2001-01-04T00:00:00Z" "Logo.png" (Some "aGVsbG8=").

(** An export whose only upload comes without its content. *)
Definition sample_tree_bare_upload : list (string * Element) :=
  sample_page "Apple" "bob" "2001-01-02T00:00:00Z" "A fruit." ++
  sample_upload "File:Logo.png" "alice" "2001-01-04T00:00:00Z" "Logo.png" None.

Definition sample_blocklist : gset string := {[ "spammer" ]}.

Definition sample_args : Args :=
  {| prefix := "wiki/"; mediawiki_ext := "mediawiki"; markdown_ext := "md";
     default_email := "anonymous.contributor@example.org";
     default_layout := "wiki"; git := "git"; pandoc := "pandoc" |}.

(** A transcoder that fails on an unclosed table and echoes anything else. *)
Definition sample_pandoc (st : State unit) (argv : list string) : Z * string * string :=
  match last argv ≫= (fun path => files st !! path) with
  | Some content =>
      if contains content "{|" then (1, EmptyString, "parse error")
      else (0, content, EmptyString)
  | None => (1, EmptyString, "no such file")
  end.

(** A git that always succeeds and leaves the working tree alone. *)
Definition sample_tools : Tools unit :=
  {| run_pandoc := sample_pandoc;
     os_system := fun st _ => (0, st);
     run_git_commit := fun _ _ _ => (0, EmptyString, EmptyString, tt);
     b64decode := fun s => Some s |}.

(** A git whose [reset] fails. *)
Definition failing_reset_tools : Tools unit :=
  {| run_pandoc := sample_pandoc;
     os_system := fun st cmd => if String.eqb cmd "git reset --hard" then (1, st) else (0, st);
     run_git_commit := fun _ _ _ => (0, EmptyString, EmptyString, tt);
     b64decode := fun s => Some s |}.

Definition empty_state : State unit := {| world := tt; files := ∅ |}.

(** The rows of the sample export. *)
Definition page_row (title user stamp txt : string) : RevisionRecord :=
  {| rev_title := title; rev_filename := None; rev_date := Some stamp;
     rev_username := user; rev_content := Some txt; rev_comment := EmptyString |}.

Definition zebra_row : RevisionRecord :=
  page_row "Zebra" "alice" "2001-01-03T00:00:00Z" "Striped. [[Category:Animals]]".
Definition apple_row : RevisionRecord :=
  page_row "Apple" "bob" "2001-01-02T00:00:00Z" "A fruit.".
Definition broken_row : RevisionRecord :=
  page_row "Broken" "bob" "2001-01-02T00:00:00Z" "{| unclosed".
Definition old_name_row : RevisionRecord :=
  page_row "Old Name" EmptyString "2001-01-02T00:00:00Z" "#REDIRECT [[Apple]]".

Definition logo_row (payload : option string) : RevisionRecord :=
  {| rev_title := "File:Logo.png"; rev_filename := Some "Logo.png";
     rev_date := Some "2001-01-04T00:00:00Z"; rev_username := "alice";
     rev_content := payload; rev_comment := EmptyString |}.

Definition sample_table : list RevisionRecord :=
  [zebra_row; apple_row; broken_row; old_name_row; logo_row (Some "aGVsbG8=")].

(** ** Predicates of the statements *)

(** A match of the pattern of the link rewriter starts with a closing
    bracket, an opening parenthesis and an upper case letter. *)
Definition upper_link (old : string) : Prop :=
  exists u rest, old = String "]" (String "(" (String u rest)) /\ is_upper u = true.

(** What holds of every row the extraction inserts. *)
Definition staged_ok (blocklist : gset string) (r : RevisionRecord) : Prop :=
  in_bytes (rev_username r) blocklist = false /\
  (rev_content r = None -> startswith (rev_title r) "File:" = true).

(** [r1] is not after [r2] in the order of the drain. *)
Definition row_le (r1 r2 : RevisionRecord) : Prop := row_leb r1 r2 = true.

(** Case analysis on the result of a sequence of fallible steps. *)
Ltac res_cases :=
  repeat match goal with
         | H : context [mbind _ ?m] |- _ =>
             unfold mbind, res_bind in H
         | H : match ?x with _ => _ end = Ok _ |- _ =>
             destruct x eqn:?; try discriminate
         | H : Ok _ = Ok _ |- _ => injection H as ?; subst
         end.

(** ** The two flat files: [make_blocklist], [make_user_mapping] *)

(** The files are opened in text mode and read line by line, so their
    lines are byte strings: [str.strip] takes off the six white space
    characters of the C locale, and a file is the list of its lines. *)
Definition is_space_str (c : ascii) : bool :=
  match c with
  | "009" | "010" | "011" | "012" | "013" | " " => true
  | _ => false
  end%char.

Fixpoint lstrip_str (s : string) : string :=
  match s with
  | EmptyString => EmptyString
  | String c s' => if is_space_str c then lstrip_str s' else s
  end.

Fixpoint rstrip_str (s : string) : string :=
  match s with
  | EmptyString => EmptyString
  | String c s' =>
      match rstrip_str s' with
      | EmptyString => if is_space_str c then EmptyString else String c EmptyString
      | r => String c r
      end
  end.

Definition strip_str (s : string) : string := rstrip_str (lstrip_str s).

Definition tab_char : ascii := "009"%char.

(** [s.split(sep)] for a separator of one character. *)
Fixpoint split_on (sep : ascii) (s : string) : list string :=
  match s with
  | EmptyString => [EmptyString]
  | String c s' =>
      if Ascii.eqb c sep then EmptyString :: split_on sep s'
      else match split_on sep s' with
           | h :: t => String c h :: t
           | [] => [String c EmptyString]
           end
  end.

Definition make_blocklist (handle : list string) : gset string :=
  fold_left (fun blocklist line => blocklist ∪ {[ strip_str line ]}) handle ∅.

(** The body of the loop of [make_user_mapping]: a blank line is passed
    over; a line that does not split into two fields at the tab, or whose
    second field does not look like [name <email>], ends the run with
    [sys.exit(1)]. *)
Definition user_table_line (user_mapping : gmap string string) (line : string)
  : Res (gmap string string) :=
  match strip_str line with
  | EmptyString => Ok user_mapping
  | stripped =>
      match split_on tab_char stripped with
      | [username; github] =>
          if negb (contains github " <") || negb (contains github "@")
             || negb (contains github ">")
          then Raise (SystemExit 1)
          else Ok (<[username := github]> user_mapping)
      | _ => Raise (SystemExit 1)
      end
  end.

Fixpoint user_table_loop (handle : list string) (user_mapping : gmap string string)
  : Res (gmap string string) :=
  match handle with
  | [] => Ok user_mapping
  | line :: rest =>
      user_mapping1 ← user_table_line user_mapping line;
      user_table_loop rest user_mapping1
  end.

Definition make_user_mapping (handle : list string) : Res (gmap string string) :=
  user_table_loop handle ∅.

(** ** Titles that differ by case only: [check_for_name_collisions] *)

Fixpoint insert_title (t : string) (sorted : list string) : list string :=
  match sorted with
  | [] => [t]
  | x :: rest =>
      match String.compare t x with
      | Lt => t :: sorted
      | Eq => sorted
      | Gt => x :: insert_title t rest
      end
  end.

(** [SELECT DISTINCT title FROM revisions ORDER BY title] *)
Definition distinct_titles (table : list RevisionRecord) : list string :=
  foldr (fun row sorted => insert_title (rev_title row) sorted) [] table.

(** The loop over the titles, [names] being the dictionary from lower case
    titles to titles.  The result is the pair of titles of the warning the
    loop prints before it breaks, if it prints one. *)
Fixpoint collisions_loop (titles : list string) (page_prefixes : list string)
    (names : gmap string string) : Res (option (string * string)) :=
  match titles with
  | [] => Ok None
  | title :: rest =>
      if ignore_by_prefix title page_prefixes then Raise AssertionError
      else match names !! lower title with
           | None => collisions_loop rest page_prefixes (<[lower title := title]> names)
           | Some seen =>
               if String.eqb seen title then collisions_loop rest page_prefixes names
               else Ok (Some (title, seen))
           end
  end.

(** [platform] is [sys.platform]. *)
Definition check_for_name_collisions (platform : string) (table : list RevisionRecord)
    (page_prefixes : list string) : Res (option (string * string)) :=
  if negb (String.eqb platform "linux2")
  then collisions_loop (distinct_titles table) page_prefixes ∅
  else Ok None.

(** ** A username outside ASCII *)

(** [José]: the last letter is U+00E9, two bytes in UTF-8. *)
Definition jose : string := "Jos" +:+ String "195"%char (String "169"%char EmptyString).

(** A page with one edit by that user, and the row of the edit. *)
Definition jose_tree : list (string * Element) :=
  sample_page "Cafe" jose "2001-01-05T00:00:00Z" "Coffee.".

Definition jose_row : RevisionRecord :=
  page_row "Cafe" jose "2001-01-05T00:00:00Z" "Coffee.".

(** The line of the user table that maps the user, and the line of the
    blocklist that names the user. *)
Definition jose_mapping_line : string :=
  jose +:+ String tab_char "Jose Garcia <jose@x.org>" +:+ nl.

Definition jose_blocklist_line : string := jose +:+ nl.

(** ** Further predicates of the statements *)

(** A process that ended with a return code the script does not survive:
    [run] and the commit call [sys.exit] on a code other than zero; the
    code of pandoc is looked at, but not fatal. *)
Definition failed (a : Action) : bool :=
  match a with
  | ActPandoc _ _ _ _ => false
  | ActSystem _ return_code => negb (return_code =? 0)
  | ActCommit _ _ returncode => negb (returncode =? 0)
  end.

Definition return_code_of (a : Action) : Z :=
  match a with
  | ActPandoc _ returncode _ _ => returncode
  | ActSystem _ return_code => return_code
  | ActCommit _ _ returncode => returncode
  end.

(** The title of a staged row is in the file namespace or outside the
    excluded ones. *)
Definition staged_title_ok (prefixes : list string) (r : RevisionRecord) : Prop :=
  startswith (rev_title r) "File:" = true \/
  ignore_by_prefix (rev_title r) prefixes = false.

(** An entry of the user mapping, as a line of the file gives it. *)
Definition entry_of_line (line username github : string) : Prop :=
  strip_str line = username +:+ String tab_char github /\
  username <> EmptyString /\
  contains username (String tab_char EmptyString) = false /\
  contains github (String tab_char EmptyString) = false /\
  contains github " <" = true /\ contains github "@" = true /\
  contains github ">" = true.

(** The dictionary of [check_for_name_collisions] holds, under its lower
    case form, every title seen so far, and nothing else. *)
Definition names_of (names : gmap string string) (seen : list string) : Prop :=
  (forall v, In v seen -> names !! lower v = Some v) /\
  (forall k v, names !! k = Some v -> In v seen /\ k = lower v).

(** ** What a round of the commit loop can do *)

(** [sys.exit], as against the exceptions of a failing statement. *)
Definition is_exit (e : Exn) : bool :=
  match e with SystemExit _ => true | _ => false end.

(** The author of a commit: [resolve_author] without the tally. *)
Definition author_of (username : string) (user_mapping : gmap string string)
    (default_email : string) : string :=
  (resolve_author username user_mapping default_email ∅).1.

(** The message of the commit of a row: its comment, or the one the
    caller of [commit_files] puts for an empty comment. *)
Definition round_message (row : RevisionRecord) : string :=
  match rev_comment row with
  | EmptyString =>
      if startswith (rev_title row) "File:" then "No comment" else "Change to wiki page"
  | comment => comment
  end.

(** The name under which an upload is written, below the prefix. *)
Definition upload_name (row : RevisionRecord) : Res string :=
  match rev_filename row with
  | Some (String c f) => Ok (String c f)
  | _ => make_canonical (slice_from 5 (rev_title row))
  end.

(** What [commit_files] can have done when it is over, with the result it
    then has: nothing, an assertion having failed; a [git add] that failed;
    a [git add] and no commit for want of a date; a [git add] and the
    commit, which decides the result. *)
Inductive files_round (args : Args) (filenames : list string) (date : option string)
    (author message : string) (missing_users1 : gmap string Z)
  : Res (gmap string Z) -> list Action -> Prop :=
  | files_assert :
      files_round args filenames date author message missing_users1
        (Raise AssertionError) []
  | files_add_failed (return_code : Z) :
      return_code <> 0 ->
      files_round args filenames date author message missing_users1
        (Raise (SystemExit return_code))
        [ActSystem (git_add_cmd args filenames) return_code]
  | files_no_date :
      date = None ->
      files_round args filenames date author message missing_users1
        (Raise TypeError) [ActSystem (git_add_cmd args filenames) 0]
  | files_commit (d : string) (returncode : Z) :
      date = Some d ->
      files_round args filenames date author message missing_users1
        (if returncode =? 0 then Ok missing_users1 else Raise (SystemExit returncode))
        [ActSystem (git_add_cmd args filenames) 0;
         ActCommit (git_commit_argv args filenames d author) message returncode].

(** A row the loop takes to [dump_revision]: an ordinary page. *)
Definition ordinary_page (page_prefixes : list string) (row : RevisionRecord) : Prop :=
  ignore_by_prefix (rev_title row) page_prefixes = false /\
  startswith (rev_title row) "File:" = false /\
  startswith (rev_title row) "Template:" = false.

(** What the body of the loop can have done for a row when it is over:
    nothing, with an exception or the row being passed over; the commit of
    an upload; the transcoder and the reset; the commit of a page, after
    the transcoder unless the page is a redirect. *)
Inductive row_round (user_mapping : gmap string string) (page_prefixes : list string)
    (args : Args) (missing_users : gmap string Z) (row : RevisionRecord)
  : Res (gmap string Z) -> list Action -> Prop :=
  | round_raise (e : Exn) :
      is_exit e = false ->
      row_round user_mapping page_prefixes args missing_users row (Raise e) []
  | round_skip :
      ignore_by_prefix (rev_title row) page_prefixes = true \/
      (startswith (rev_title row) "File:" = false /\
       startswith (rev_title row) "Template:" = true) ->
      row_round user_mapping page_prefixes args missing_users row (Ok missing_users) []
  | round_upload (name : string) (res : Res (gmap string Z)) (acts : list Action) :
      ignore_by_prefix (rev_title row) page_prefixes = false ->
      startswith (rev_title row) "File:" = true ->
      upload_name row = Ok name ->
      files_round args [path_join (prefix args) name] (rev_date row)
        (author_of (rev_username row) user_mapping (default_email args))
        (round_message row)
        (resolve_author (rev_username row) user_mapping (default_email args) missing_users).2
        res acts ->
      row_round user_mapping page_prefixes args missing_users row res acts
  | round_reset (returncode : Z) (stdout stderr : string) (return_code : Z) :
      ordinary_page page_prefixes row ->
      returncode <> 0 \/ stdout = EmptyString ->
      row_round user_mapping page_prefixes args missing_users row
        (if return_code =? 0 then Ok missing_users else Raise (SystemExit return_code))
        [ActPandoc (pandoc_argv args
                      (make_filename (rev_title row) (mediawiki_ext args) (prefix args)))
           returncode stdout stderr;
         ActSystem (git_reset_cmd args) return_code]
  | round_page (pre : list Action) (res : Res (gmap string Z)) (acts : list Action) :
      ordinary_page page_prefixes row ->
      pre = [] \/
      (exists stdout stderr,
         stdout <> EmptyString /\
         pre = [ActPandoc (pandoc_argv args
                             (make_filename (rev_title row) (mediawiki_ext args)
                                (prefix args)))
                  0 stdout stderr]) ->
      files_round args
        [make_filename (rev_title row) (markdown_ext args) (prefix args);
         make_filename (rev_title row) (mediawiki_ext args) (prefix args)]
        (rev_date row)
        (author_of (rev_username row) user_mapping (default_email args))
        (round_message row)
        (resolve_author (rev_username row) user_mapping (default_email args) missing_users).2
        res acts ->
      row_round user_mapping page_prefixes args missing_users row res (pre ++ acts).

(** The tally of a username: the number under its key, none being 0. *)
Definition tally (missing_users : gmap string Z) (username : string) : Z :=
  default 0 (missing_users !! username).

(** How often a commit of the log belongs to a row of the username. *)
Definition commits_of (username : string) (log : list (RevisionRecord * Action)) : Z :=
  Z.of_nat (length (filter (fun r => rev_username r = username) (committed log))).

(** The files a round stages: the file of an upload, or the rendered and
    the raw-markup file of a page. *)
Definition staged_files (args : Args) (row : RevisionRecord) : Res (list string) :=
  if startswith (rev_title row) "File:" then
    name ← upload_name row; Ok [path_join (prefix args) name]
  else
    Ok [make_filename (rev_title row) (markdown_ext args) (prefix args);
        make_filename (rev_title row) (mediawiki_ext args) (prefix args)].

(** A username the tally counts: not empty, and not found in the mapping. *)
Definition tallied (user_mapping : gmap string string) (username : string) : bool :=
  match lookup_bytes username user_mapping, username with
  | None, String _ _ => true
  | _, _ => false
  end.

(** The rounds of a run of the loop, with the log they leave. *)
Inductive loop_rounds (user_mapping : gmap string string) (page_prefixes : list string)
    (args : Args)
  : gmap string Z -> list RevisionRecord -> Res (gmap string Z) ->
    list (RevisionRecord * Action) -> Prop :=
  | rounds_done (missing_users : gmap string Z) :
      loop_rounds user_mapping page_prefixes args missing_users [] (Ok missing_users) []
  | rounds_next (missing_users : gmap string Z) (row : RevisionRecord)
      (rest : list RevisionRecord) (missing_users1 : gmap string Z) (acts : list Action)
      (res : Res (gmap string Z)) (log : list (RevisionRecord * Action)) :
      row_round user_mapping page_prefixes args missing_users row (Ok missing_users1) acts ->
      loop_rounds user_mapping page_prefixes args missing_users1 rest res log ->
      loop_rounds user_mapping page_prefixes args missing_users (row :: rest) res
        (map (pair row) acts ++ log)
  | rounds_abort (missing_users : gmap string Z) (row : RevisionRecord)
      (rest : list RevisionRecord) (e : Exn) (acts : list Action) :
      row_round user_mapping page_prefixes args missing_users row (Raise e) acts ->
      loop_rounds user_mapping page_prefixes args missing_users (row :: rest) (Raise e)
        (map (pair row) acts).

(** How a run ends with respect to the processes it started: either it
    ends with [sys.exit] on the return code of its last process, the only
    one that failed, or none of its processes failed and it ends otherwise. *)
Definition ends_as (res : Res (gmap string Z)) (acts : list Action) : Prop :=
  match res with
  | Raise (SystemExit code) =>
      code <> 0 /\
      exists pre a, acts = pre ++ [a] /\ failed a = true /\ return_code_of a = code /\
                    Forall (fun b => failed b = false) pre
  | _ => Forall (fun b => failed b = false) acts
  end.

(** * Properties *)

(** ** The primitives and the text functions on examples *)

Example startswith_ex : startswith "File:Logo.png" "File:" = true.
Proof. reflexivity. Qed.

Example replace_ex : replace "a b c" " " "_" = "a_b_c".
Proof. reflexivity. Qed.

Example replace_empty_old : replace "abc" EmptyString "-" = "-a-b-c-".
Proof. reflexivity. Qed.

Example strip_ex : strip "  a b  " = "a b".
Proof. reflexivity. Qed.

Example split_join_ex : join nl (split_lines ("a" +:+ nl +:+ nl +:+ "b")) = "a" +:+ nl +:+ nl +:+ "b".
Proof. reflexivity. Qed.

Example find_ex : find "<div a>x" ">" = Some 6%nat.
Proof. reflexivity. Qed.

Example run_tests_un_div : un_div pear_div = Ok "[[Image:Pear.png|left|The Bosc Pear]]".
Proof. vm_compute. reflexivity. Qed.

Example run_tests_cleanup :
  cleanup_mediawiki pear_div = Ok ("[[Image:Pear.png|left|The Bosc Pear]]", []).
Proof. vm_compute. reflexivity. Qed.

Example category_example :
  cleanup_mediawiki "Some text [[Category:Fruit]] more" = Ok ("Some text  more", ["Fruit"]).
Proof. vm_compute. reflexivity. Qed.

Example python_tag_example :
  cleanup_mediawiki ("<python>" +:+ nl +:+ "import antigravity" +:+ nl +:+ "</python>")
  = Ok ("<source lang=python" +:+ nl +:+ "import antigravity" +:+ nl +:+ "</source>", []).
Proof. vm_compute. reflexivity. Qed.

Example cleanup_markdown_das :
  cleanup_markdown ("[DAS/1](DAS/1" +:+ wikilink_tail) "wiki/DAS/1/" "wiki/"
  = Ok ("[DAS/1](/wiki/DAS/1" +:+ wikilink_tail).
Proof. vm_compute. reflexivity. Qed.

Example cleanup_markdown_http :
  cleanup_markdown ("[x](http://e.org/ " +:+ dq +:+ "wikilink" +:+ dq +:+ ")") "wiki/DAS/1/" "wiki/"
  = Ok ("[x](http://e.org/ " +:+ dq +:+ "wikilink" +:+ dq +:+ ")").
Proof. vm_compute. reflexivity. Qed.

Example clean_tag_ex :
  clean_tag "{http://www.mediawiki.org/xml/export-0.10/}title" = "title".
Proof. vm_compute. reflexivity. Qed.

Example make_url_ex : make_url "Target Page" "wiki/" = "wiki/Target_Page/".
Proof. vm_compute. reflexivity. Qed.

Example make_filename_ex :
  make_filename "Category:A/B c" "md" "wiki/" = "wiki/Category_A_B_c.md".
Proof. vm_compute. reflexivity. Qed.

Example make_canonical_ex : make_canonical "biopython Small.JPG" = Ok "Biopython_small.jpg".
Proof. vm_compute. reflexivity. Qed.

(** ** Facts about the string primitives *)

Section StringFacts.

Lemma app_cons (c : ascii) (s t : string) : String c s +:+ t = String c (s +:+ t).
Proof. reflexivity. Qed.

Lemma app_empty_l (s : string) : EmptyString +:+ s = s.
Proof. reflexivity. Qed.

Lemma app_empty_r (s : string) : s +:+ EmptyString = s.
Proof. induction s as [|c s IH]; [reflexivity|]. rewrite app_cons, IH. reflexivity. Qed.

Lemma app_assoc_s (a b c : string) : (a +:+ b) +:+ c = a +:+ (b +:+ c).
Proof.
  induction a as [|x a IH]; [reflexivity|].
  rewrite !app_cons, IH. reflexivity.
Qed.

Lemma len_app (a b : string) : len (a +:+ b) = (len a + len b)%nat.
Proof.
  induction a as [|x a IH]; [reflexivity|].
  rewrite app_cons. simpl. rewrite IH. reflexivity.
Qed.

Lemma startswith_empty (s : string) : startswith s EmptyString = true.
Proof. destruct s; reflexivity. Qed.

Lemma startswith_app (p s : string) : startswith (p +:+ s) p = true.
Proof.
  induction p as [|c p IH]; [apply startswith_empty|].
  rewrite app_cons. simpl. rewrite Ascii.eqb_refl, IH. reflexivity.
Qed.

(** A text that starts with [p +:+ q] starts with [p]. *)
Lemma startswith_app_l (s p q : string) :
  startswith s (p +:+ q) = true -> startswith s p = true.
Proof.
  revert s. induction p as [|c p IH]; intros s H; [apply startswith_empty|].
  rewrite app_cons in H. destruct s as [|b s]; simpl in *; [discriminate|].
  apply andb_true_iff in H as [-> H]. simpl. eauto.
Qed.

(** [startswith] decides being a prefix. *)
Lemma startswith_spec (s p : string) :
  startswith s p = true <-> exists r, s = p +:+ r.
Proof.
  split.
  - revert s. induction p as [|c p IH]; intros s H.
    + exists s. reflexivity.
    + destruct s as [|b s]; simpl in H; [discriminate|].
      apply andb_true_iff in H as [Hc H]. apply Ascii.eqb_eq in Hc as ->.
      destruct (IH _ H) as [r ->]. exists r. reflexivity.
  - intros [r ->]. apply startswith_app.
Qed.

Lemma slice_from_app (a b : string) : slice_from (len a) (a +:+ b) = b.
Proof. induction a as [|x a IH]; [reflexivity|]. rewrite app_cons. simpl. exact IH. Qed.

Lemma slice_from_app_plus (a b : string) (n : nat) :
  slice_from (len a + n) (a +:+ b) = slice_from n b.
Proof. induction a as [|x a IH]; [reflexivity|]. rewrite app_cons. simpl. exact IH. Qed.

Lemma slice_to_app (a b : string) : slice_to (len a) (a +:+ b) = a.
Proof.
  induction a as [|x a IH]; [reflexivity|].
  rewrite app_cons. simpl. rewrite IH. reflexivity.
Qed.

Lemma slice_to_neg_app (a b : string) : slice_to_neg (len b) (a +:+ b) = a.
Proof.
  unfold slice_to_neg. rewrite len_app.
  replace (len a + len b - len b)%nat with (len a) by lia.
  apply slice_to_app.
Qed.

Lemma endswith_app (s p : string) : endswith (s +:+ p) p = true.
Proof.
  unfold endswith. rewrite len_app.
  replace (len s + len p - len p)%nat with (len s) by lia.
  rewrite slice_from_app, String.eqb_refl.
  apply andb_true_iff. split; [|reflexivity]. apply Nat.leb_le. lia.
Qed.

Lemma contains_nil (sub : string) : contains EmptyString sub = startswith EmptyString sub.
Proof. destruct sub; reflexivity. Qed.

Lemma contains_cons (c : ascii) (s sub : string) :
  contains (String c s) sub = startswith (String c s) sub || contains s sub.
Proof. reflexivity. Qed.

Lemma find_nil (sub : string) :
  find EmptyString sub = if startswith EmptyString sub then Some O else None.
Proof. destruct sub; reflexivity. Qed.

Lemma find_cons (c : ascii) (s sub : string) :
  find (String c s) sub =
  if startswith (String c s) sub then Some O else S <$> find s sub.
Proof. reflexivity. Qed.

Lemma startswith_contains (s sub : string) :
  startswith s sub = true -> contains s sub = true.
Proof.
  intros H. destruct s; [rewrite contains_nil|rewrite contains_cons, H]; auto.
Qed.

(** [contains] decides being a substring. *)
Lemma contains_spec (s sub : string) :
  contains s sub = true <-> exists a b, s = a +:+ sub +:+ b.
Proof.
  split.
  - induction s as [|c s IH]; intros H.
    + rewrite contains_nil in H. apply startswith_spec in H as [r Hr].
      exists EmptyString, r. exact Hr.
    + rewrite contains_cons in H. apply orb_true_iff in H as [H|H].
      * apply startswith_spec in H as [r Hr]. exists EmptyString, r. exact Hr.
      * destruct (IH H) as (a & b & ->). exists (String c a), b. reflexivity.
  - intros (a & b & ->). induction a as [|c a IH].
    + rewrite app_empty_l. apply startswith_contains, startswith_app.
    + rewrite app_cons, contains_cons, IH. apply orb_true_r.
Qed.

Lemma contains_app_r (a s sub : string) :
  contains s sub = true -> contains (a +:+ s) sub = true.
Proof.
  intros (x & y & ->)%contains_spec. apply contains_spec.
  exists (a +:+ x), y. rewrite app_assoc_s. reflexivity.
Qed.

Lemma contains_app_l (s b sub : string) :
  contains s sub = true -> contains (s +:+ b) sub = true.
Proof.
  intros (x & y & ->)%contains_spec. apply contains_spec.
  exists x, (y +:+ b). rewrite !app_assoc_s. reflexivity.
Qed.

(** Where [find] answers, a match stands. *)
Lemma find_app (pre s sub : string) :
  find (pre +:+ s) sub = Some (len pre) ->
  startswith s sub = true.
Proof.
  induction pre as [|c pre IH].
  - rewrite app_empty_l. destruct s as [|b s].
    + rewrite find_nil. destruct (startswith EmptyString sub); [reflexivity|discriminate].
    + rewrite find_cons. destruct (startswith (String b s) sub); [reflexivity|].
      destruct (find s sub); discriminate.
  - rewrite app_cons, find_cons.
    destruct (startswith (String c (pre +:+ s)) sub); [discriminate|].
    destruct (find (pre +:+ s) sub) as [n|] eqn:E; [|discriminate].
    simpl. intros [= ->]. exact (IH eq_refl).
Qed.

Lemma find_none_contains (s sub : string) :
  find s sub = None <-> contains s sub = false.
Proof.
  induction s as [|c s IH].
  - rewrite find_nil, contains_nil.
    destruct (startswith EmptyString sub); split; congruence.
  - rewrite find_cons, contains_cons.
    destruct (startswith (String c s) sub); simpl; [split; congruence|].
    rewrite <- IH. destruct (find s sub); simpl; split; congruence.
Qed.

(** The first match of a longer pattern stands where the first match of
    its beginning stands, when it matches there. *)
Lemma find_extend (pre s p q : string) :
  find (pre +:+ s) p = Some (len pre) ->
  startswith s (p +:+ q) = true ->
  find (pre +:+ s) (p +:+ q) = Some (len pre).
Proof.
  intros Hf Hs. induction pre as [|c pre IH].
  - rewrite app_empty_l in *. destruct s; [rewrite find_nil|rewrite find_cons];
      rewrite Hs; reflexivity.
  - rewrite app_cons, find_cons in *.
    destruct (startswith (String c (pre +:+ s)) p) eqn:E1; [discriminate|].
    destruct (startswith (String c (pre +:+ s)) (p +:+ q)) eqn:E2.
    { apply startswith_app_l in E2. congruence. }
    destruct (find (pre +:+ s) p) as [n|] eqn:E; [|discriminate].
    simpl in Hf. injection Hf as ->. rewrite (IH eq_refl). reflexivity.
Qed.

Lemma replace_go_cons (old new : string) (c : ascii) (s : string) :
  replace_go old new O (String c s) =
  if startswith (String c s) old
  then new +:+ replace_go old new (len old - 1) s
  else String c (replace_go old new O s).
Proof. reflexivity. Qed.

(** Replacing leaves a text without a match as it is. *)
Lemma replace_go_absent (old new s : string) :
  contains s old = false -> replace_go old new O s = s.
Proof.
  induction s as [|c s IH]; [reflexivity|].
  rewrite contains_cons, replace_go_cons. intros H.
  apply orb_false_iff in H as [H1 H2].
  rewrite H1, (IH H2). reflexivity.
Qed.

Lemma replace_absent (s old new : string) :
  old <> EmptyString -> contains s old = false -> replace s old new = s.
Proof.
  intros Hne H. unfold replace. destruct old; [congruence|].
  apply replace_go_absent, H.
Qed.

(** The characters of a match are dropped. *)
Lemma replace_go_skip (old new a s : string) :
  replace_go old new (len a) (a +:+ s) = replace_go old new O s.
Proof.
  induction a as [|c a IH]; [reflexivity|].
  rewrite app_cons. simpl. exact IH.
Qed.

(** Replacing up to and across the first match. *)
Lemma replace_go_first (old new pre s : string) :
  old <> EmptyString ->
  find (pre +:+ old +:+ s) old = Some (len pre) ->
  replace_go old new O (pre +:+ old +:+ s) = pre +:+ new +:+ replace_go old new O s.
Proof.
  intros Hne. induction pre as [|c pre IH]; intros Hf.
  - rewrite !app_empty_l. destruct old as [|o old]; [congruence|].
    rewrite app_cons, replace_go_cons, <- app_cons, startswith_app.
    cbn [len]. replace (S (len old) - 1)%nat with (len old) by lia.
    rewrite replace_go_skip. reflexivity.
  - rewrite !app_cons, find_cons, replace_go_cons in *.
    destruct (startswith (String c (pre +:+ old +:+ s)) old) eqn:E; [discriminate|].
    destruct (find (pre +:+ old +:+ s) old) as [n|] eqn:E2; [|discriminate].
    simpl in Hf. injection Hf as ->. rewrite (IH eq_refl). reflexivity.
Qed.

End StringFacts.

(** ** Stripping and single characters *)

Section StripFacts.

Lemma lstrip_keep (c : ascii) (s : string) :
  is_space c = false -> lstrip (String c s) = String c s.
Proof. intros H. simpl. rewrite H. reflexivity. Qed.

Lemma rstrip_cons (c : ascii) (s : string) :
  rstrip (String c s) =
  match rstrip s with
  | EmptyString => if is_space c then EmptyString else String c EmptyString
  | r => String c r
  end.
Proof. reflexivity. Qed.

Lemma app_nonempty_r (s t : string) : t <> EmptyString -> s +:+ t <> EmptyString.
Proof. intros H. destruct s; [exact H|rewrite app_cons; discriminate]. Qed.

(** Text before something that survives [rstrip] survives with it. *)
Lemma rstrip_app_keep (s t : string) :
  rstrip t <> EmptyString -> rstrip (s +:+ t) = s +:+ rstrip t.
Proof.
  intros Ht. induction s as [|c s IH]; [reflexivity|].
  rewrite app_cons, rstrip_cons, IH.
  pose proof (app_nonempty_r s _ Ht) as Hne.
  destruct (s +:+ rstrip t) eqn:E; [congruence|].
  rewrite app_cons, E. reflexivity.
Qed.

Lemma startswith_char (b c : ascii) (s : string) :
  startswith (String b s) (String c EmptyString) = Ascii.eqb c b.
Proof. simpl. rewrite startswith_empty. apply andb_true_r. Qed.

(** The first place of a character that the text before does not have. *)
Lemma find_char_first (a r : string) (c : ascii) :
  contains a (String c EmptyString) = false ->
  find (a +:+ String c r) (String c EmptyString) = Some (len a).
Proof.
  induction a as [|b a IH]; intros H.
  - rewrite app_empty_l, find_cons, startswith_char, Ascii.eqb_refl. reflexivity.
  - rewrite contains_cons, startswith_char in H.
    apply orb_false_iff in H as [H1 H2].
    rewrite app_cons, find_cons, startswith_char, H1, (IH H2). reflexivity.
Qed.

Lemma contains_char_app (a b : string) (c : ascii) :
  contains (a +:+ b) (String c EmptyString) =
  contains a (String c EmptyString) || contains b (String c EmptyString).
Proof.
  induction a as [|x a IH]; [reflexivity|].
  rewrite app_cons, !contains_cons, !startswith_char, IH. apply orb_assoc.
Qed.

End StripFacts.

(** ** [clean_tag] *)

Lemma len_slice_from (n : nat) (s : string) : len (slice_from n s) = (len s - n)%nat.
Proof.
  revert s. induction n as [|n IH]; intros s; simpl; [lia|].
  destruct s as [|c s]; simpl; [reflexivity|apply IH].
Qed.

Lemma find_char_lt (s : string) (c : ascii) (i : nat) :
  find s (String c EmptyString) = Some i -> (i < len s)%nat.
Proof.
  revert i. induction s as [|b s IH]; intros i; [discriminate|].
  rewrite find_cons. destruct (startswith (String b s) (String c EmptyString)).
  - intros [= <-]. simpl. lia.
  - destruct (find s (String c EmptyString)) as [j|]; [|discriminate].
    intros [= <-]. specialize (IH j eq_refl). simpl. lia.
Qed.

(** The rounds given to the loop of [clean_tag] are enough: no brace is
    left in what it returns. *)
Lemma clean_tag_loop_done (fuel : nat) (tag : string) :
  (len tag <= fuel)%nat -> contains (clean_tag_loop fuel tag) "}" = false.
Proof.
  revert tag. induction fuel as [|fuel IH]; intros tag Hlen.
  - destruct tag; [reflexivity|simpl in Hlen; lia].
  - cbn [clean_tag_loop]. destruct (find tag "}") as [i|] eqn:E.
    + apply IH. rewrite len_slice_from. apply find_char_lt in E. lia.
    + apply find_none_contains, E.
Qed.

Lemma clean_tag_no_brace (tag : string) : contains (clean_tag tag) "}" = false.
Proof. apply clean_tag_loop_done. lia. Qed.

(** ** [un_div] *)

(** C8, as the code has it: for a text [<div ATTRS>INNER</div>] whose
    attribute text has no [>], [un_div] returns INNER stripped of leading
    and trailing white space; it is INNER itself only when INNER has none. *)
Theorem un_div_returns_stripped_inner (attrs inner : string) :
  contains attrs ">" = false ->
  un_div ("<div " +:+ attrs +:+ ">" +:+ inner +:+ "</div>") = Ok (strip inner).
Proof.
  intros Hattrs.
  set (body := "<div " +:+ attrs +:+ ">" +:+ inner).
  assert (Htext : "<div " +:+ attrs +:+ ">" +:+ inner +:+ "</div>" = body +:+ "</div>").
  { unfold body. rewrite !app_assoc_s. reflexivity. }
  rewrite Htext. unfold un_div.
  assert (Hstrip : strip (body +:+ "</div>") = body +:+ "</div>").
  { unfold strip, body. rewrite !app_assoc_s.
    change ("<div " +:+ attrs +:+ ">" +:+ inner +:+ "</div>")
      with (String "<" ("div " +:+ attrs +:+ ">" +:+ inner +:+ "</div>")).
    rewrite lstrip_keep by reflexivity.
    change (String "<" ("div " +:+ attrs +:+ ">" +:+ inner +:+ "</div>"))
      with ("<div " +:+ attrs +:+ ">" +:+ inner +:+ "</div>").
    rewrite <- !app_assoc_s. rewrite rstrip_app_keep by discriminate.
    reflexivity. }
  rewrite Hstrip.
  assert (Hstart : startswith (body +:+ "</div>") "<div " = true).
  { unfold body. rewrite !app_assoc_s. apply startswith_app. }
  rewrite Hstart, endswith_app. cbn [andb].
  change 6%nat with (len "</div>"). rewrite slice_to_neg_app.
  assert (Hfind : find body ">" = Some (len ("<div " +:+ attrs))).
  { unfold body. rewrite <- app_assoc_s. apply find_char_first.
    rewrite contains_char_app, Hattrs. reflexivity. }
  rewrite Hfind. f_equal. f_equal.
  unfold body. rewrite <- app_assoc_s.
  rewrite (slice_from_app_plus ("<div " +:+ attrs) (">" +:+ inner) 1). reflexivity.
Qed.

(** The theorem at the text of the script's own test. *)
Lemma un_div_returns_stripped_inner_witness :
  contains "class=pear" ">" = false /\
  un_div ("<div " +:+ "class=pear" +:+ ">" +:+ " [[Image:Pear.png]] " +:+ "</div>")
  = Ok (strip " [[Image:Pear.png]] ").
Proof.
  split; [reflexivity|].
  apply (un_div_returns_stripped_inner "class=pear" " [[Image:Pear.png]] ").
  reflexivity.
Defined.

(** C8 as stated fails: the inner text has no wrapper in it, and what
    [un_div] returns has lost the blanks around it. *)
Lemma un_div_inner_unchanged_counterexample :
  contains " [[Image:Pear.png]] " "<div " = false /\
  un_div ("<div " +:+ "class=pear" +:+ ">" +:+ " [[Image:Pear.png]] " +:+ "</div>")
  = Ok "[[Image:Pear.png]]" /\
  un_div ("<div " +:+ "class=pear" +:+ ">" +:+ " [[Image:Pear.png]] " +:+ "</div>")
  <> Ok " [[Image:Pear.png]] ".
Proof. vm_compute. repeat split; congruence. Qed.

(** ** Authorship resolution *)

(** C6 at a mapped username outside ASCII: the user table has a line for
    [José], and [make_user_mapping] reads it into the mapping under the
    bytes of the name.  The username of a row of the table is a text, not
    a byte string, so the test [username in user_mapping] does not find
    it: whatever the default email and the tally, the author is built
    from the username and the default email, not the mapped identity, and
    the username is counted among the missing ones. *)
Theorem resolve_author_misses_mapped_username (default_email : string)
    (missing_users : gmap string Z) :
  exists user_mapping,
    make_user_mapping [jose_mapping_line] = Ok user_mapping /\
    user_mapping !! jose = Some "Jose Garcia <jose@x.org>" /\
    resolve_author jose user_mapping default_email missing_users
    = (jose +:+ " <" +:+ default_email +:+ ">",
       <[jose := default 0 (missing_users !! jose) + 1]> missing_users) /\
    (resolve_author jose user_mapping default_email missing_users).1
    <> "Jose Garcia <jose@x.org>".
Proof.
  exists {[ jose := "Jose Garcia <jose@x.org>" ]}.
  split; [vm_compute; reflexivity|]. split; [apply lookup_singleton_eq|].
  assert (H : resolve_author jose {[ jose := "Jose Garcia <jose@x.org>" ]}
                default_email missing_users
              = (jose +:+ " <" +:+ default_email +:+ ">",
                 <[jose := default 0 (missing_users !! jose) + 1]> missing_users)).
  { unfold resolve_author.
    change (lookup_bytes jose _) with (@None string).
    change jose with (String "J" (String "o" (String "s"
                        (String "195"%char (String "169"%char EmptyString))))).
    cbv beta iota.
    destruct (missing_users !! _); reflexivity. }
  split; [exact H|]. rewrite H. cbn [fst].
  change jose with (String "J" (String "o" (String "s"
                      (String "195"%char (String "169"%char EmptyString))))).
  rewrite !app_cons. discriminate.
Qed.

(** ** The link rewriter *)


Lemma match_at_upper (s m : string) : match_at s = Some m -> upper_link m.
Proof.
  unfold match_at.
  destruct s as [|a [|b [|u rest]]]; try discriminate.
  - destruct a as [[] [] [] [] [] [] [] []]; discriminate.
  - destruct a as [[] [] [] [] [] [] [] []]; try discriminate;
    destruct b as [[] [] [] [] [] [] [] []]; discriminate.
  - destruct (Ascii.eqb_spec a "]") as [->|Ha].
    2:{ destruct a as [[] [] [] [] [] [] [] []]; try discriminate. congruence. }
    destruct (Ascii.eqb_spec b "(") as [->|Hb].
    2:{ destruct b as [[] [] [] [] [] [] [] []]; try discriminate. congruence. }
    destruct (is_upper u) eqn:Hu; [|discriminate].
    destruct (greedy_tail rest) as [k|]; [|discriminate].
    intros [= <-]. exists u, (slice_to (k + len wikilink_tail) rest).
    split; [reflexivity|exact Hu].
Qed.

Lemma findall_go_upper (skip : nat) (s old : string) :
  In old (findall_go skip s) -> upper_link old.
Proof.
  revert skip. induction s as [|c s IH]; intros skip; [intros []|].
  cbn [findall_go]. destruct skip as [|k]; [|apply IH].
  destruct (match_at (String c s)) as [m|] eqn:E; [|apply IH].
  intros [<-|H]; [eapply match_at_upper, E|eapply IH, H].
Qed.

Lemma upper_link_not_scheme (old : string) :
  upper_link old -> startswith_any old scheme_prefixes = false.
Proof.
  intros (u & rest & -> & Hu).
  assert (Hne : forall c, is_upper c = false -> Ascii.eqb c u = false).
  { intros c Hc. destruct (Ascii.eqb_spec c u) as [->|]; congruence. }
  unfold startswith_any, scheme_prefixes. cbn [existsb startswith].
  rewrite !Ascii.eqb_refl, !(Hne "h"%char), !(Hne "f"%char), !(Hne "m"%char)
    by reflexivity.
  reflexivity.
Qed.

(** C10: every match the loop of [cleanup_markdown] sees starts with a
    closing bracket, an opening parenthesis and a letter of [A-Z]; so the
    test for the three schemes is false for it, the branch that skips is
    never taken, and what the loop replaces is occurrences of a text that
    has an upper case letter after the parenthesis. *)
Theorem cleanup_markdown_skip_unreachable (text old : string) :
  In old (findall text) ->
  startswith_any old scheme_prefixes = false /\
  exists u rest,
    old = String "]" (String "(" (String u rest)) /\ is_upper u = true /\
    forall prefix current,
      rewrite_link prefix current old
      = replace current old ("](/" +:+ prefix +:+ String u rest).
Proof.
  intros Hin. apply findall_go_upper in Hin.
  pose proof (upper_link_not_scheme _ Hin) as Hskip.
  split; [exact Hskip|].
  destruct Hin as (u & rest & -> & Hu). exists u, rest.
  repeat split; [exact Hu|].
  intros prefix current. unfold rewrite_link. rewrite Hskip. reflexivity.
Qed.

Lemma cleanup_markdown_skip_unreachable_witness :
  In ("](DAS/1" +:+ wikilink_tail) (findall ("[DAS/1](DAS/1" +:+ wikilink_tail)) /\
  startswith_any ("](DAS/1" +:+ wikilink_tail) scheme_prefixes = false.
Proof.
  assert (H : In ("](DAS/1" +:+ wikilink_tail) (findall ("[DAS/1](DAS/1" +:+ wikilink_tail))).
  { vm_compute. left. reflexivity. }
  split; [exact H|].
  exact (proj1 (cleanup_markdown_skip_unreachable _ _ H)).
Defined.

(** ** Invariants of the staging table *)

Section ExtractionFacts.

Variable blocklist : gset string.
Variable prefixes : list string.



Lemma close_revision_ok (p : Pending) (rows rows1 : list RevisionRecord) :
  Forall (staged_ok blocklist) rows ->
  close_revision blocklist prefixes p rows = Ok rows1 ->
  Forall (staged_ok blocklist) rows1.
Proof.
  intros Hrows H. unfold close_revision in H.
  destruct (in_bytes (default EmptyString (username p)) blocklist) eqn:Hb.
  { injection H as <-. exact Hrows. }
  res_cases; try exact Hrows.
  apply Forall_app. split; [exact Hrows|].
  constructor; [|constructor]. split; simpl; [exact Hb|congruence].
Qed.

Lemma close_upload_ok (p : Pending) (rows rows1 : list RevisionRecord) :
  Forall (staged_ok blocklist) rows ->
  close_upload blocklist p rows = Ok rows1 ->
  Forall (staged_ok blocklist) rows1.
Proof.
  intros Hrows H. unfold close_upload in H.
  destruct (title p) as [t|]; [|discriminate].
  unfold mbind, res_bind, assert in H.
  destruct (startswith t "File:") eqn:Ht; [|discriminate].
  destruct (in_bytes (default EmptyString (username p)) blocklist) eqn:Hb.
  { injection H as <-. exact Hrows. }
  rewrite orb_true_r in H. injection H as <-.
  apply Forall_app. split; [exact Hrows|].
  constructor; [|constructor]. split; simpl; [exact Hb|intros _; exact Ht].
Qed.

Lemma on_end_ok (tag : string) (element : Element) (p p1 : Pending)
    (rows rows1 : list RevisionRecord) :
  Forall (staged_ok blocklist) rows ->
  on_end blocklist prefixes tag element p rows = Ok (p1, rows1) ->
  Forall (staged_ok blocklist) rows1.
Proof.
  intros Hrows H. unfold on_end in H.
  repeat match type of H with
         | (if ?b then _ else _) = _ => destruct b
         end;
    unfold mbind, res_bind in H;
    repeat match type of H with
           | match ?x with _ => _ end = _ => destruct x eqn:?; try discriminate
           end;
    injection H as <- <-;
    first [ exact Hrows
          | eapply close_revision_ok; eassumption
          | eapply close_upload_ok; eassumption ].
Qed.

Lemma extract_step_ok (st st1 : Pending * list RevisionRecord)
    (ev : string * Element) :
  Forall (staged_ok blocklist) (snd st) ->
  extract_step blocklist prefixes st ev = Ok st1 ->
  Forall (staged_ok blocklist) (snd st1).
Proof.
  destruct st as [p rows], ev as [event element], st1 as [p1 rows1].
  intros Hrows H. simpl in Hrows. unfold extract_step in H.
  destruct (String.eqb event "start").
  - unfold mbind, res_bind in H.
    destruct (on_start _ _ _); [|discriminate].
    injection H as <- <-. exact Hrows.
  - destruct (String.eqb event "end"); [|discriminate].
    eapply on_end_ok; eauto.
Qed.

Lemma extract_loop_ok (tree : list (string * Element))
    (st st1 : Pending * list RevisionRecord) :
  Forall (staged_ok blocklist) (snd st) ->
  extract_loop blocklist prefixes tree st = Ok st1 ->
  Forall (staged_ok blocklist) (snd st1).
Proof.
  revert st. induction tree as [|ev rest IH]; intros st Hst H.
  - injection H as <-. exact Hst.
  - cbn [extract_loop] in H. unfold mbind, res_bind in H.
    destruct (extract_step blocklist prefixes st ev) as [st2|] eqn:E; [|discriminate].
    eapply IH; [|exact H]. eapply extract_step_ok; eauto.
Qed.

Lemma extract_revisions_ok (tree : list (string * Element))
    (table : list RevisionRecord) :
  extract_revisions blocklist prefixes tree = Ok table ->
  Forall (staged_ok blocklist) table.
Proof.
  unfold extract_revisions, mbind, res_bind.
  destruct (extract_loop blocklist prefixes tree (no_pending, [])) as [st|] eqn:E;
    [|discriminate].
  intros [= <-]. eapply extract_loop_ok; [|exact E]. constructor.
Qed.

End ExtractionFacts.

(** ** The order of the drain *)

Section OrderFacts.

Lemma string_leb_refl (s : string) : String.leb s s = true.
Proof.
  apply Is_true_true. change (String.le s s). reflexivity.
Qed.

Lemma string_leb_trans (a b c : string) :
  String.leb a b = true -> String.leb b c = true -> String.leb a c = true.
Proof.
  intros H1%Is_true_true H2%Is_true_true. apply Is_true_true.
  change (String.le a c). transitivity b; assumption.
Qed.

Lemma string_compare_leb (a b : string) :
  String.leb a b = match String.compare a b with Gt => false | _ => true end.
Proof. reflexivity. Qed.

Lemma string_compare_refl (a : string) : String.compare a a = Eq.
Proof.
  induction a as [|c a IH]; simpl; [reflexivity|].
  unfold Ascii.compare. rewrite N.compare_refl. exact IH.
Qed.

Lemma string_compare_lt_trans (a b c : string) :
  String.compare a b = Lt -> String.compare b c = Lt -> String.compare a c = Lt.
Proof.
  intros H1 H2.
  assert (Hac : String.leb a c = true).
  { apply (string_leb_trans a b c); rewrite string_compare_leb; [rewrite H1|rewrite H2];
      reflexivity. }
  rewrite string_compare_leb in Hac.
  destruct (String.compare a c) eqn:E; [|reflexivity|discriminate].
  apply String.compare_eq_iff in E as ->.
  rewrite String.compare_antisym, H2 in H1. discriminate.
Qed.

Lemma column_compare_eq (a b : option string) : column_compare a b = Eq -> a = b.
Proof.
  destruct a, b; simpl; try discriminate; [|reflexivity].
  intros ->%String.compare_eq_iff. reflexivity.
Qed.

Lemma column_compare_refl (a : option string) : column_compare a a = Eq.
Proof. destruct a; [apply string_compare_refl|reflexivity]. Qed.

Lemma column_compare_lt_trans (a b c : option string) :
  column_compare a b = Lt -> column_compare b c = Lt -> column_compare a c = Lt.
Proof.
  destruct a, b, c; simpl; try discriminate; try reflexivity.
  apply string_compare_lt_trans.
Qed.

Lemma column_compare_antisym (a b : option string) :
  column_compare a b = CompOpp (column_compare b a).
Proof. destruct a, b; simpl; try reflexivity. apply String.compare_antisym. Qed.


Lemma row_le_refl (r : RevisionRecord) : row_le r r.
Proof.
  unfold row_le, row_leb. rewrite column_compare_refl. apply string_leb_refl.
Qed.

Lemma row_le_trans (r1 r2 r3 : RevisionRecord) :
  row_le r1 r2 -> row_le r2 r3 -> row_le r1 r3.
Proof.
  unfold row_le, row_leb. intros H1 H2.
  destruct (column_compare (rev_date r1) (rev_date r2)) eqn:E1; [| |discriminate];
    destruct (column_compare (rev_date r2) (rev_date r3)) eqn:E2; try discriminate.
  - apply column_compare_eq in E1. rewrite E1, E2.
    eapply string_leb_trans; eassumption.
  - apply column_compare_eq in E1. rewrite E1, E2. reflexivity.
  - apply column_compare_eq in E2. rewrite <- E2, E1. reflexivity.
  - rewrite (column_compare_lt_trans _ _ _ E1 E2). reflexivity.
Qed.

Lemma row_le_total (r1 r2 : RevisionRecord) : row_le r1 r2 \/ row_le r2 r1.
Proof.
  unfold row_le, row_leb.
  rewrite (column_compare_antisym (rev_date r2) (rev_date r1)).
  destruct (column_compare (rev_date r1) (rev_date r2)); simpl; auto.
  apply String.leb_total.
Qed.

Lemma insert_row_In (r x : RevisionRecord) (l : list RevisionRecord) :
  In x (insert_row r l) <-> x = r \/ In x l.
Proof.
  induction l as [|y l IH]; simpl; [intuition|].
  destruct (row_leb r y); simpl; [intuition|]. rewrite IH. intuition.
Qed.

Lemma order_by_In (x : RevisionRecord) (table : list RevisionRecord) :
  In x (order_by_date_title table) <-> In x table.
Proof.
  unfold order_by_date_title. induction table as [|r table IH]; simpl; [reflexivity|].
  rewrite insert_row_In, IH. intuition.
Qed.

Lemma insert_row_sorted (r : RevisionRecord) (l : list RevisionRecord) :
  StronglySorted row_le l -> StronglySorted row_le (insert_row r l).
Proof.
  induction 1 as [|y l Hl IH Hy]; simpl.
  - repeat constructor.
  - destruct (row_leb r y) eqn:E.
    + constructor; [constructor; assumption|].
      constructor; [exact E|].
      eapply Forall_impl; [exact Hy|]. intros z Hz. eapply row_le_trans; eassumption.
    + constructor; [exact IH|].
      apply Forall_forall. intros z Hz. apply list_elem_of_In, insert_row_In in Hz.
      destruct Hz as [->|Hz].
      * destruct (row_le_total r y) as [H|H]; [unfold row_le in H; congruence|exact H].
      * rewrite Forall_forall in Hy. apply Hy, list_elem_of_In, Hz.
Qed.

(** The cursor yields the rows in ascending order of (date, title). *)
Lemma order_by_sorted (table : list RevisionRecord) :
  StronglySorted row_le (order_by_date_title table).
Proof.
  unfold order_by_date_title. induction table as [|r table IH]; simpl.
  - constructor.
  - apply insert_row_sorted, IH.
Qed.

End OrderFacts.

(** ** The log of the commit loop *)

Section PipelineFacts.

Context {World : Type}.
Variable tools : Tools World.

Lemma committed_app (l1 l2 : list (RevisionRecord * Action)) :
  committed (l1 ++ l2) = committed l1 ++ committed l2.
Proof. unfold committed. rewrite filter_app, fmap_app. reflexivity. Qed.

Lemma committed_In (r : RevisionRecord) (log : list (RevisionRecord * Action)) :
  In r (committed log) <-> exists a, In (r, a) log /\ is_commit a = true.
Proof.
  unfold committed. rewrite <- list_elem_of_In, list_elem_of_fmap. split.
  - intros ([r1 a] & -> & [Hc Hin%list_elem_of_In]%list_elem_of_filter).
    exists a. split; assumption.
  - intros (a & Hin & Hc). exists (r, a). split; [reflexivity|].
    apply list_elem_of_filter. split; [exact Hc|apply list_elem_of_In, Hin].
Qed.

(** Every entry of the log belongs to a row the loop went through, and its
    action was done by the body of the loop for that row. *)
Lemma commit_loop_log (rows : list RevisionRecord) (user_mapping : gmap string string)
    (page_prefixes : list string) (args : Args) (missing_users : gmap string Z)
    (st : State World) (r : RevisionRecord) (a : Action) :
  In (r, a) (commit_loop tools rows user_mapping page_prefixes args missing_users st).2 ->
  In r rows /\
  exists mu0 st0, In a (commit_row tools r user_mapping page_prefixes args mu0 st0).2.
Proof.
  revert missing_users st. induction rows as [|row rest IH]; intros mu st; [intros []|].
  cbn [commit_loop].
  destruct (commit_row tools row user_mapping page_prefixes args mu st)
    as [[res st1] acts] eqn:E.
  destruct res as [mu1|e].
  - destruct (commit_loop tools rest user_mapping page_prefixes args mu1 st1)
      as [[res2 st2] log] eqn:E2.
    cbn [snd]. rewrite in_app_iff, in_map_iff.
    intros [(a0 & [= <- <-] & Ha)|H].
    + split; [left; reflexivity|]. exists mu, st. rewrite E. exact Ha.
    + specialize (IH mu1 st1). rewrite E2 in IH. destruct (IH H) as [Hin Hex].
      split; [right; exact Hin|exact Hex].
  - cbn [snd]. rewrite in_map_iff. intros (a0 & [= <- <-] & Ha).
    split; [left; reflexivity|]. exists mu, st. rewrite E. exact Ha.
Qed.

(** The committed rows follow the order in which the loop took the rows. *)
Lemma commit_loop_sorted (rows : list RevisionRecord) (user_mapping : gmap string string)
    (page_prefixes : list string) (args : Args) (missing_users : gmap string Z)
    (st : State World) :
  StronglySorted row_le rows ->
  StronglySorted row_le
    (committed (commit_loop tools rows user_mapping page_prefixes args missing_users st).2).
Proof.
  intros Hs. revert missing_users st.
  induction Hs as [|row rest Hrest IH Hrow]; intros mu st; [constructor|].
  assert (Hsame : forall acts : list Action,
             Forall (eq row) (committed (map (pair row) acts))).
  { intros acts. apply Forall_forall. intros x Hx%list_elem_of_In%committed_In.
    destruct Hx as (a & Hin%in_map_iff & _). destruct Hin as (a0 & [= -> _] & _).
    reflexivity. }
  assert (Hrep : forall l, Forall (eq row) l -> StronglySorted row_le l).
  { induction 1 as [|x l <- Hl IHl]; constructor; [exact IHl|].
    eapply Forall_impl; [exact Hl|]. intros y <-. apply row_le_refl. }
  cbn [commit_loop].
  destruct (commit_row tools row user_mapping page_prefixes args mu st)
    as [[res st1] acts] eqn:E.
  destruct res as [mu1|e]; [|cbn [snd]; apply Hrep, Hsame].
  pose proof (IH mu1 st1) as IH1.
  pose proof (commit_loop_log rest user_mapping page_prefixes args mu1 st1) as Hlog.
  destruct (commit_loop tools rest user_mapping page_prefixes args mu1 st1)
    as [[res2 st2] log] eqn:E2.
  cbn [snd] in *. rewrite committed_app. apply StronglySorted_app.
  split; [|split; [apply Hrep, Hsame|exact IH1]].
  intros x1 x2 Hx1 Hx2.
  pose proof (Hsame acts) as Hall. rewrite Forall_forall in Hall.
  rewrite <- (Hall x1 Hx1).
  apply list_elem_of_In, committed_In in Hx2 as (a & Hin & _).
  destruct (Hlog _ _ Hin) as [Hrest2 _].
  rewrite Forall_forall in Hrow. apply Hrow, list_elem_of_In, Hrest2.
Qed.

(** A row under an excluded prefix is passed over without any action. *)
Lemma commit_row_ignored (row : RevisionRecord) (user_mapping : gmap string string)
    (page_prefixes : list string) (args : Args) (missing_users : gmap string Z)
    (st : State World) :
  ignore_by_prefix (rev_title row) page_prefixes = true ->
  (commit_row tools row user_mapping page_prefixes args missing_users st).2 = [].
Proof.
  intros H. unfold commit_row. rewrite H.
  unfold mbind, M_bind, lift.
  destruct (if is_none (rev_content row) then _ else _); reflexivity.
Qed.

End PipelineFacts.

Lemma ignore_by_prefix_false (title : string) (prefixes : list string) :
  ignore_by_prefix title prefixes = false <->
  Forall (fun p => startswith title p = false) prefixes.
Proof.
  induction prefixes as [|p ps IH]; simpl.
  - split; [constructor|reflexivity].
  - rewrite Forall_cons. destruct (startswith title p); [|rewrite IH]; intuition congruence.
Qed.

(** ** The claims on the staging table and the order of the commits *)

Section PipelineClaims.

Context {World : Type}.
Variable tools : Tools World.

Lemma commit_revisions_sorted (table : list RevisionRecord)
    (user_mapping : gmap string string) (page_prefixes : list string) (args : Args)
    (missing_users : gmap string Z) (st : State World) :
  StronglySorted row_le
    (committed (commit_revisions tools table user_mapping page_prefixes args
                  missing_users st).2).
Proof. apply commit_loop_sorted, order_by_sorted. Qed.

(** C1: of two commits of a run, the one issued first belongs to the row
    with the smaller date, text against text with NULL before any text,
    or, the dates being equal, to the row whose title is not the larger;
    this holds too for the commits of a run that aborts later. *)
Theorem commits_in_date_title_order (table : list RevisionRecord)
    (user_mapping : gmap string string) (page_prefixes : list string) (args : Args)
    (missing_users : gmap string Z) (st : State World)
    (before between after : list RevisionRecord) (a b : RevisionRecord) :
  committed (commit_revisions tools table user_mapping page_prefixes args
               missing_users st).2
  = before ++ a :: between ++ b :: after ->
  column_compare (rev_date a) (rev_date b) = Lt \/
  (rev_date a = rev_date b /\ String.leb (rev_title a) (rev_title b) = true).
Proof.
  intros Hsplit.
  pose proof (commit_revisions_sorted table user_mapping page_prefixes args
                missing_users st) as Hs.
  rewrite Hsplit in Hs.
  apply StronglySorted_app_1_r, StronglySorted_cons in Hs as [Hall _].
  rewrite Forall_forall in Hall.
  assert (Hab : row_le a b).
  { apply Hall, list_elem_of_In, in_app_iff. right. left. reflexivity. }
  unfold row_le, row_leb in Hab.
  destruct (column_compare (rev_date a) (rev_date b)) eqn:E; [|left; reflexivity|discriminate].
  right. split; [apply column_compare_eq, E|exact Hab].
Qed.

(** X26: a row for which a commit is issued has a title that starts with
    none of the excluded prefixes, and, the table being one the extraction
    built, a username that the test against the blocklist did not find:
    one that is no entry of the blocklist, or that has a character
    outside ASCII. *)
Theorem committed_rows_pass_filters (blocklist : gset string) (prefixes : list string)
    (tree : list (string * Element)) (table : list RevisionRecord)
    (user_mapping : gmap string string) (args : Args)
    (missing_users : gmap string Z) (st : State World) (row : RevisionRecord) :
  extract_revisions blocklist prefixes tree = Ok table ->
  In row (committed (commit_revisions tools table user_mapping prefixes args
                       missing_users st).2) ->
  Forall (fun p => startswith (rev_title row) p = false) prefixes /\
  (rev_username row ∉ blocklist \/ is_ascii (rev_username row) = false).
Proof.
  intros Hex Hin. apply committed_In in Hin as (a & Hin & Hc).
  apply commit_loop_log in Hin as [Hrow (mu0 & st0 & Ha)].
  split.
  - apply ignore_by_prefix_false.
    destruct (ignore_by_prefix (rev_title row) prefixes) eqn:E; [|reflexivity].
    rewrite (commit_row_ignored tools row user_mapping prefixes args mu0 st0 E) in Ha.
    destruct Ha.
  - apply (proj1 (order_by_In _ _)) in Hrow.
    pose proof (extract_revisions_ok blocklist prefixes tree table Hex) as Hall.
    rewrite Forall_forall in Hall.
    destruct (Hall row (proj2 (list_elem_of_In _ _) Hrow)) as [Hb _].
    unfold in_bytes in Hb. apply andb_false_iff in Hb as [Hb|Hb].
    + right. exact Hb.
    + left. apply bool_decide_eq_false in Hb. exact Hb.
Qed.

End PipelineClaims.

(** C5: in a table the extraction built, a row without content has a title
    in the file namespace; put the other way, every row outside the file
    namespace carries its text. *)
Theorem staged_content_absent_only_for_files (blocklist : gset string)
    (prefixes : list string) (tree : list (string * Element))
    (table : list RevisionRecord) (row : RevisionRecord) :
  extract_revisions blocklist prefixes tree = Ok table ->
  In row table ->
  (rev_content row = None -> startswith (rev_title row) "File:" = true) /\
  (startswith (rev_title row) "File:" = false -> is_Some (rev_content row)).
Proof.
  intros Hex Hin.
  pose proof (extract_revisions_ok blocklist prefixes tree table Hex) as Hall.
  rewrite Forall_forall in Hall.
  destruct (Hall row (proj2 (list_elem_of_In _ _) Hin)) as [_ Hc].
  split; [exact Hc|].
  intros Hf. destruct (rev_content row) as [t|]; [eexists; reflexivity|].
  rewrite (Hc eq_refl) in Hf. discriminate.
Qed.

(** The sample export, extracted and committed. *)
Lemma sample_extraction :
  extract_revisions sample_blocklist page_prefixes_to_ignore sample_tree = Ok sample_table.
Proof. vm_compute. reflexivity. Qed.

Lemma sample_bare_extraction :
  extract_revisions sample_blocklist page_prefixes_to_ignore sample_tree_bare_upload
  = Ok [apple_row; logo_row None].
Proof. vm_compute. reflexivity. Qed.

Lemma sample_run_committed :
  committed (commit_revisions sample_tools sample_table ∅ page_prefixes_to_ignore
               sample_args ∅ empty_state).2
  = [apple_row; old_name_row; zebra_row; logo_row (Some "aGVsbG8=")].
Proof. vm_compute. reflexivity. Qed.

Lemma commits_in_date_title_order_witness :
  committed (commit_revisions sample_tools sample_table ∅ page_prefixes_to_ignore
               sample_args ∅ empty_state).2
  = [] ++ apple_row :: [old_name_row] ++ zebra_row :: [logo_row (Some "aGVsbG8=")] /\
  (column_compare (rev_date apple_row) (rev_date zebra_row) = Lt \/
   (rev_date apple_row = rev_date zebra_row /\
    String.leb (rev_title apple_row) (rev_title zebra_row) = true)).
Proof.
  split; [exact sample_run_committed|].
  exact (commits_in_date_title_order sample_tools sample_table ∅ page_prefixes_to_ignore
           sample_args ∅ empty_state [] [old_name_row] [logo_row (Some "aGVsbG8=")]
           apple_row zebra_row sample_run_committed).
Defined.

Lemma committed_rows_pass_filters_witness :
  extract_revisions sample_blocklist page_prefixes_to_ignore sample_tree = Ok sample_table /\
  In zebra_row
    (committed (commit_revisions sample_tools sample_table ∅ page_prefixes_to_ignore
                  sample_args ∅ empty_state).2) /\
  Forall (fun p => startswith (rev_title zebra_row) p = false) page_prefixes_to_ignore /\
  (rev_username zebra_row ∉ sample_blocklist \/ is_ascii (rev_username zebra_row) = false).
Proof.
  assert (Hin : In zebra_row
    (committed (commit_revisions sample_tools sample_table ∅ page_prefixes_to_ignore
                  sample_args ∅ empty_state).2)).
  { rewrite sample_run_committed. right. right. left. reflexivity. }
  split; [exact sample_extraction|]. split; [exact Hin|].
  exact (committed_rows_pass_filters sample_tools sample_blocklist page_prefixes_to_ignore
           sample_tree sample_table ∅ sample_args ∅ empty_state zebra_row
           sample_extraction Hin).
Defined.

(** C2 at a listed username outside ASCII: the blocklist file has a line
    for [José], so [make_blocklist] puts the bytes of the name in the
    blocklist; the export has a page with one edit by that user.  The
    username of the edit is a text, not a byte string, and the test
    [username not in blocklist] holds for it: the edit is staged, and in
    a run in which the transcoder and git succeed its commit is issued. *)
Theorem listed_username_is_committed :
  jose ∈ make_blocklist [jose_blocklist_line] /\
  extract_revisions (make_blocklist [jose_blocklist_line]) page_prefixes_to_ignore jose_tree
  = Ok [jose_row] /\
  rev_username jose_row = jose /\
  committed (commit_revisions sample_tools [jose_row] ∅ page_prefixes_to_ignore
               sample_args ∅ empty_state).2
  = [jose_row].
Proof.
  split; [apply (bool_decide_unpack _); vm_compute; exact I|].
  split; [vm_compute; reflexivity|]. split; [reflexivity|].
  vm_compute. reflexivity.
Qed.

Lemma staged_content_absent_only_for_files_witness :
  extract_revisions sample_blocklist page_prefixes_to_ignore sample_tree_bare_upload
  = Ok [apple_row; logo_row None] /\
  In (logo_row None) [apple_row; logo_row None] /\
  (rev_content (logo_row None) = None ->
   startswith (rev_title (logo_row None)) "File:" = true) /\
  (startswith (rev_title (logo_row None)) "File:" = false ->
   is_Some (rev_content (logo_row None))).
Proof.
  assert (Hin : In (logo_row None) [apple_row; logo_row None]).
  { right. left. reflexivity. }
  split; [exact sample_bare_extraction|]. split; [exact Hin|].
  exact (staged_content_absent_only_for_files sample_blocklist page_prefixes_to_ignore
           sample_tree_bare_upload [apple_row; logo_row None] (logo_row None)
           sample_bare_extraction Hin).
Defined.

(** ** A failing transcoder, and redirects *)

Section DumpClaims.

Context {World : Type}.
Variable tools : Tools World.

(** C3, as the code has it: for an ordinary page whose cleaned text is no
    redirect and on which the transcoder exits with a code other than zero
    or prints nothing, the body of the loop starts the transcoder and then
    [git reset --hard] and nothing else, so no commit; the reset is run on
    a working tree in which the raw-markup file holds the original text and
    the rendered file is as it was; the round ends with the exit status of
    the reset, and when that is zero the loop goes on with the next row,
    from the state the reset left. *)
Theorem transcoder_failure_rolls_back (row : RevisionRecord) (rest : list RevisionRecord)
    (user_mapping : gmap string string) (page_prefixes : list string) (args : Args)
    (missing_users : gmap string Z) (st : State World) (text cleaned : string)
    (categories : list string) (returncode : Z) (stdout stderr : string) :
  let mw_filename := make_filename (rev_title row) (mediawiki_ext args) (prefix args) in
  let md_filename := make_filename (rev_title row) (markdown_ext args) (prefix args) in
  let before_reset :=
    {| world := world st; files := <[mw_filename := text]> (files st) |} in
  let reset := os_system tools before_reset (git_reset_cmd args) in
  let acts code :=
    [ActPandoc (pandoc_argv args mw_filename) returncode stdout stderr;
     ActSystem (git_reset_cmd args) code] in
  ignore_by_prefix (rev_title row) page_prefixes = false ->
  startswith (rev_title row) "File:" = false ->
  startswith (rev_title row) "Template:" = false ->
  rev_filename row = None ->
  rev_content row = Some text ->
  cleanup_mediawiki text = Ok (cleaned, categories) ->
  redirect_target cleaned = None ->
  run_pandoc tools {| world := world st; files := <[mw_filename := cleaned]> (files st) |}
    (pandoc_argv args mw_filename) = (returncode, stdout, stderr) ->
  returncode <> 0 \/ stdout = EmptyString ->
  commit_row tools row user_mapping page_prefixes args missing_users st
  = ((if reset.1 =? 0 then Ok missing_users else Raise (SystemExit reset.1)),
     reset.2, acts reset.1) /\
  files before_reset !! mw_filename = Some text /\
  (md_filename <> mw_filename -> files before_reset !! md_filename = files st !! md_filename) /\
  (reset.1 = 0 ->
   commit_loop tools (row :: rest) user_mapping page_prefixes args missing_users st
   = let '(r, st3, log) :=
       commit_loop tools rest user_mapping page_prefixes args missing_users reset.2 in
     (r, st3, map (pair row) (acts 0) ++ log)).
Proof.
  intros mw md before_reset reset acts
    Hign Hfile Htempl Hfn Hcontent Hclean Hredir Hpandoc Hfail.
  assert (Hrow : commit_row tools row user_mapping page_prefixes args missing_users st
    = ((if reset.1 =? 0 then Ok missing_users else Raise (SystemExit reset.1)),
       reset.2, acts reset.1)).
  { unfold commit_row. rewrite Hign, Hfile, Htempl, Hfn, Hcontent.
    unfold dump_revision. rewrite Hclean.
    cbv beta iota zeta delta
      [truthy is_none assert lift mbind M_bind mret M_ret write_file call_pandoc].
    rewrite Hredir. cbn [world files]. fold mw. rewrite Hpandoc.
    assert (Hb : negb (returncode =? 0) || String.eqb stdout EmptyString = true).
    { destruct Hfail as [H| ->]; [|apply orb_true_r].
      apply Z.eqb_neq in H. rewrite H. reflexivity. }
    rewrite Hb. cbn [world files]. rewrite insert_insert_eq.
    unfold run. fold before_reset. fold reset.
    destruct reset as [code st2]. cbn [fst snd].
    destruct (code =? 0); reflexivity. }
  split; [exact Hrow|]. split; [|split].
  - cbn [files before_reset]. apply lookup_insert_eq.
  - intros Hne. cbn [files before_reset]. apply lookup_insert_ne. congruence.
  - intros H0. cbn [commit_loop]. rewrite Hrow, H0. reflexivity.
Qed.

(** The cleaned text of the redirect of the example, and its target. *)
Lemma cleanup_redirect_example :
  cleanup_mediawiki "#REDIRECT [[Target Page]]" = Ok ("#REDIRECT [[Target Page]]", []).
Proof. vm_compute. reflexivity. Qed.

Lemma redirect_target_example :
  redirect_target "#REDIRECT [[Target Page]]" = Some "Target Page".
Proof. vm_compute. reflexivity. Qed.

(** C4 at the redirect of its example: whatever the title, the date and
    the options, both files are written and the transcoder is not started.
    But under the prefix [wiki/] the line of the front matter is
    [redirect_to: /] followed by the URL between double quotes,
    [safe_for_yaml] being applied after the slash; the line the claim
    gives, with the bare URL, is nowhere in the stub. *)
Theorem redirect_stub_quotes_target (st : State World) (mw_filename md_filename : string)
    (title : string) (args : Args) (date : option string) :
  let text := "#REDIRECT [[Target Page]]" in
  let stub :=
    redirect_stub "Old Name" (Some "2001-01-02T00:00:00Z") "Target Page" sample_args in
  dump_revision tools mw_filename md_filename text title args date st
  = (Ok true,
     {| world := world st;
        files := <[md_filename := redirect_stub title date "Target Page" args]>
                   (<[mw_filename := text]> (files st)) |},
     []) /\
  nth 3 (split_lines stub) EmptyString
  = "redirect_to: /" +:+ dq +:+ "wiki/Target_Page/" +:+ dq /\
  contains stub "redirect_to: /wiki/Target_Page/" = false.
Proof.
  intros text stub. split; [|split; vm_compute; reflexivity].
  unfold dump_revision, text. rewrite cleanup_redirect_example.
  cbv beta iota zeta delta [lift mbind M_bind mret M_ret write_file].
  rewrite redirect_target_example. cbn [world files]. reflexivity.
Qed.

End DumpClaims.

Lemma transcoder_failure_rolls_back_witness :
  commit_row sample_tools broken_row ∅ page_prefixes_to_ignore sample_args ∅ empty_state
  = (Ok ∅,
     {| world := tt; files := {[ "wiki/Broken.mediawiki" := "{| unclosed" ]} |},
     [ActPandoc (pandoc_argv sample_args "wiki/Broken.mediawiki") 1 EmptyString "parse error";
      ActSystem "git reset --hard" 0]).
Proof.
  refine (proj1 (transcoder_failure_rolls_back sample_tools broken_row [zebra_row] ∅
           page_prefixes_to_ignore sample_args ∅ empty_state "{| unclosed" "{| unclosed" []
           1 EmptyString "parse error" _ _ _ _ _ _ _ _ _));
    try (vm_compute; reflexivity).
  left. discriminate.
Defined.

(** C3 as stated fails when [git reset --hard] itself fails: the transcoder
    exits with 1 on the first row, the reset exits with 1, and the run ends
    there with that status; the row after it is never taken up. *)
Lemma transcoder_failure_abort_counterexample :
  let run := commit_revisions failing_reset_tools [broken_row; zebra_row] ∅
               page_prefixes_to_ignore sample_args ∅ empty_state in
  order_by_date_title [broken_row; zebra_row] = [broken_row; zebra_row] /\
  run.1.1 = Raise (SystemExit 1) /\
  ~ In zebra_row (map fst run.2).
Proof.
  vm_compute. split; [reflexivity|]. split; [reflexivity|].
  intros [H|[H|[]]]; discriminate.
Qed.

(** ** Substrings, lines and the rules of the cleaner *)

Section CleanerFacts.

Lemma app_inv_substring (x a s b p : string) :
  x = a +:+ s +:+ b -> contains x p = false -> contains s p = false.
Proof.
  intros -> H. destruct (contains s p) eqn:E; [|reflexivity].
  assert (contains (a +:+ s +:+ b) p = true) by apply contains_app_r, contains_app_l, E.
  congruence.
Qed.

Lemma lstrip_suffix (s : string) : exists a, s = a +:+ lstrip s.
Proof.
  induction s as [|c s [a IH]]; [exists EmptyString; reflexivity|].
  simpl. destruct (is_space c).
  - exists (String c a). rewrite app_cons, <- IH. reflexivity.
  - exists EmptyString. reflexivity.
Qed.

Lemma rstrip_prefix (s : string) : exists b, s = rstrip s +:+ b.
Proof.
  induction s as [|c s [b IH]]; [exists EmptyString; reflexivity|].
  rewrite rstrip_cons. destruct (rstrip s) as [|d r] eqn:E.
  - destruct (is_space c).
    + exists (String c s). reflexivity.
    + exists b. rewrite app_cons, <- (app_empty_l b), <- IH. reflexivity.
  - exists b. rewrite app_cons, <- IH. reflexivity.
Qed.

Lemma strip_substring (s : string) : exists a b, s = a +:+ strip s +:+ b.
Proof.
  destruct (lstrip_suffix s) as [a Ha], (rstrip_prefix (lstrip s)) as [b Hb].
  exists a, b. unfold strip. rewrite <- Hb. exact Ha.
Qed.

Lemma slice_split (n : nat) (s : string) : s = slice_to n s +:+ slice_from n s.
Proof.
  revert s. induction n as [|n IH]; intros s; [reflexivity|].
  destruct s as [|c s]; [reflexivity|]. simpl. rewrite app_cons, <- IH. reflexivity.
Qed.

Lemma endswith_contains (s p : string) : endswith s p = true -> contains s p = true.
Proof.
  unfold endswith. intros [_ H%String.eqb_eq]%andb_true_iff.
  apply contains_spec. exists (slice_to (len s - len p) s), EmptyString.
  pose proof (slice_split (len s - len p) s) as Hs. rewrite H in Hs.
  rewrite app_empty_r. exact Hs.
Qed.

Lemma contains_refl (s : string) : contains s s = true.
Proof.
  apply contains_spec. exists EmptyString, EmptyString.
  rewrite app_empty_r. reflexivity.
Qed.

Lemma lower_app (a b : string) : lower (a +:+ b) = lower a +:+ lower b.
Proof.
  induction a as [|c a IH]; [reflexivity|].
  rewrite app_cons. simpl. rewrite IH. reflexivity.
Qed.

Lemma replace_nonempty (s old new : string) :
  old <> EmptyString -> replace s old new = replace_go old new O s.
Proof. intros H. unfold replace. destruct old; [congruence|reflexivity]. Qed.

Lemma split_lines_nonempty (x : string) : split_lines x <> [].
Proof.
  destruct x as [|c x]; simpl; [discriminate|].
  destruct (Ascii.eqb c nl_char); [discriminate|].
  destruct (split_lines x); discriminate.
Qed.

Lemma join_cons (sep x : string) (l : list string) :
  l <> [] -> join sep (x :: l) = x +:+ sep +:+ join sep l.
Proof. destruct l; [congruence|reflexivity]. Qed.

(** Joining the lines of a text gives the text back. *)
Lemma join_split_lines (x : string) : join nl (split_lines x) = x.
Proof.
  induction x as [|c x IH]; [reflexivity|].
  simpl. destruct (Ascii.eqb_spec c nl_char) as [->|Hc].
  - rewrite join_cons by apply split_lines_nonempty. rewrite IH. reflexivity.
  - destruct (split_lines x) as [|h t] eqn:E; [destruct (split_lines_nonempty x E)|].
    destruct t as [|h1 t].
    + simpl in *. rewrite IH. reflexivity.
    + rewrite join_cons in * by discriminate. rewrite app_cons, IH. reflexivity.
Qed.

Lemma join_substring (sep line : string) (l : list string) :
  In line l -> exists a b, join sep l = a +:+ line +:+ b.
Proof.
  induction l as [|y l IH]; [intros []|].
  destruct l as [|z l].
  - intros [<-|[]]. exists EmptyString, EmptyString. simpl.
    rewrite app_empty_l, app_empty_r. reflexivity.
  - rewrite join_cons by discriminate. intros [<-|H].
    + exists EmptyString, (sep +:+ join sep (z :: l)). reflexivity.
    + destruct (IH H) as (a & b & ->). exists (y +:+ sep +:+ a), b.
      rewrite !app_assoc_s. reflexivity.
Qed.

(** A line of a text is a part of it. *)
Lemma split_lines_substring (x line : string) :
  In line (split_lines x) -> exists a b, x = a +:+ line +:+ b.
Proof.
  intros H. destruct (join_substring nl line _ H) as (a & b & E).
  rewrite join_split_lines in E. eauto.
Qed.

Lemma split_lines_single (s : string) :
  contains s nl = false -> split_lines s = [s].
Proof.
  induction s as [|c s IH]; [reflexivity|].
  rewrite contains_cons. intros [H1 H2]%orb_false_iff.
  unfold nl in H1. rewrite startswith_char in H1.
  simpl. rewrite Ascii.eqb_sym, H1, (IH H2). reflexivity.
Qed.

Lemma find_startswith (s p : string) : startswith s p = true -> find s p = Some O.
Proof.
  intros H. destruct s; [rewrite find_nil|rewrite find_cons]; rewrite H; reflexivity.
Qed.

Lemma startswith_app_long (s t p : string) :
  (len p <= len s)%nat -> startswith (s +:+ t) p = startswith s p.
Proof.
  revert s. induction p as [|c p IH]; intros s H.
  - rewrite !startswith_empty. reflexivity.
  - destruct s as [|b s]; simpl in H; [lia|].
    rewrite app_cons. simpl. rewrite IH by lia. reflexivity.
Qed.

(** The first match of [p1 +:+ p2], [p2] one character long, stands after
    a text [a] when it does not show up in [a +:+ p1]. *)
Lemma find_first_app (a p1 p2 r : string) :
  len p2 = 1%nat ->
  contains (a +:+ p1) (p1 +:+ p2) = false ->
  find (a +:+ (p1 +:+ p2) +:+ r) (p1 +:+ p2) = Some (len a).
Proof.
  intros Hp2. induction a as [|c a IH]; intros H.
  - rewrite app_empty_l. apply find_startswith, startswith_app.
  - rewrite app_cons, contains_cons in H. apply orb_false_iff in H as [H1 H2].
    rewrite app_cons, find_cons.
    assert (Hs : startswith (String c (a +:+ (p1 +:+ p2) +:+ r)) (p1 +:+ p2) = false).
    { rewrite <- H1. rewrite <- !app_cons.
      replace (String c a +:+ (p1 +:+ p2) +:+ r)
        with ((String c a +:+ p1) +:+ (p2 +:+ r)) by (rewrite !app_assoc_s; reflexivity).
      apply startswith_app_long. rewrite !len_app. simpl. lia. }
    rewrite Hs, (IH H2). reflexivity.
Qed.

Lemma lang_step_quiet (line lang : string) :
  contains (lower line) ("<" +:+ lang +:+ ">") = false ->
  contains line ("<" +:+ lang +:+ " ") = false ->
  contains line ("</" +:+ lang +:+ ">") = false ->
  lang_step line lang = line.
Proof.
  intros H1 H2 H3. unfold lang_step.
  assert (Hno : forall s p, contains s p = false -> startswith s p = false).
  { intros s p H. destruct (startswith s p) eqn:E; [|reflexivity].
    apply startswith_contains in E. congruence. }
  pose proof (Hno _ _ H1) as E1. pose proof (Hno _ _ H2) as E2.
  rewrite E1, E2. cbn [andb].
  destruct (rstrip_prefix line) as [b Hb].
  assert (E3 : contains (rstrip line) ("</" +:+ lang +:+ ">") = false).
  { destruct (contains (rstrip line) _) eqn:E; [|reflexivity].
    apply (contains_app_l _ b) in E. rewrite <- Hb in E. congruence. }
  destruct (String.eqb_spec (rstrip line) ("</" +:+ lang +:+ ">")) as [E|_].
  { rewrite E, contains_refl in E3. discriminate. }
  destruct (endswith (rstrip line) ("</" +:+ lang +:+ ">")) eqn:E4; [|reflexivity].
  apply endswith_contains in E4. congruence.
Qed.

Lemma lang_steps_plain (line : string) :
  lang_tag_free line = true -> lang_steps line = line.
Proof.
  unfold lang_tag_free, lang_steps. generalize languages.
  intros l. induction l as [|lang l IH]; [reflexivity|].
  cbn [forallb fold_left]. intros [H Hl]%andb_true_iff.
  apply andb_true_iff in H as [H H3]. apply andb_true_iff in H as [H1 H2].
  rewrite lang_step_quiet by (apply negb_true_iff; assumption).
  apply IH, Hl.
Qed.

Lemma un_div_plain (line : string) :
  contains line "<div " = false -> un_div line = Ok line.
Proof.
  intros H. unfold un_div.
  destruct (startswith (strip line) "<div ") eqn:E; [|reflexivity].
  destruct (strip_substring line) as (a & b & Hs).
  apply startswith_contains in E.
  apply (contains_app_l _ b), (contains_app_r a) in E. rewrite <- Hs in E. congruence.
Qed.

Lemma lang_tag_free_sub (x a s b : string) :
  x = a +:+ s +:+ b -> lang_tag_free x = true -> lang_tag_free s = true.
Proof.
  intros Hx. unfold lang_tag_free. rewrite !forallb_forall. intros H lang Hin.
  specialize (H lang Hin).
  apply andb_true_iff in H as [H H3]. apply andb_true_iff in H as [H1 H2].
  apply negb_true_iff in H1, H2, H3.
  assert (Hl : lower x = lower a +:+ lower s +:+ lower b).
  { rewrite Hx, !lower_app. reflexivity. }
  rewrite (app_inv_substring _ _ _ _ _ Hl H1), (app_inv_substring _ _ _ _ _ Hx H2),
    (app_inv_substring _ _ _ _ _ Hx H3).
  reflexivity.
Qed.

Lemma markup_plain_sub (x a s b : string) :
  x = a +:+ s +:+ b -> markup_plain x = true -> markup_plain s = true.
Proof.
  intros Hx. unfold markup_plain. intros [[H1 H2]%andb_true_iff H3]%andb_true_iff.
  apply negb_true_iff in H1, H3.
  rewrite (app_inv_substring _ _ _ _ _ Hx H1), (app_inv_substring _ _ _ _ _ Hx H3),
    (lang_tag_free_sub _ _ _ _ Hx H2).
  reflexivity.
Qed.

Lemma already_clean_sub (x a s b : string) :
  x = a +:+ s +:+ b -> already_clean x = true -> already_clean s = true.
Proof.
  intros Hx. unfold already_clean.
  intros [[[[H1 H2]%andb_true_iff H3]%andb_true_iff H4]%andb_true_iff H5]%andb_true_iff.
  apply negb_true_iff in H3, H4, H5.
  rewrite (markup_plain_sub _ _ _ _ Hx H1), (app_inv_substring _ _ _ _ _ Hx H3),
    (app_inv_substring _ _ _ _ _ Hx H4), (app_inv_substring _ _ _ _ _ Hx H5).
  rewrite !andb_true_r. apply forallb_forall. intros token Hin.
  rewrite forallb_forall in H2. specialize (H2 token Hin).
  apply negb_true_iff in H2. rewrite (app_inv_substring _ _ _ _ _ Hx H2). reflexivity.
Qed.

(** The rules before the category rule leave a plain line as it is. *)
Lemma plain_line_reaches_category_rule (line : string) :
  markup_plain line = true ->
  lang_steps (replace line ltr_mark EmptyString) = line /\ un_div line = Ok line.
Proof.
  unfold markup_plain. intros [[H1 H2]%andb_true_iff H3]%andb_true_iff.
  apply negb_true_iff in H1, H3.
  rewrite replace_absent by (try exact H1; discriminate).
  split; [apply lang_steps_plain, H2|apply un_div_plain, H3].
Qed.

(** On a line that is already clean the body of the loop changes nothing. *)
Lemma clean_line_already_clean (line : string) :
  already_clean line = true -> clean_line line = Ok (Some line, None).
Proof.
  unfold already_clean.
  intros [[[[H1 H2]%andb_true_iff H3]%andb_true_iff H4]%andb_true_iff H5]%andb_true_iff.
  apply negb_true_iff in H3, H4, H5.
  destruct (plain_line_reaches_category_rule line H1) as [Hl Hu].
  unfold clean_line. rewrite Hl, Hu. cbn [mbind res_bind].
  assert (Htoc : str_in line toc_tokens = false).
  { unfold str_in. apply not_true_is_false. intros (t & Hin & Ht)%existsb_exists.
    apply String.eqb_eq in Ht as <-.
    rewrite forallb_forall in H2. specialize (H2 line Hin).
    rewrite contains_refl in H2. discriminate. }
  rewrite Htoc.
  assert (Hsame : (if startswith line "[[Image:" && endswith line "]]" then line else line)
                  = line) by (destruct (_ && _); reflexivity).
  rewrite Hsame. unfold category_step. rewrite H3. cbn [mbind res_bind andb].
  unfold escape_links. rewrite H4, H5. reflexivity.
Qed.

Lemma clean_lines_already_clean (lines new categories : list string) :
  Forall (fun line => already_clean line = true) lines ->
  clean_lines lines new categories = Ok (new ++ lines, categories).
Proof.
  intros H. revert new categories.
  induction H as [|line lines Hline Hlines IH]; intros new categories.
  - simpl. rewrite app_nil_r. reflexivity.
  - cbn [clean_lines]. rewrite (clean_line_already_clean line Hline).
    cbn [mbind res_bind option_list]. rewrite IH, app_nil_r, <- app_assoc. reflexivity.
Qed.

End CleanerFacts.

(** ** The claims on the cleaner *)

(** C7, as the code has it: a text with no wrapper div and no
    table-of-contents token, and also no left-to-right mark, no language
    tag, no category tag and no category or user link to escape, comes out
    of the cleaner as it went in, with no category; so cleaning it twice
    is cleaning it once. *)
Theorem cleanup_idempotent_on_clean_text (x : string) :
  already_clean x = true ->
  cleanup_mediawiki x = Ok (x, []) /\
  (cleanup_mediawiki x ≫= fun once => cleanup_mediawiki once.1) = cleanup_mediawiki x.
Proof.
  intros H.
  assert (Hx : cleanup_mediawiki x = Ok (x, [])).
  { unfold cleanup_mediawiki.
    rewrite clean_lines_already_clean.
    - cbn [mbind res_bind app]. rewrite join_split_lines. reflexivity.
    - apply Forall_forall. intros line Hin%list_elem_of_In.
      destruct (split_lines_substring x line Hin) as (a & b & Hab).
      exact (already_clean_sub x a line b Hab H). }
  split; [exact Hx|]. rewrite Hx. cbn [mbind res_bind fst]. exact Hx.
Qed.

Lemma cleanup_idempotent_on_clean_text_witness :
  already_clean ("== Pears ==" +:+ nl +:+ "See [[Apple]] and <b>quince</b>.") = true /\
  cleanup_mediawiki ("== Pears ==" +:+ nl +:+ "See [[Apple]] and <b>quince</b>.")
  = Ok ("== Pears ==" +:+ nl +:+ "See [[Apple]] and <b>quince</b>.", []).
Proof.
  split; [vm_compute; reflexivity|].
  apply (cleanup_idempotent_on_clean_text
           ("== Pears ==" +:+ nl +:+ "See [[Apple]] and <b>quince</b>.")).
  vm_compute. reflexivity.
Defined.

(** C7 as stated fails on a line with two category tags: the text has no
    wrapper div and no table-of-contents token, the first cleaning takes
    the first tag away and the second cleaning the other one. *)
Lemma cleanup_idempotent_counterexample :
  contains "[[Category:Fruit]][[Category:Pears]]" "<div" = false /\
  forallb (fun token => negb (contains "[[Category:Fruit]][[Category:Pears]]" token))
    toc_tokens = true /\
  cleanup_mediawiki "[[Category:Fruit]][[Category:Pears]]"
  = Ok ("[[Category:Pears]]", ["Fruit"]) /\
  cleanup_mediawiki "[[Category:Pears]]" = Ok (EmptyString, ["Pears"]) /\
  (cleanup_mediawiki "[[Category:Fruit]][[Category:Pears]]"
     ≫= fun once => cleanup_mediawiki once.1)
  <> cleanup_mediawiki "[[Category:Fruit]][[Category:Pears]]".
Proof. vm_compute. repeat split; congruence. Qed.

(** C9, as the code has it: on a line on which the earlier rules find
    nothing, the cleaner records the label of the first category tag, and
    that label only, and takes every copy of that very tag out of the
    line; what is left is stripped and escaped, or dropped when nothing is
    left.  The text after the first tag stays as it is when the same tag
    does not come again, later category tags with other labels included. *)
Theorem clean_line_first_category_only (pre label rest : string) :
  let construct := "[[Category:" +:+ label +:+ "]]" in
  let line := pre +:+ construct +:+ rest in
  let cleaned := strip (pre +:+ replace rest construct EmptyString) in
  markup_plain line = true ->
  contains (pre +:+ "[[Category") "[[Category:" = false ->
  contains (label +:+ "]") "]]" = false ->
  clean_line line
  = Ok (if String.eqb cleaned EmptyString then None else Some (escape_links cleaned),
        Some label) /\
  (contains line nl = false ->
   cleanup_mediawiki line
   = Ok (if String.eqb cleaned EmptyString then EmptyString else escape_links cleaned,
         [label])) /\
  (contains rest construct = false -> replace rest construct EmptyString = rest).
Proof.
  intros construct line cleaned Hplain Hpre Hlabel.
  assert (Hne : construct <> EmptyString) by discriminate.
  assert (Hfind : find line "[[Category:" = Some (len pre)).
  { unfold line, construct.
    replace (pre +:+ ("[[Category:" +:+ label +:+ "]]") +:+ rest)
      with (pre +:+ ("[[Category" +:+ ":") +:+ (label +:+ "]]" +:+ rest))
      by (rewrite !app_assoc_s; reflexivity).
    apply (find_first_app pre "[[Category" ":"); [reflexivity|exact Hpre]. }
  assert (Hcontains : contains line "[[Category:" = true).
  { destruct (contains line "[[Category:") eqn:E; [reflexivity|].
    apply find_none_contains in E. congruence. }
  assert (Htag0 : slice_from (len pre + 11) line = label +:+ "]]" +:+ rest).
  { unfold line, construct. rewrite slice_from_app_plus, !app_assoc_s. reflexivity. }
  assert (Hend : find (label +:+ "]]" +:+ rest) "]]" = Some (len label)).
  { replace (label +:+ "]]" +:+ rest) with (label +:+ ("]" +:+ "]") +:+ rest)
      by reflexivity.
    apply (find_first_app label "]" "]"); [reflexivity|exact Hlabel]. }
  assert (Hconstruct : find line construct = Some (len pre)).
  { unfold line. apply (find_extend pre (construct +:+ rest) "[[Category:" (label +:+ "]]")).
    - exact Hfind.
    - apply (startswith_app construct rest). }
  assert (Hstep : category_step line = Ok (cleaned, Some label)).
  { unfold category_step. rewrite Hcontains, Hfind, Htag0, Hend, slice_to_app.
    fold construct.
    assert (Hin : contains line construct = true).
    { apply contains_spec. exists pre, rest. reflexivity. }
    rewrite Hin, (replace_nonempty _ _ _ Hne). unfold line.
    rewrite (replace_go_first construct EmptyString pre rest Hne Hconstruct).
    rewrite app_empty_l, <- (replace_nonempty _ _ _ Hne). reflexivity. }
  assert (Hline : clean_line line
    = Ok (if String.eqb cleaned EmptyString then None else Some (escape_links cleaned),
          Some label)).
  { destruct (plain_line_reaches_category_rule line Hplain) as [Hl Hu].
    unfold clean_line. rewrite Hl, Hu. cbn [mbind res_bind].
    assert (Htoc : str_in line toc_tokens = false).
    { unfold str_in. apply not_true_is_false. intros (t & Hin & Ht)%existsb_exists.
      apply String.eqb_eq in Ht as <-.
      destruct Hin as [<-|[<-|[<-|[]]]]; vm_compute in Hcontains; discriminate. }
    rewrite Htoc.
    assert (Hsame : (if startswith line "[[Image:" && endswith line "]]" then line else line)
                    = line) by (destruct (_ && _); reflexivity).
    rewrite Hsame, Hstep, Hcontains. cbn [mbind res_bind andb].
    destruct (String.eqb cleaned EmptyString); reflexivity. }
  split; [exact Hline|]. split.
  - intros Hnl. unfold cleanup_mediawiki.
    rewrite (split_lines_single line Hnl). cbn [clean_lines]. rewrite Hline.
    cbn [mbind res_bind]. destruct (String.eqb cleaned EmptyString); reflexivity.
  - intros Hrest. apply replace_absent; assumption.
Qed.

Lemma clean_line_first_category_only_witness :
  clean_line ("Pears " +:+ ("[[Category:" +:+ "Fruit" +:+ "]]") +:+ " [[Category:Trees]]")
  = Ok (Some "Pears  [[Category:Trees]]", Some "Fruit").
Proof.
  refine (proj1 (clean_line_first_category_only "Pears " "Fruit" " [[Category:Trees]]"
                   _ _ _)); vm_compute; reflexivity.
Defined.

(** C9 as stated fails when a later tag has the label of the first: both
    tags leave the line. *)
Lemma clean_line_same_label_counterexample :
  cleanup_mediawiki "[[Category:Fruit]] and [[Category:Fruit]]" = Ok ("and", ["Fruit"]) /\
  contains "and" "[[Category:Fruit]]" = false.
Proof. vm_compute. split; reflexivity. Qed.

(** * Further properties of the script *)

(** ** Tags and file names *)

Section NameFacts.

Lemma find_char_split (s : string) (c : ascii) (i : nat) :
  find s (String c EmptyString) = Some i ->
  s = slice_to i s +:+ String c (slice_from (i + 1) s).
Proof.
  revert i. induction s as [|b s IH]; intros i; [discriminate|].
  rewrite find_cons, startswith_char.
  destruct (Ascii.eqb_spec c b) as [<-|Hne].
  - intros [= <-]. reflexivity.
  - destruct (find s (String c EmptyString)) as [j|]; [|discriminate].
    intros [= <-]. cbn [slice_to slice_from Nat.add]. rewrite app_cons.
    f_equal. exact (IH j eq_refl).
Qed.

Lemma clean_tag_loop_suffix (fuel : nat) (tag : string) :
  exists pre, tag = pre +:+ clean_tag_loop fuel tag /\
              (pre = EmptyString \/ exists q, pre = q +:+ "}").
Proof.
  revert tag. induction fuel as [|fuel IH]; intros tag.
  - exists EmptyString. split; [reflexivity|left; reflexivity].
  - cbn [clean_tag_loop]. destruct (find tag "}") as [i|] eqn:E.
    + pose proof (find_char_split tag _ i E) as Hsplit.
      destruct (IH (slice_from (i + 1) tag)) as (pre & Hpre & Hq).
      exists ((slice_to i tag +:+ "}") +:+ pre). split.
      * rewrite Hsplit at 1. rewrite Hpre at 1. rewrite !app_assoc_s. reflexivity.
      * right. destruct Hq as [->|[q ->]].
        -- exists (slice_to i tag). rewrite app_empty_r. reflexivity.
        -- exists ((slice_to i tag +:+ "}") +:+ q). rewrite !app_assoc_s. reflexivity.
    + exists EmptyString. split; [reflexivity|left; reflexivity].
Qed.

(** Replacing one character by another, character by character. *)
Lemma replace_char_cons (c d b : ascii) (s : string) :
  replace (String b s) (String c EmptyString) (String d EmptyString)
  = String (if Ascii.eqb c b then d else b)
           (replace s (String c EmptyString) (String d EmptyString)).
Proof.
  unfold replace. rewrite replace_go_cons, startswith_char.
  destruct (Ascii.eqb c b); reflexivity.
Qed.

Lemma replace_char_len (c d : ascii) (s : string) :
  len (replace s (String c EmptyString) (String d EmptyString)) = len s.
Proof.
  induction s as [|b s IH]; [reflexivity|].
  rewrite replace_char_cons. cbn [String.length]. rewrite IH. reflexivity.
Qed.

Lemma contains_char_cons (b e : ascii) (s : string) :
  contains (String b s) (String e EmptyString)
  = Ascii.eqb e b || contains s (String e EmptyString).
Proof. rewrite contains_cons, startswith_char. reflexivity. Qed.

Lemma replace_char_gone (c d : ascii) (s : string) :
  c <> d ->
  contains (replace s (String c EmptyString) (String d EmptyString)) (String c EmptyString)
  = false.
Proof.
  intros Hne. induction s as [|b s IH]; [reflexivity|].
  rewrite replace_char_cons, contains_char_cons, IH, orb_false_r.
  destruct (Ascii.eqb_spec c b) as [->|Hb]; apply Ascii.eqb_neq; congruence.
Qed.

Lemma replace_char_keeps_absent (c d e : ascii) (s : string) :
  e <> d ->
  contains s (String e EmptyString) = false ->
  contains (replace s (String c EmptyString) (String d EmptyString)) (String e EmptyString)
  = false.
Proof.
  intros Hne. induction s as [|b s IH]; [reflexivity|].
  rewrite contains_char_cons. intros [Hb Hs]%orb_false_iff.
  rewrite replace_char_cons, contains_char_cons, (IH Hs), orb_false_r.
  destruct (Ascii.eqb c b); [apply Ascii.eqb_neq; congruence|exact Hb].
Qed.

Lemma path_join_under (a b : string) :
  a = EmptyString \/ endswith a "/" = true ->
  startswith b "/" = false ->
  path_join a b = a +:+ b.
Proof.
  intros Ha Hb. unfold path_join. rewrite Hb.
  destruct Ha as [-> | ->]; [reflexivity|rewrite orb_true_r; reflexivity].
Qed.

End NameFacts.

(** X1: [clean_tag] returns what follows the last closing brace of the
    tag: the tag is some text, empty or ending in a brace, followed by the
    result, and the result has no closing brace. *)
Theorem clean_tag_after_last_brace (tag : string) :
  exists pre,
    tag = pre +:+ clean_tag tag /\
    (pre = EmptyString \/ exists q, pre = q +:+ "}") /\
    contains (clean_tag tag) "}" = false.
Proof.
  destruct (clean_tag_loop_suffix (len tag) tag) as (pre & Hpre & Hq).
  exists pre. repeat split; [exact Hpre|exact Hq|].
  apply clean_tag_loop_done. lia.
Qed.

(** X2: under a prefix that is empty or ends in a slash, the file of a
    page lies right under the prefix whatever its title: the name is as
    long as the title and has no space, no colon and no slash in it. *)
Theorem make_filename_flat (title ext prefix : string) :
  prefix = EmptyString \/ endswith prefix "/" = true ->
  exists name,
    make_filename title ext prefix = prefix +:+ name +:+ "." +:+ ext /\
    len name = len title /\
    contains name " " = false /\ contains name ":" = false /\ contains name "/" = false.
Proof.
  intros Hprefix.
  set (name := replace (replace (replace title " " "_") ":" "_") "/" "_").
  assert (Hslash : contains name "/" = false) by (apply replace_char_gone; discriminate).
  exists name. split; [|split; [|split; [|split]]].
  - unfold make_filename. fold name. apply path_join_under; [exact Hprefix|].
    destruct name as [|c name]; [reflexivity|].
    rewrite contains_char_cons in Hslash. apply orb_false_iff in Hslash as [Hc _].
    rewrite app_cons, startswith_char. exact Hc.
  - unfold name. rewrite !replace_char_len. reflexivity.
  - unfold name. do 2 (apply replace_char_keeps_absent; [discriminate|]).
    apply replace_char_gone. discriminate.
  - unfold name. apply replace_char_keeps_absent; [discriminate|].
    apply replace_char_gone. discriminate.
  - exact Hslash.
Qed.

Lemma make_filename_flat_witness :
  exists name,
    make_filename "Talk:A/B c" "md" "wiki/" = "wiki/" +:+ name +:+ "." +:+ "md" /\
    len name = len "Talk:A/B c" /\
    contains name " " = false /\ contains name ":" = false /\ contains name "/" = false.
Proof.
  apply (make_filename_flat "Talk:A/B c" "md" "wiki/"). right. reflexivity.
Defined.

(** ** URLs and the link rewriter *)

Section UrlFacts.


Lemma greedy_tail_contains (s : string) (k : nat) :
  greedy_tail s = Some k -> contains s wikilink_tail = true.
Proof.
  revert k. induction s as [|c s IH]; intros k; [discriminate|].
  cbn [greedy_tail]. rewrite contains_cons.
  destruct (if Ascii.eqb c nl_char then None else greedy_tail s) as [j|] eqn:E.
  - intros _. destruct (Ascii.eqb c nl_char); [discriminate|].
    rewrite (IH j E). apply orb_true_r.
  - destruct (startswith (String c s) wikilink_tail); [reflexivity|discriminate].
Qed.

Lemma match_at_contains (s m : string) :
  match_at s = Some m -> contains s wikilink_tail = true.
Proof.
  unfold match_at.
  destruct s as [|a [|b [|u rest]]]; try discriminate.
  - destruct a as [[] [] [] [] [] [] [] []]; discriminate.
  - destruct a as [[] [] [] [] [] [] [] []]; try discriminate;
    destruct b as [[] [] [] [] [] [] [] []]; discriminate.
  - destruct (greedy_tail rest) as [k|] eqn:Hk.
    + intros _. rewrite !contains_cons, (greedy_tail_contains rest k Hk), !orb_true_r.
      reflexivity.
    + destruct a as [[] [] [] [] [] [] [] []]; try discriminate;
      destruct b as [[] [] [] [] [] [] [] []]; try discriminate;
      destruct (is_upper u); discriminate.
Qed.

Lemma findall_go_without_tail (skip : nat) (s : string) :
  contains s wikilink_tail = false -> findall_go skip s = [].
Proof.
  revert skip. induction s as [|c s IH]; intros skip H; [reflexivity|].
  pose proof H as H0. rewrite contains_cons in H0.
  apply orb_false_iff in H0 as [_ Hs].
  cbn [findall_go]. destruct skip as [|k]; [|apply IH, Hs].
  destruct (match_at (String c s)) as [m|] eqn:E; [|apply IH, Hs].
  apply match_at_contains in E. congruence.
Qed.

End UrlFacts.



(** X4: a title that is empty or starts with a slash gives, by
    [os.path.join], a URL outside the prefix, and [cleanup_markdown] then
    raises AssertionError, whatever the text. *)
Theorem cleanup_markdown_rejects_absolute_title (text title prefix : string) :
  prefix <> EmptyString ->
  startswith prefix "/" = false ->
  title = EmptyString \/ startswith title "/" = true ->
  cleanup_markdown text (make_url title prefix) prefix = Raise AssertionError.
Proof.
  intros Hprefix Hstart Htitle.
  assert (Hurl : exists r, make_url title prefix = String "/" r).
  { unfold make_url, path_join.
    destruct Htitle as [-> | Ht].
    - exists EmptyString. reflexivity.
    - destruct title as [|c t]; [discriminate|].
      rewrite startswith_char in Ht. apply Ascii.eqb_eq in Ht as <-.
      rewrite replace_char_cons. cbn [Ascii.eqb]. rewrite app_cons.
      rewrite startswith_char, Ascii.eqb_refl. eauto. }
  destruct Hurl as [r ->]. unfold cleanup_markdown.
  destruct prefix as [|p0 p]; [congruence|].
  rewrite startswith_char in Hstart.
  assert (Hno : startswith (String "/" r) (String p0 p) = false).
  { cbn [startswith]. rewrite Ascii.eqb_sym, Hstart. reflexivity. }
  rewrite Hno, andb_false_r. reflexivity.
Qed.

Lemma cleanup_markdown_rejects_absolute_title_witness :
  cleanup_markdown "text" (make_url "/etc" "wiki/") "wiki/" = Raise AssertionError.
Proof.
  apply (cleanup_markdown_rejects_absolute_title "text" "/etc" "wiki/");
    [discriminate|reflexivity|right; reflexivity].
Defined.

(** X5: a text in which the closing part of a wikilink target does not
    occur comes out of [cleanup_markdown] as it went in, unless one of the
    two assertions on the prefix fails. *)
Theorem cleanup_markdown_without_wikilinks (text source_url prefix : string) :
  contains text wikilink_tail = false ->
  cleanup_markdown text source_url prefix = Ok text \/
  cleanup_markdown text source_url prefix = Raise AssertionError.
Proof.
  intros Hno. unfold cleanup_markdown, findall.
  rewrite (findall_go_without_tail O text Hno). cbn [fold_left].
  destruct prefix as [|p0 p].
  - cbn [mbind res_bind]. destruct (negb (contains source_url "/")); auto.
  - destruct (endswith (String p0 p) "/" && startswith source_url (String p0 p));
      [|auto].
    destruct (negb (startswith (String p0 p) "/")); [|auto].
    cbn [mbind res_bind].
    destruct (negb (contains _ "/")); auto.
Qed.

Lemma cleanup_markdown_without_wikilinks_witness :
  contains "[pandoc](http://pandoc.org)" wikilink_tail = false /\
  (cleanup_markdown "[pandoc](http://pandoc.org)" "wiki/A/B/" "wiki/"
   = Ok "[pandoc](http://pandoc.org)" \/
   cleanup_markdown "[pandoc](http://pandoc.org)" "wiki/A/B/" "wiki/"
   = Raise AssertionError).
Proof.
  split; [reflexivity|].
  apply (cleanup_markdown_without_wikilinks "[pandoc](http://pandoc.org)" "wiki/A/B/" "wiki/").
  reflexivity.
Defined.

(** ** Canonical file names *)

Section CanonicalFacts.

Lemma upper_char_idem (c : ascii) : upper_char (upper_char c) = upper_char c.
Proof. destruct c as [[] [] [] [] [] [] [] []]; reflexivity. Qed.

Lemma lower_char_idem (c : ascii) : lower_char (lower_char c) = lower_char c.
Proof. destruct c as [[] [] [] [] [] [] [] []]; reflexivity. Qed.

Lemma upper_char_space (c : ascii) : Ascii.eqb " " (upper_char c) = Ascii.eqb " " c.
Proof. destruct c as [[] [] [] [] [] [] [] []]; reflexivity. Qed.

Lemma lower_char_space (c : ascii) : Ascii.eqb " " (lower_char c) = Ascii.eqb " " c.
Proof. destruct c as [[] [] [] [] [] [] [] []]; reflexivity. Qed.

Lemma lower_idem (s : string) : lower (lower s) = lower s.
Proof.
  induction s as [|c s IH]; [reflexivity|].
  cbn [lower]. rewrite lower_char_idem, IH. reflexivity.
Qed.

Lemma len_lower (s : string) : len (lower s) = len s.
Proof. induction s as [|c s IH]; [reflexivity|]. cbn [lower String.length]. rewrite IH. reflexivity. Qed.

Lemma contains_space_lower (s : string) : contains (lower s) " " = contains s " ".
Proof.
  induction s as [|c s IH]; [reflexivity|].
  cbn [lower]. rewrite !contains_char_cons, lower_char_space, IH. reflexivity.
Qed.

End CanonicalFacts.

(** X6: [make_canonical] raises IndexError on the empty title and on no
    other; the name it returns is as long as the title, has no space, and
    is canonical already: [make_canonical] returns it as it is. *)
Theorem make_canonical_stable (title : string) :
  match make_canonical title with
  | Raise e => e = IndexError /\ title = EmptyString
  | Ok name =>
      title <> EmptyString /\ len name = len title /\
      contains name " " = false /\ make_canonical name = Ok name
  end.
Proof.
  unfold make_canonical at 1.
  pose proof (replace_char_len " " "_" title) as Hlen.
  pose proof (replace_char_gone " " "_" title ltac:(discriminate)) as Hgone.
  destruct (replace title " " "_") as [|c rest] eqn:E.
  - split; [reflexivity|]. destruct title; [reflexivity|discriminate].
  - rewrite contains_char_cons in Hgone. apply orb_false_iff in Hgone as [Hc Hrest].
    assert (Hno : contains (String (upper_char c) (lower rest)) " " = false).
    { rewrite contains_char_cons, upper_char_space, Hc, contains_space_lower. exact Hrest. }
    split; [destruct title; [discriminate|congruence]|].
    split; [cbn [String.length] in *; rewrite len_lower; exact Hlen|].
    split; [exact Hno|].
    unfold make_canonical. rewrite replace_absent by (try exact Hno; discriminate).
    rewrite upper_char_idem, lower_idem. reflexivity.
Qed.

(** ** Redirects, unclosed wrappers and category labels *)

Section CleanerEdgeFacts.

(** A text that starts with a character that is no white space and ends
    with a text that [rstrip] keeps whole is left alone by [strip]. *)
Lemma strip_keep (c : ascii) (s t : string) :
  is_space c = false -> rstrip t = t -> t <> EmptyString ->
  strip (String c (s +:+ t)) = String c (s +:+ t).
Proof.
  intros Hc Ht Hne. unfold strip. rewrite lstrip_keep by exact Hc.
  rewrite <- app_cons, rstrip_app_keep by congruence. rewrite Ht. reflexivity.
Qed.

Lemma redirect_target_of_directive (cleaned r : string) :
  strip cleaned = "#REDIRECT [[" +:+ r +:+ "]]" ->
  contains r nl = false -> contains r "]" = false ->
  redirect_target cleaned = Some r.
Proof.
  intros Hs Hnl Hbr. unfold redirect_target. rewrite Hs.
  rewrite startswith_app.
  replace ("#REDIRECT [[" +:+ r +:+ "]]") with (("#REDIRECT [[" +:+ r) +:+ "]]")
    by (rewrite app_assoc_s; reflexivity).
  rewrite endswith_app. cbn [andb].
  assert (E : slice_between 12 2 (("#REDIRECT [[" +:+ r) +:+ "]]") = r).
  { unfold slice_between.
    pose proof (slice_to_neg_app ("#REDIRECT [[" +:+ r) "]]") as H1.
    cbn [String.length] in H1. rewrite H1.
    exact (slice_from_app "#REDIRECT [[" r). }
  rewrite E, Hnl, Hbr. reflexivity.
Qed.

Lemma startswith_slice_to (n : nat) (s p : string) :
  startswith (slice_to n s) p = true -> startswith s p = true.
Proof.
  revert n s. induction p as [|c p IH]; intros n s H; [apply startswith_empty|].
  destruct n as [|n]; [discriminate|]. destruct s as [|b s]; [discriminate|].
  cbn [slice_to startswith] in *. apply andb_true_iff in H as [-> H].
  cbn [andb]. eapply IH, H.
Qed.

(** The text before the first match of a pattern has no match in it. *)
Lemma find_prefix_free (s p : string) (j : nat) :
  p <> EmptyString -> find s p = Some j -> contains (slice_to j s) p = false.
Proof.
  intros Hp. revert j. induction s as [|c s IH]; intros j.
  - rewrite find_nil. destruct p; [congruence|]. discriminate.
  - rewrite find_cons. destruct (startswith (String c s) p) eqn:E.
    + intros [= <-]. destruct p; [congruence|reflexivity].
    + destruct (find s p) as [k|]; [|discriminate]. intros [= <-].
      cbn [slice_to]. rewrite contains_cons, (IH k eq_refl), orb_false_r.
      destruct (startswith (String c (slice_to k s)) p) eqn:E2; [|reflexivity].
      apply (startswith_slice_to (S k) (String c s)) in E2. congruence.
Qed.

Lemma category_step_label (line line1 tag : string) :
  category_step line = Ok (line1, Some tag) -> contains tag "]]" = false.
Proof.
  unfold category_step.
  destruct (contains line "[[Category:"); [|discriminate].
  destruct (find line "[[Category:") as [i|]; [|discriminate].
  destruct (find (slice_from (i + 11) line) "]]") as [j|] eqn:E; [|discriminate].
  destruct (contains line _); [|discriminate].
  intros [= _ <-]. apply find_prefix_free; [discriminate|exact E].
Qed.

Lemma clean_line_label (line : string) (kept : option string) (tag : string) :
  clean_line line = Ok (kept, Some tag) -> contains tag "]]" = false.
Proof.
  unfold clean_line.
  destruct (un_div _) as [undiv|]; [|discriminate]. cbn [mbind res_bind].
  destruct (str_in undiv toc_tokens); [discriminate|].
  destruct (category_step _) as [[line2 cat]|] eqn:E; [|discriminate].
  cbn [mbind res_bind].
  destruct (contains _ "[[Category:" && String.eqb line2 EmptyString);
    intros [= _ ->]; eapply category_step_label, E.
Qed.

Lemma clean_lines_labels (lines new categories new1 categories1 : list string) :
  clean_lines lines new categories = Ok (new1, categories1) ->
  Forall (fun c => contains c "]]" = false) categories ->
  Forall (fun c => contains c "]]" = false) categories1 /\
  (length categories1 <= length categories + length lines)%nat.
Proof.
  revert new categories. induction lines as [|line rest IH]; intros new categories.
  - intros [= _ <-] H. split; [exact H|cbn [length]; lia].
  - cbn [clean_lines]. destruct (clean_line line) as [[kept cat]|] eqn:E; [|discriminate].
    cbn [mbind res_bind]. intros Hrest Hall.
    apply IH in Hrest.
    + destruct Hrest as [H1 H2]. split; [exact H1|].
      rewrite length_app in H2. destruct cat; simpl in H2 |- *; lia.
    + apply Forall_app. split; [exact Hall|].
      destruct cat as [tag|]; [|constructor].
      constructor; [|constructor]. eapply clean_line_label, E.
Qed.

End CleanerEdgeFacts.

Section RedirectFacts.

Context {World : Type}.
Variable tools : Tools World.

(** X7: whenever the cleaned text, stripped, is a redirect directive with
    a target that has neither a newline nor a closing bracket, the page is
    written as a redirect: the raw-markup file gets the original text, the
    rendered file the stub for that target, no process is started and
    [dump_revision] returns [True]. *)
Theorem dump_revision_redirect (st : State World) (mw_filename md_filename : string)
    (text title : string) (args : Args) (date : option string)
    (cleaned : string) (categories : list string) (redirect : string) :
  cleanup_mediawiki text = Ok (cleaned, categories) ->
  strip cleaned = "#REDIRECT [[" +:+ redirect +:+ "]]" ->
  contains redirect nl = false ->
  contains redirect "]" = false ->
  dump_revision tools mw_filename md_filename text title args date st
  = (Ok true,
     {| world := world st;
        files := <[md_filename := redirect_stub title date redirect args]>
                   (<[mw_filename := text]> (files st)) |},
     []).
Proof.
  intros Hclean Hstrip Hnl Hbr. unfold dump_revision. rewrite Hclean.
  cbv beta iota zeta delta [lift mbind M_bind mret M_ret write_file].
  rewrite (redirect_target_of_directive cleaned redirect Hstrip Hnl Hbr).
  cbn [world files]. reflexivity.
Qed.

End RedirectFacts.

Lemma dump_revision_redirect_witness :
  dump_revision sample_tools "wiki/Pear.mediawiki" "wiki/Pear.md"
    "#REDIRECT [[Apple]] [[Category:Moved]]" "Pear" sample_args None empty_state
  = (Ok true,
     {| world := tt;
        files := <["wiki/Pear.md" := redirect_stub "Pear" None "Apple" sample_args]>
                   (<["wiki/Pear.mediawiki" := "#REDIRECT [[Apple]] [[Category:Moved]]"]> ∅) |},
     []).
Proof.
  apply (dump_revision_redirect sample_tools empty_state "wiki/Pear.mediawiki" "wiki/Pear.md"
           "#REDIRECT [[Apple]] [[Category:Moved]]" "Pear" sample_args None
           "#REDIRECT [[Apple]]" ["Moved"] "Apple");
    vm_compute; reflexivity.
Defined.

(** X8: a line that opens a wrapper div without closing the opening tag
    and ends with the closing tag makes [un_div] raise ValueError, and
    the cleaner with it, nothing there catching it: the conversion of the
    page stops with that exception. *)
Theorem un_div_unclosed_tag_raises (attrs : string) :
  let line := "<div " +:+ attrs +:+ "</div>" in
  contains attrs ">" = false ->
  contains line ltr_mark = false ->
  lang_tag_free line = true ->
  contains line nl = false ->
  un_div line = Raise ValueError /\
  clean_line line = Raise ValueError /\
  cleanup_mediawiki line = Raise ValueError.
Proof.
  intros line Hattrs Hltr Hlang Hnl.
  assert (Hun : un_div line = Raise ValueError).
  { unfold un_div, line.
    change ("<div " +:+ attrs +:+ "</div>") with (String "<" ("div " +:+ attrs +:+ "</div>")).
    replace ("div " +:+ attrs +:+ "</div>") with (("div " +:+ attrs) +:+ "</div>")
      by (rewrite app_assoc_s; reflexivity).
    rewrite strip_keep by (try reflexivity; discriminate).
    rewrite <- app_cons.
    change (String "<" ("div " +:+ attrs)) with ("<div " +:+ attrs).
    rewrite endswith_app.
    replace (startswith (("<div " +:+ attrs) +:+ "</div>") "<div ") with true
      by (rewrite app_assoc_s, startswith_app; reflexivity).
    cbn [andb]. change 6%nat with (len "</div>"). rewrite slice_to_neg_app.
    assert (Hnone : find ("<div " +:+ attrs) ">" = None).
    { apply find_none_contains. rewrite contains_char_app, Hattrs. reflexivity. }
    rewrite Hnone. reflexivity. }
  assert (Hline : clean_line line = Raise ValueError).
  { unfold clean_line.
    rewrite replace_absent by (try exact Hltr; discriminate).
    rewrite lang_steps_plain by exact Hlang. rewrite Hun. reflexivity. }
  split; [exact Hun|]. split; [exact Hline|].
  unfold cleanup_mediawiki. rewrite (split_lines_single line Hnl).
  cbn [clean_lines]. rewrite Hline. reflexivity.
Qed.

Lemma un_div_unclosed_tag_raises_witness :
  cleanup_mediawiki ("<div " +:+ "class=box" +:+ "</div>") = Raise ValueError.
Proof.
  refine (proj2 (proj2 (un_div_unclosed_tag_raises "class=box" _ _ _ _)));
    vm_compute; reflexivity.
Defined.

(** X9: the cleaner returns at most one category label for each line of
    the text, and no label has a pair of closing brackets in it. *)
Theorem cleanup_mediawiki_categories (text cleaned : string) (categories : list string) :
  cleanup_mediawiki text = Ok (cleaned, categories) ->
  Forall (fun c => contains c "]]" = false) categories /\
  (length categories <= length (split_lines text))%nat.
Proof.
  unfold cleanup_mediawiki.
  destruct (clean_lines (split_lines text) [] []) as [[new cats]|] eqn:E; [|discriminate].
  cbn [mbind res_bind]. intros [= _ <-].
  apply (clean_lines_labels _ _ _ _ _ E). constructor.
Qed.

Lemma cleanup_mediawiki_categories_witness :
  cleanup_mediawiki ("[[Category:Fruit]][[Category:Pears]]" +:+ nl +:+ "[[Category:Trees]] x")
  = Ok ("[[Category:Pears]]" +:+ nl +:+ "x", ["Fruit"; "Trees"]) /\
  Forall (fun c => contains c "]]" = false) ["Fruit"; "Trees"] /\
  (length ["Fruit"; "Trees"]
   <= length (split_lines ("[[Category:Fruit]][[Category:Pears]]" +:+ nl
                           +:+ "[[Category:Trees]] x")))%nat.
Proof.
  assert (H : cleanup_mediawiki
                ("[[Category:Fruit]][[Category:Pears]]" +:+ nl +:+ "[[Category:Trees]] x")
              = Ok ("[[Category:Pears]]" +:+ nl +:+ "x", ["Fruit"; "Trees"]))
    by (vm_compute; reflexivity).
  split; [exact H|].
  exact (cleanup_mediawiki_categories _ _ _ H).
Defined.

(** ** The user mapping and the blocklist *)

Section FlatFileFacts.

Lemma lstrip_str_first (s : string) (c : ascii) (r : string) :
  lstrip_str s = String c r -> is_space_str c = false.
Proof.
  induction s as [|b s IH]; [discriminate|].
  cbn [lstrip_str]. destruct (is_space_str b) eqn:E; [exact IH|].
  intros [= <- _]. exact E.
Qed.

Lemma rstrip_str_first (s : string) (c : ascii) (r : string) :
  rstrip_str s = String c r -> exists s', s = String c s'.
Proof.
  destruct s as [|b s]; [discriminate|].
  cbn [rstrip_str]. destruct (rstrip_str s).
  - destruct (is_space_str b); [discriminate|]. intros [= <- _]. eauto.
  - intros [= <- _]. eauto.
Qed.

Lemma strip_str_first (line : string) (c : ascii) (r : string) :
  strip_str line = String c r -> is_space_str c = false.
Proof.
  unfold strip_str. intros H. destruct (rstrip_str_first _ _ _ H) as [s' Hs].
  exact (lstrip_str_first _ _ _ Hs).
Qed.

Lemma split_on_nonempty (sep : ascii) (s : string) : split_on sep s <> [].
Proof.
  destruct s as [|c s]; cbn [split_on]; [discriminate|].
  destruct (Ascii.eqb c sep); [discriminate|].
  destruct (split_on sep s); discriminate.
Qed.

(** Joining the fields at the separator gives the text back. *)
Lemma join_split_on (sep : ascii) (s : string) :
  join (String sep EmptyString) (split_on sep s) = s.
Proof.
  induction s as [|c s IH]; [reflexivity|].
  cbn [split_on]. destruct (Ascii.eqb_spec c sep) as [->|Hc].
  - rewrite join_cons by apply split_on_nonempty. rewrite IH. reflexivity.
  - destruct (split_on sep s) as [|h t] eqn:E; [destruct (split_on_nonempty sep s E)|].
    destruct t as [|h1 t].
    + cbn [join] in *. rewrite IH. reflexivity.
    + rewrite join_cons in * by discriminate. rewrite app_cons, IH. reflexivity.
Qed.

Lemma split_on_no_sep (sep : ascii) (s : string) :
  Forall (fun f => contains f (String sep EmptyString) = false) (split_on sep s).
Proof.
  induction s as [|c s IH]; [repeat constructor|].
  cbn [split_on]. destruct (Ascii.eqb_spec c sep) as [->|Hc].
  - constructor; [reflexivity|exact IH].
  - destruct (split_on sep s) as [|h t]; [repeat constructor|].
    + rewrite contains_char_cons. apply orb_false_iff. split; [|reflexivity].
      apply Ascii.eqb_neq. congruence.
    + inversion IH as [|? ? Hh Ht]; subst. constructor; [|exact Ht].
      rewrite contains_char_cons, Hh, orb_false_r. apply Ascii.eqb_neq. congruence.
Qed.

Lemma split_on_first (sep c : ascii) (s f : string) (rest : list string) :
  Ascii.eqb c sep = false -> split_on sep (String c s) = f :: rest -> f <> EmptyString.
Proof.
  intros Hc. cbn [split_on]. rewrite Hc.
  destruct (split_on sep s); intros [= <- _]; discriminate.
Qed.

Lemma split_on_single (sep : ascii) (s : string) :
  contains s (String sep EmptyString) = false -> split_on sep s = [s].
Proof.
  induction s as [|c s IH]; [reflexivity|].
  rewrite contains_char_cons. intros [H1 H2]%orb_false_iff.
  cbn [split_on]. rewrite Ascii.eqb_sym, H1, (IH H2). reflexivity.
Qed.

(** What a line does to the mapping. *)
Lemma user_table_line_entry (user_mapping user_mapping1 : gmap string string)
    (line : string) :
  user_table_line user_mapping line = Ok user_mapping1 ->
  (strip_str line = EmptyString /\ user_mapping1 = user_mapping) \/
  exists username github,
    user_mapping1 = <[username := github]> user_mapping /\
    entry_of_line line username github.
Proof.
  unfold user_table_line.
  destruct (strip_str line) as [|c s] eqn:Hs.
  { intros [= <-]. left. split; reflexivity. }
  pose proof (join_split_on tab_char (String c s)) as Hjoin.
  pose proof (split_on_no_sep tab_char (String c s)) as Hsep.
  pose proof (strip_str_first line c s Hs) as Hc.
  destruct (split_on tab_char (String c s)) as [|username [|github [|x l]]] eqn:E;
    try discriminate.
  destruct (negb (contains github " <") || negb (contains github "@")
            || negb (contains github ">")) eqn:Hmarks; [discriminate|].
  intros [= <-]. right. exists username, github. split; [reflexivity|].
  apply orb_false_iff in Hmarks as [Hm H3]. apply orb_false_iff in Hm as [H1 H2].
  apply negb_false_iff in H1, H2, H3.
  inversion Hsep as [|? ? Hu Hrest]; subst. inversion Hrest as [|? ? Hg _]; subst.
  assert (Hne : username <> EmptyString).
  { apply (split_on_first tab_char c s username [github]); [|exact E].
    destruct (Ascii.eqb_spec c tab_char) as [->|]; [discriminate|reflexivity]. }
  repeat split; try assumption.
  rewrite Hs, <- Hjoin. cbn [join]. reflexivity.
Qed.

Lemma user_table_loop_entries (all handle : list string)
    (user_mapping user_mapping1 : gmap string string) :
  (forall line, In line handle -> In line all) ->
  (forall u g, user_mapping !! u = Some g ->
     exists line, In line all /\ entry_of_line line u g) ->
  user_table_loop handle user_mapping = Ok user_mapping1 ->
  forall u g, user_mapping1 !! u = Some g ->
    exists line, In line all /\ entry_of_line line u g.
Proof.
  revert user_mapping. induction handle as [|line rest IH]; intros um Hsub Hum.
  - intros [= <-]. exact Hum.
  - cbn [user_table_loop]. destruct (user_table_line um line) as [um1|] eqn:E; [|discriminate].
    cbn [mbind res_bind]. apply IH.
    + intros l Hl. apply Hsub. right. exact Hl.
    + apply user_table_line_entry in E as [[_ ->]|(u0 & g0 & -> & Hentry)]; [exact Hum|].
      intros u g. rewrite lookup_insert. case_decide as Hd.
      * intros [= <-]. subst u. exists line. split; [apply Hsub; left; reflexivity|exact Hentry].
      * apply Hum.
Qed.

(** Every exception of the loop is [sys.exit(1)]. *)
Lemma user_table_line_exit (user_mapping : gmap string string) (line : string) (e : Exn) :
  user_table_line user_mapping line = Raise e -> e = SystemExit 1.
Proof.
  unfold user_table_line. destruct (strip_str line); [discriminate|].
  destruct (split_on _ _) as [|u [|g [|x l]]]; try (intros [= <-]; reflexivity).
  destruct (_ || _); [intros [= <-]; reflexivity|discriminate].
Qed.

Lemma user_table_loop_malformed (handle : list string) (line : string)
    (user_mapping : gmap string string) :
  In line handle ->
  (forall um, user_table_line um line = Raise (SystemExit 1)) ->
  user_table_loop handle user_mapping = Raise (SystemExit 1).
Proof.
  intros Hin Hbad. revert user_mapping.
  induction handle as [|l rest IH]; intros um; [destruct Hin|].
  cbn [user_table_loop]. destruct (user_table_line um l) as [um1|e] eqn:E.
  - cbn [mbind res_bind]. destruct Hin as [->|Hin]; [rewrite Hbad in E; discriminate|].
    apply IH, Hin.
  - apply user_table_line_exit in E as ->. reflexivity.
Qed.

Lemma make_blocklist_fold (handle : list string) (blocklist : gset string) (u : string) :
  u ∈ fold_left (fun bl line => bl ∪ {[ strip_str line ]}) handle blocklist <->
  u ∈ blocklist \/ exists line, In line handle /\ strip_str line = u.
Proof.
  revert blocklist. induction handle as [|l rest IH]; intros bl; cbn [fold_left].
  - split; [auto|]. intros [H|(line & [] & _)]. exact H.
  - rewrite IH, elem_of_union, elem_of_singleton. split.
    + intros [[H| ->]|(line & Hin & Hs)]; [auto| |].
      * right. exists l. split; [left; reflexivity|reflexivity].
      * right. exists line. split; [right; exact Hin|exact Hs].
    + intros [H|(line & [<-|Hin] & Hs)]; [auto| |].
      * left. right. symmetry. exact Hs.
      * right. exists line. split; assumption.
Qed.

End FlatFileFacts.

(** X10: every entry of a user mapping that was read without error comes
    from a line of the file: the line, stripped, is the username, a tab and
    the identity; the username is not empty, neither field has a tab in it,
    and the identity has a blank before an opening angle, an at sign and a
    closing angle. *)
Theorem make_user_mapping_entries (handle : list string)
    (user_mapping : gmap string string) (username github : string) :
  make_user_mapping handle = Ok user_mapping ->
  user_mapping !! username = Some github ->
  exists line, In line handle /\ entry_of_line line username github.
Proof.
  intros Hm Hu.
  apply (user_table_loop_entries handle handle ∅ user_mapping); auto.
  intros u g H. rewrite lookup_empty in H. discriminate.
Qed.

Lemma make_user_mapping_entries_witness :
  exists line,
    In line ["alice" +:+ String tab_char "Alice A <alice@x.org>" +:+ nl; nl] /\
    entry_of_line line "alice" "Alice A <alice@x.org>".
Proof.
  apply (make_user_mapping_entries
           ["alice" +:+ String tab_char "Alice A <alice@x.org>" +:+ nl; nl]
           {[ "alice" := "Alice A <alice@x.org>" ]} "alice" "Alice A <alice@x.org>").
  - vm_compute. reflexivity.
  - vm_compute. reflexivity.
Defined.

(** X11: a mapping read from the file never has the empty username as a
    key, so with it the author of an anonymous change is always the
    anonymous contributor, and the tally is left as it was. *)
Theorem make_user_mapping_keeps_anonymous (handle : list string)
    (user_mapping : gmap string string) (default_email : string)
    (missing_users : gmap string Z) :
  make_user_mapping handle = Ok user_mapping ->
  user_mapping !! EmptyString = None /\
  resolve_author EmptyString user_mapping default_email missing_users
  = ("Anonymous Contributor <" +:+ default_email +:+ ">", missing_users).
Proof.
  intros Hm.
  assert (Hnone : user_mapping !! EmptyString = None).
  { destruct (user_mapping !! EmptyString) as [g|] eqn:E; [|reflexivity].
    destruct (user_table_loop_entries handle handle ∅ user_mapping
                (fun _ H => H)
                ltac:(intros u g0 H; rewrite lookup_empty in H; discriminate)
                Hm EmptyString g E) as (line & _ & _ & Hne & _).
    congruence. }
  split; [exact Hnone|]. unfold resolve_author, lookup_bytes. cbn [is_ascii].
  rewrite Hnone. reflexivity.
Qed.

Lemma make_user_mapping_keeps_anonymous_witness :
  resolve_author EmptyString {[ "alice" := "Alice A <alice@x.org>" ]} "e@x.org" ∅
  = ("Anonymous Contributor <" +:+ "e@x.org" +:+ ">", ∅).
Proof.
  refine (proj2 (make_user_mapping_keeps_anonymous
                   ["alice" +:+ String tab_char "Alice A <alice@x.org>" +:+ nl]
                   {[ "alice" := "Alice A <alice@x.org>" ]} "e@x.org" ∅ _)).
  vm_compute. reflexivity.
Defined.

(** X12: a line of the user table that is not blank and has no tab ends
    the reading with [sys.exit(1)], wherever in the file it stands and
    whatever the other lines are. *)
Theorem make_user_mapping_rejects_line_without_tab (handle : list string) (line : string) :
  In line handle ->
  strip_str line <> EmptyString ->
  contains (strip_str line) (String tab_char EmptyString) = false ->
  make_user_mapping handle = Raise (SystemExit 1).
Proof.
  intros Hin Hne Htab. apply (user_table_loop_malformed handle line ∅ Hin).
  intros um. unfold user_table_line.
  destruct (strip_str line) as [|c s]; [congruence|].
  rewrite (split_on_single tab_char _ Htab). reflexivity.
Qed.

Lemma make_user_mapping_rejects_line_without_tab_witness :
  make_user_mapping ["alice" +:+ String tab_char "Alice A <alice@x.org>"; "bob Bob <b@x.org>"]
  = Raise (SystemExit 1).
Proof.
  apply (make_user_mapping_rejects_line_without_tab _ "bob Bob <b@x.org>").
  - right. left. reflexivity.
  - discriminate.
  - reflexivity.
Defined.

(** X13: a username without a character outside ASCII that stands on a
    line of the blocklist file, blanks around it or not, is the username
    of no staged row; a blank line in the file blocks the anonymous
    changes in this way. *)
Theorem blocklist_line_blocks (handle : list string) (line : string)
    (prefixes : list string) (tree : list (string * Element))
    (table : list RevisionRecord) (row : RevisionRecord) :
  In line handle ->
  is_ascii (strip_str line) = true ->
  extract_revisions (make_blocklist handle) prefixes tree = Ok table ->
  In row table ->
  rev_username row <> strip_str line.
Proof.
  intros Hline Hascii Hex Hrow Heq.
  pose proof (extract_revisions_ok _ _ _ _ Hex) as Hall.
  rewrite Forall_forall in Hall.
  destruct (Hall row (proj2 (list_elem_of_In _ _) Hrow)) as [Hnot _].
  unfold in_bytes in Hnot. rewrite Heq, Hascii in Hnot. cbn [andb] in Hnot.
  apply bool_decide_eq_false in Hnot.
  apply Hnot. unfold make_blocklist. apply make_blocklist_fold.
  right. exists line. split; [exact Hline|reflexivity].
Qed.

Lemma blocklist_line_blocks_witness :
  extract_revisions (make_blocklist ["spammer" +:+ nl; nl]) page_prefixes_to_ignore sample_tree
  = Ok [zebra_row; apple_row; broken_row; logo_row (Some "aGVsbG8=")] /\
  rev_username zebra_row <> strip_str nl.
Proof.
  assert (H : extract_revisions (make_blocklist ["spammer" +:+ nl; nl])
                page_prefixes_to_ignore sample_tree
              = Ok [zebra_row; apple_row; broken_row; logo_row (Some "aGVsbG8=")])
    by (vm_compute; reflexivity).
  split; [exact H|].
  apply (blocklist_line_blocks ["spammer" +:+ nl; nl] nl page_prefixes_to_ignore
           sample_tree [zebra_row; apple_row; broken_row; logo_row (Some "aGVsbG8=")]
           zebra_row); [right; left; reflexivity|reflexivity|exact H|left; reflexivity].
Defined.

(** ** More on the extraction loop *)

Section ExtractionMore.

Variable blocklist : gset string.
Variable prefixes : list string.

(** An invariant of the rows goes through the loop when the two places
    that insert a row keep it. *)
Lemma extract_loop_rows_inv (P : RevisionRecord -> Prop) :
  (forall p rows rows1,
     close_revision blocklist prefixes p rows = Ok rows1 -> Forall P rows -> Forall P rows1) ->
  (forall p rows rows1,
     close_upload blocklist p rows = Ok rows1 -> Forall P rows -> Forall P rows1) ->
  forall tree st st1,
    Forall P (snd st) ->
    extract_loop blocklist prefixes tree st = Ok st1 ->
    Forall P (snd st1).
Proof.
  intros Hrev Hup tree. induction tree as [|ev rest IH]; intros st st1 Hst H.
  - injection H as <-. exact Hst.
  - cbn [extract_loop] in H. unfold mbind, res_bind in H.
    destruct (extract_step blocklist prefixes st ev) as [st2|] eqn:E; [|discriminate].
    eapply IH; [|exact H]. clear H IH.
    destruct st as [p rows], ev as [event element], st2 as [p2 rows2].
    cbn [snd] in *. unfold extract_step in E.
    destruct (String.eqb event "start").
    { unfold mbind, res_bind in E. destruct (on_start _ _ _); [|discriminate].
      injection E as <- <-. exact Hst. }
    destruct (String.eqb event "end"); [|discriminate].
    unfold on_end in E.
    repeat match type of E with
           | (if ?b then _ else _) = _ => destruct b
           end;
      unfold mbind, res_bind in E;
      repeat match type of E with
             | match ?x with _ => _ end = _ => destruct x eqn:?; try discriminate
             end;
      injection E as <- <-;
      first [ exact Hst
            | eapply Hrev; eassumption
            | eapply Hup; eassumption ].
Qed.

Lemma close_revision_title (p : Pending) (rows rows1 : list RevisionRecord) :
  close_revision blocklist prefixes p rows = Ok rows1 ->
  Forall (staged_title_ok prefixes) rows ->
  Forall (staged_title_ok prefixes) rows1.
Proof.
  intros H Hrows. unfold close_revision in H.
  destruct (in_bytes _ blocklist); [injection H as <-; exact Hrows|].
  destruct (title p) as [t|]; [|discriminate].
  destruct (startswith t "File:"); [injection H as <-; exact Hrows|].
  destruct (ignore_by_prefix t prefixes) eqn:Hi; [injection H as <-; exact Hrows|].
  destruct (text p); injection H as <-; [|exact Hrows].
  apply Forall_app. split; [exact Hrows|].
  constructor; [|constructor]. right. exact Hi.
Qed.

Lemma close_upload_title (p : Pending) (rows rows1 : list RevisionRecord) :
  close_upload blocklist p rows = Ok rows1 ->
  Forall (staged_title_ok prefixes) rows ->
  Forall (staged_title_ok prefixes) rows1.
Proof.
  intros H Hrows. unfold close_upload in H.
  destruct (title p) as [t|]; [|discriminate].
  unfold mbind, res_bind, assert in H.
  destruct (startswith t "File:") eqn:Ht; [|discriminate].
  destruct (in_bytes _ blocklist); [injection H as <-; exact Hrows|].
  rewrite orb_true_r in H. injection H as <-.
  apply Forall_app. split; [exact Hrows|].
  constructor; [|constructor]. left. exact Ht.
Qed.

Lemma extract_revisions_titles (tree : list (string * Element))
    (table : list RevisionRecord) :
  extract_revisions blocklist prefixes tree = Ok table ->
  Forall (staged_title_ok prefixes) table.
Proof.
  unfold extract_revisions, mbind, res_bind.
  destruct (extract_loop blocklist prefixes tree (no_pending, [])) as [st|] eqn:E;
    [|discriminate].
  intros [= <-].
  eapply (extract_loop_rows_inv _ close_revision_title close_upload_title); [|exact E].
  constructor.
Qed.

(** The rows already in the table do not matter to a step of the loop:
    it puts its rows behind them. *)
Lemma close_revision_frame (p : Pending) (rows0 rows : list RevisionRecord) :
  close_revision blocklist prefixes p (rows0 ++ rows)
  = match close_revision blocklist prefixes p rows with
    | Ok rows1 => Ok (rows0 ++ rows1)
    | Raise e => Raise e
    end.
Proof.
  unfold close_revision.
  destruct (in_bytes _ blocklist); [reflexivity|].
  destruct (title p) as [t|]; [|reflexivity].
  destruct (startswith t "File:"); [reflexivity|].
  destruct (ignore_by_prefix t prefixes); [reflexivity|].
  destruct (text p); [|reflexivity]. rewrite app_assoc. reflexivity.
Qed.

Lemma close_upload_frame (p : Pending) (rows0 rows : list RevisionRecord) :
  close_upload blocklist p (rows0 ++ rows)
  = match close_upload blocklist p rows with
    | Ok rows1 => Ok (rows0 ++ rows1)
    | Raise e => Raise e
    end.
Proof.
  unfold close_upload.
  destruct (title p) as [t|]; [|reflexivity].
  unfold mbind, res_bind, assert.
  destruct (startswith t "File:"); [|reflexivity].
  destruct (in_bytes _ blocklist); [reflexivity|].
  destruct (_ || _); [|reflexivity]. rewrite app_assoc. reflexivity.
Qed.

Lemma extract_step_frame (p : Pending) (rows0 rows : list RevisionRecord)
    (ev : string * Element) :
  extract_step blocklist prefixes (p, rows0 ++ rows) ev
  = match extract_step blocklist prefixes (p, rows) ev with
    | Ok (p1, rows1) => Ok (p1, rows0 ++ rows1)
    | Raise e => Raise e
    end.
Proof.
  destruct ev as [event element]. unfold extract_step.
  destruct (String.eqb event "start").
  { unfold mbind, res_bind. destruct (on_start _ _ _); reflexivity. }
  destruct (String.eqb event "end"); [|reflexivity].
  unfold on_end.
  repeat match goal with
         | |- context [if ?b then _ else _] => destruct b
         end;
    unfold mbind, res_bind;
    rewrite ?close_revision_frame, ?close_upload_frame;
    try (destruct (text_strip element));
    try (destruct (el_text element));
    try (destruct (close_revision blocklist prefixes p rows));
    try (destruct (close_upload blocklist p rows));
    try (destruct (assert (is_none (date p))));
    reflexivity.
Qed.

Lemma extract_loop_frame (tree : list (string * Element)) (p : Pending)
    (rows0 rows : list RevisionRecord) :
  extract_loop blocklist prefixes tree (p, rows0 ++ rows)
  = match extract_loop blocklist prefixes tree (p, rows) with
    | Ok (p1, rows1) => Ok (p1, rows0 ++ rows1)
    | Raise e => Raise e
    end.
Proof.
  revert p rows. induction tree as [|ev rest IH]; intros p rows; [reflexivity|].
  cbn [extract_loop]. unfold mbind, res_bind. rewrite extract_step_frame.
  destruct (extract_step blocklist prefixes (p, rows) ev) as [[p1 rows1]|]; [|reflexivity].
  apply IH.
Qed.

Lemma extract_loop_app (t1 t2 : list (string * Element))
    (st : Pending * list RevisionRecord) :
  extract_loop blocklist prefixes (t1 ++ t2) st
  = match extract_loop blocklist prefixes t1 st with
    | Ok st1 => extract_loop blocklist prefixes t2 st1
    | Raise e => Raise e
    end.
Proof.
  revert st. induction t1 as [|ev rest IH]; intros st; [reflexivity|].
  cbn [app extract_loop]. unfold mbind, res_bind.
  destruct (extract_step blocklist prefixes st ev); [apply IH|reflexivity].
Qed.

End ExtractionMore.

(** X14: the extraction stages no row under an excluded prefix, unless the
    title is in the file namespace: a revision is inserted only when
    [ignore_by_prefix] is false for its title, an upload only under
    [File:]. *)
Theorem staged_titles_not_excluded (blocklist : gset string) (prefixes : list string)
    (tree : list (string * Element)) (table : list RevisionRecord)
    (row : RevisionRecord) :
  extract_revisions blocklist prefixes tree = Ok table ->
  In row table ->
  startswith (rev_title row) "File:" = true \/
  ignore_by_prefix (rev_title row) prefixes = false.
Proof.
  intros Hex Hin.
  pose proof (extract_revisions_titles blocklist prefixes tree table Hex) as Hall.
  rewrite Forall_forall in Hall.
  exact (Hall row (proj2 (list_elem_of_In _ _) Hin)).
Qed.

Lemma staged_titles_not_excluded_witness :
  startswith (rev_title apple_row) "File:" = true \/
  ignore_by_prefix (rev_title apple_row) page_prefixes_to_ignore = false.
Proof.
  apply (staged_titles_not_excluded sample_blocklist page_prefixes_to_ignore sample_tree
           sample_table apple_row); [vm_compute; reflexivity|].
  right. left. reflexivity.
Defined.

(** X15: events that begin and end outside any page, all accumulators
    empty, give their rows whatever follows: the rows of such a stretch
    followed by more events are its rows followed by the rows of those. *)
Theorem extract_revisions_page_by_page (blocklist : gset string) (prefixes : list string)
    (t1 t2 : list (string * Element)) (rows1 rows2 : list RevisionRecord) :
  extract_loop blocklist prefixes t1 (no_pending, []) = Ok (no_pending, rows1) ->
  extract_revisions blocklist prefixes t2 = Ok rows2 ->
  extract_revisions blocklist prefixes (t1 ++ t2) = Ok (rows1 ++ rows2).
Proof.
  unfold extract_revisions, mbind, res_bind. intros H1 H2.
  rewrite extract_loop_app, H1.
  rewrite <- (app_nil_r rows1) at 1. rewrite extract_loop_frame.
  destruct (extract_loop blocklist prefixes t2 (no_pending, [])) as [[p r]|];
    [|discriminate].
  cbn [snd] in *. injection H2 as ->. reflexivity.
Qed.

Lemma extract_revisions_page_by_page_witness :
  extract_revisions sample_blocklist page_prefixes_to_ignore
    (sample_page "Apple" "bob" "2001-01-02T00:00:00Z" "A fruit." ++
     sample_upload "File:Logo.png" "alice" "2001-01-04T00:00:00Z" "Logo.png" None)
  = Ok ([apple_row] ++ [logo_row None]).
Proof.
  apply (extract_revisions_page_by_page sample_blocklist page_prefixes_to_ignore
           (sample_page "Apple" "bob" "2001-01-02T00:00:00Z" "A fruit.")
           (sample_upload "File:Logo.png" "alice" "2001-01-04T00:00:00Z" "Logo.png" None));
    vm_compute; reflexivity.
Defined.

(** ** Titles that differ by case only *)

Section CollisionFacts.

Lemma insert_title_In (t x : string) (l : list string) :
  In x (insert_title t l) <-> x = t \/ In x l.
Proof.
  induction l as [|y l IH]; cbn [insert_title In]; [intuition|].
  destruct (String.compare t y) eqn:E; cbn [In].
  - apply String.compare_eq_iff in E as ->. intuition.
  - intuition.
  - rewrite IH. intuition.
Qed.

Lemma distinct_titles_In (t : string) (table : list RevisionRecord) :
  In t (distinct_titles table) <-> exists row, In row table /\ rev_title row = t.
Proof.
  unfold distinct_titles. induction table as [|r table IH]; cbn [foldr In].
  - split; [intros []|intros (row & [] & _)].
  - rewrite insert_title_In, IH. split.
    + intros [->|(row & Hin & Ht)]; [exists r; auto|exists row; auto].
    + intros (row & [<-|Hin] & Ht); [left; auto|right; exists row; auto].
Qed.

Lemma names_of_insert (names : gmap string string) (seen : list string) (title : string) :
  names_of names seen ->
  names !! lower title = None ->
  names_of (<[lower title := title]> names) (seen ++ [title]).
Proof.
  intros [Hn1 Hn2] Hnone. split.
  - intros v [Hv|[<-|[]]]%in_app_iff; [|apply lookup_insert_eq].
    rewrite lookup_insert. case_decide as Hd; [|apply Hn1, Hv].
    rewrite Hd, (Hn1 v Hv) in Hnone. discriminate.
  - intros k v. rewrite lookup_insert. case_decide as Hd.
    + intros [= <-]. split; [apply in_app_iff; right; left; reflexivity|congruence].
    + intros H. destruct (Hn2 k v H) as [Hin Hk].
      split; [apply in_app_iff; left; exact Hin|exact Hk].
Qed.

Lemma collisions_loop_sound (titles : list string) (page_prefixes : list string)
    (names : gmap string string) (seen : list string) (t s : string) :
  names_of names seen ->
  collisions_loop titles page_prefixes names = Ok (Some (t, s)) ->
  t <> s /\ lower t = lower s /\ In t titles /\ In s (seen ++ titles).
Proof.
  revert names seen. induction titles as [|title rest IH]; intros names seen Hn;
    [discriminate|].
  cbn [collisions_loop]. destruct (ignore_by_prefix title page_prefixes); [discriminate|].
  destruct (names !! lower title) as [old|] eqn:E.
  - destruct (String.eqb_spec old title) as [->|Hne].
    + intros H. destruct (IH names seen Hn H) as (H1 & H2 & H3 & H4).
      repeat split; [exact H1|exact H2|right; exact H3|].
      apply in_app_iff in H4 as [H4|H4]; apply in_app_iff; [left|right; right]; exact H4.
    + intros [= <- <-]. destruct Hn as [_ Hn2].
      destruct (Hn2 _ _ E) as [Hold Hk].
      repeat split; [congruence|exact Hk|left; reflexivity|apply in_app_iff; left; exact Hold].
  - intros H.
    destruct (IH _ _ (names_of_insert names seen title Hn E) H) as (H1 & H2 & H3 & H4).
    repeat split; [exact H1|exact H2|right; exact H3|].
    rewrite <- app_assoc in H4. exact H4.
Qed.

Lemma collisions_loop_complete (titles : list string) (page_prefixes : list string)
    (names : gmap string string) (seen : list string) :
  names_of names seen ->
  collisions_loop titles page_prefixes names = Ok None ->
  forall x y, In x (seen ++ titles) -> In y (seen ++ titles) ->
              lower x = lower y -> x = y.
Proof.
  revert names seen. induction titles as [|title rest IH]; intros names seen Hn.
  - intros _ x y Hx Hy Hl. rewrite app_nil_r in Hx, Hy. destruct Hn as [Hn1 _].
    pose proof (Hn1 x Hx) as H1. pose proof (Hn1 y Hy) as H2.
    rewrite Hl in H1. congruence.
  - cbn [collisions_loop]. destruct (ignore_by_prefix title page_prefixes); [discriminate|].
    destruct (names !! lower title) as [old|] eqn:E.
    + destruct (String.eqb_spec old title) as [->|Hne]; [|discriminate].
      intros H x y Hx Hy. apply (IH names seen Hn H).
      * destruct Hn as [_ Hn2]. destruct (Hn2 _ _ E) as [Hin _].
        apply in_app_iff in Hx as [Hx|[<-|Hx]]; apply in_app_iff; auto.
      * destruct Hn as [_ Hn2]. destruct (Hn2 _ _ E) as [Hin _].
        apply in_app_iff in Hy as [Hy|[<-|Hy]]; apply in_app_iff; auto.
    + intros H x y Hx Hy.
      apply (IH _ _ (names_of_insert names seen title Hn E) H);
        rewrite <- app_assoc; assumption.
Qed.

Lemma collisions_loop_no_assert (titles : list string) (page_prefixes : list string)
    (names : gmap string string) :
  Forall (fun t => ignore_by_prefix t page_prefixes = false) titles ->
  exists warning, collisions_loop titles page_prefixes names = Ok warning.
Proof.
  intros H. revert names. induction H as [|title rest Ht Hrest IH]; intros names.
  - exists None. reflexivity.
  - cbn [collisions_loop]. rewrite Ht.
    destruct (names !! lower title) as [old|]; [|apply IH].
    destruct (String.eqb old title); [apply IH|eauto].
Qed.

Lemma file_title_not_ignored (t : string) :
  startswith t "File:" = true -> ignore_by_prefix t page_prefixes_to_ignore = false.
Proof.
  intros [r ->]%startswith_spec.
  change ("File:" +:+ r)
    with (String "F" (String "i" (String "l" (String "e" (String ":" r))))).
  reflexivity.
Qed.

Lemma names_of_empty : names_of ∅ [].
Proof.
  split; [intros v []|]. intros k v H. rewrite lookup_empty in H. discriminate.
Qed.

End CollisionFacts.

(** X17: a warning of [check_for_name_collisions] is never a false alarm:
    the two titles it prints are titles of staged rows, they differ, and
    they are the same text once in lower case. *)
Theorem name_collision_warning_sound (platform : string) (table : list RevisionRecord)
    (page_prefixes : list string) (t s : string) :
  check_for_name_collisions platform table page_prefixes = Ok (Some (t, s)) ->
  t <> s /\ lower t = lower s /\
  (exists row, In row table /\ rev_title row = t) /\
  (exists row, In row table /\ rev_title row = s).
Proof.
  unfold check_for_name_collisions.
  destruct (negb (String.eqb platform "linux2")); [|discriminate].
  intros H.
  destruct (collisions_loop_sound _ _ _ [] t s names_of_empty H) as (H1 & H2 & H3 & H4).
  repeat split; [exact H1|exact H2| |]; apply distinct_titles_In; assumption.
Qed.

Lemma name_collision_warning_sound_witness :
  check_for_name_collisions "darwin" [apple_row; page_row "apple" "bob" "2001" "x"]
    page_prefixes_to_ignore = Ok (Some ("apple", "Apple")) /\
  "apple" <> "Apple" /\ lower "apple" = lower "Apple".
Proof.
  assert (H : check_for_name_collisions "darwin"
                [apple_row; page_row "apple" "bob" "2001" "x"] page_prefixes_to_ignore
              = Ok (Some ("apple", "Apple"))) by (vm_compute; reflexivity).
  split; [exact H|].
  destruct (name_collision_warning_sound _ _ _ _ _ H) as (H1 & H2 & _).
  split; assumption.
Defined.

(** X18: on a platform other than [linux2], when the check ends without a
    warning and without the assertion, no two staged titles differ by case
    only. *)
Theorem name_collision_silence_complete (platform : string) (table : list RevisionRecord)
    (page_prefixes : list string) (r1 r2 : RevisionRecord) :
  String.eqb platform "linux2" = false ->
  check_for_name_collisions platform table page_prefixes = Ok None ->
  In r1 table -> In r2 table ->
  lower (rev_title r1) = lower (rev_title r2) ->
  rev_title r1 = rev_title r2.
Proof.
  unfold check_for_name_collisions. intros -> H Hr1 Hr2. cbn [negb] in H.
  apply (collisions_loop_complete _ _ _ [] names_of_empty H);
    apply distinct_titles_In; eauto.
Qed.

Lemma name_collision_silence_complete_witness :
  check_for_name_collisions "darwin"
    [apple_row; zebra_row; page_row "Apple" "alice" "2001-01-05T00:00:00Z" "More."]
    page_prefixes_to_ignore = Ok None /\
  rev_title apple_row = rev_title (page_row "Apple" "alice" "2001-01-05T00:00:00Z" "More.").
Proof.
  assert (H : check_for_name_collisions "darwin"
                [apple_row; zebra_row; page_row "Apple" "alice" "2001-01-05T00:00:00Z" "More."]
                page_prefixes_to_ignore = Ok None) by (vm_compute; reflexivity).
  split; [exact H|].
  apply (name_collision_silence_complete "darwin" _ page_prefixes_to_ignore
           apple_row (page_row "Apple" "alice" "2001-01-05T00:00:00Z" "More.") eq_refl H);
    [left; reflexivity|right; right; left; reflexivity|reflexivity].
Defined.

(** X19: on a table that the extraction built with the prefixes of
    [main], the assertion of [check_for_name_collisions] never fails: the
    check ends with a warning or without one. *)
Theorem name_collision_check_after_extraction (platform : string) (blocklist : gset string)
    (tree : list (string * Element)) (table : list RevisionRecord) :
  extract_revisions blocklist page_prefixes_to_ignore tree = Ok table ->
  exists warning,
    check_for_name_collisions platform table page_prefixes_to_ignore = Ok warning.
Proof.
  intros Hex. unfold check_for_name_collisions.
  destruct (negb (String.eqb platform "linux2")); [|eauto].
  apply collisions_loop_no_assert. apply Forall_forall.
  intros t (row & Hin & <-)%list_elem_of_In%distinct_titles_In.
  pose proof (extract_revisions_titles _ _ _ _ Hex) as Hall.
  rewrite Forall_forall in Hall.
  destruct (Hall row (proj2 (list_elem_of_In _ _) Hin)) as [Hf|Hi]; [|exact Hi].
  apply file_title_not_ignored, Hf.
Qed.

Lemma name_collision_check_after_extraction_witness :
  exists warning,
    check_for_name_collisions "win32" sample_table page_prefixes_to_ignore = Ok warning.
Proof.
  apply (name_collision_check_after_extraction "win32" sample_blocklist sample_tree
           sample_table).
  vm_compute. reflexivity.
Defined.

(** ** The exceptions of the cleaner *)

Lemma find_split (s p : string) (i : nat) :
  find s p = Some i -> exists a r, s = a +:+ p +:+ r /\ len a = i.
Proof.
  revert i. induction s as [|c s IH]; intros i.
  - rewrite find_nil. destruct (startswith EmptyString p) eqn:E; [|discriminate].
    intros [= <-]. apply startswith_spec in E as [r Hr].
    exists EmptyString, r. split; [exact Hr|reflexivity].
  - rewrite find_cons. destruct (startswith (String c s) p) eqn:E.
    + intros [= <-]. apply startswith_spec in E as [r Hr].
      exists EmptyString, r. split; [exact Hr|reflexivity].
    + destruct (find s p) as [k|]; [|discriminate]. intros [= <-].
      destruct (IH k eq_refl) as (a & r & -> & Ha).
      exists (String c a), r. split; [reflexivity|simpl; congruence].
Qed.

(** The assertion of the category block holds at every line. *)
Lemma category_step_total (line : string) :
  exists out, category_step line = Ok out.
Proof.
  unfold category_step.
  destruct (contains line "[[Category:"); [|eexists; reflexivity].
  destruct (find line "[[Category:") as [i|] eqn:Ei; [|eexists; reflexivity].
  apply find_split in Ei as (a & r & -> & <-).
  replace (slice_from (len a + 11) (a +:+ "[[Category:" +:+ r)) with r.
  2:{ rewrite slice_from_app_plus. symmetry. exact (slice_from_app "[[Category:" r). }
  destruct (find r "]]") as [j|] eqn:Ej; [|eexists; reflexivity].
  apply find_split in Ej as (b & r2 & -> & <-).
  rewrite slice_to_app.
  assert (H : contains (a +:+ "[[Category:" +:+ b +:+ "]]" +:+ r2)
                ("[[Category:" +:+ b +:+ "]]") = true).
  { apply contains_spec. exists a, r2. rewrite !app_assoc_s. reflexivity. }
  rewrite H. eexists. reflexivity.
Qed.

Lemma un_div_raises (text : string) (e : Exn) :
  un_div text = Raise e -> e = ValueError.
Proof.
  unfold un_div. destruct (_ && _); [|discriminate].
  destruct (find _ ">"); [discriminate|]. congruence.
Qed.

Lemma clean_line_raises (line : string) (e : Exn) :
  clean_line line = Raise e ->
  e = ValueError /\
  un_div (lang_steps (replace line ltr_mark EmptyString)) = Raise ValueError.
Proof.
  unfold clean_line.
  destruct (un_div _) as [undiv|e0] eqn:E; cbn [mbind res_bind].
  - destruct (str_in undiv toc_tokens); [discriminate|].
    destruct (category_step_total
                (if startswith undiv "[[Image:" && endswith undiv "]]" then undiv
                 else lang_steps (replace line ltr_mark EmptyString))) as [[line2 cat] ->].
    cbn [mbind res_bind]. destruct (_ && _); discriminate.
  - intros [= <-]. pose proof (un_div_raises _ _ E) as ->. split; reflexivity.
Qed.

Lemma clean_lines_raises (lines new categories : list string) (e : Exn) :
  clean_lines lines new categories = Raise e ->
  e = ValueError /\
  exists line, In line lines /\
    un_div (lang_steps (replace line ltr_mark EmptyString)) = Raise ValueError.
Proof.
  revert new categories. induction lines as [|line rest IH]; intros new categories.
  - discriminate.
  - cbn [clean_lines]. destruct (clean_line line) as [[kept cat]|e0] eqn:E;
      cbn [mbind res_bind].
    + intros H. destruct (IH _ _ H) as [-> (l & Hin & Hl)].
      split; [reflexivity|]. exists l. split; [right; exact Hin|exact Hl].
    + intros [= <-]. destruct (clean_line_raises _ _ E) as [-> Hl].
      split; [reflexivity|]. exists line. split; [left; reflexivity|exact Hl].
Qed.

Lemma cleanup_mediawiki_raises (text : string) (e : Exn) :
  cleanup_mediawiki text = Raise e -> e = ValueError.
Proof.
  unfold cleanup_mediawiki.
  destruct (clean_lines (split_lines text) [] []) as [[new categories]|e0] eqn:E;
    cbn [mbind res_bind]; [discriminate|].
  intros [= <-]. apply (clean_lines_raises _ _ _ _ E).
Qed.

(** X20: the cleaner raises nothing but the ValueError of [un_div]: the
    assertion of its category block holds at every line, so when
    [cleanup_mediawiki] fails it fails with ValueError, on a text one of
    whose lines, the mark removed and the language tags rewritten, opens a
    wrapper div, ends with the closing tag and has no [>] before it. *)
Theorem cleanup_mediawiki_raises_only_value_error (text : string) (e : Exn) :
  cleanup_mediawiki text = Raise e ->
  e = ValueError /\
  exists line, In line (split_lines text) /\
    let line1 := lang_steps (replace line ltr_mark EmptyString) in
    un_div line1 = Raise ValueError /\
    startswith (strip line1) "<div " = true /\
    endswith (strip line1) "</div>" = true /\
    contains (slice_to_neg 6 (strip line1)) ">" = false.
Proof.
  unfold cleanup_mediawiki.
  destruct (clean_lines (split_lines text) [] []) as [[new categories]|e0] eqn:E;
    cbn [mbind res_bind]; [discriminate|].
  intros [= <-]. destruct (clean_lines_raises _ _ _ _ E) as [-> (line & Hin & Hl)].
  split; [reflexivity|]. exists line. split; [exact Hin|].
  cbv zeta. generalize dependent (lang_steps (replace line ltr_mark EmptyString)).
  intros line1 Hl.
  split; [exact Hl|]. unfold un_div in Hl.
  destruct (startswith (strip line1) "<div "); [|discriminate Hl].
  destruct (endswith (strip line1) "</div>"); [|discriminate Hl].
  cbn [andb] in Hl.
  destruct (find (slice_to_neg 6 (strip line1)) ">") eqn:E3; [discriminate Hl|].
  apply find_none_contains in E3. auto.
Qed.

Lemma cleanup_mediawiki_raises_only_value_error_witness :
  cleanup_mediawiki ("<div class=box</div>" +:+ nl +:+ "text") = Raise ValueError /\
  ValueError = ValueError /\
  exists line, In line (split_lines ("<div class=box</div>" +:+ nl +:+ "text")) /\
    let line1 := lang_steps (replace line ltr_mark EmptyString) in
    un_div line1 = Raise ValueError /\
    startswith (strip line1) "<div " = true /\
    endswith (strip line1) "</div>" = true /\
    contains (slice_to_neg 6 (strip line1)) ">" = false.
Proof.
  assert (H : cleanup_mediawiki ("<div class=box</div>" +:+ nl +:+ "text")
              = Raise ValueError) by (vm_compute; reflexivity).
  split; [exact H|].
  exact (cleanup_mediawiki_raises_only_value_error _ ValueError H).
Defined.


(** ** The shape of a round of the commit loop *)

Lemma resolve_author_author (username : string) (user_mapping : gmap string string)
    (default_email : string) (missing_users : gmap string Z) :
  (resolve_author username user_mapping default_email missing_users).1
  = author_of username user_mapping default_email.
Proof.
  unfold author_of, resolve_author.
  destruct (lookup_bytes username user_mapping); [reflexivity|].
  destruct username; reflexivity.
Qed.

Lemma cleanup_markdown_raises (text source_url prefix : string) (e : Exn) :
  cleanup_markdown text source_url prefix = Raise e -> e = AssertionError.
Proof.
  unfold cleanup_markdown. destruct prefix as [|c p].
  - cbn [mbind res_bind]. destruct (negb _); discriminate.
  - destruct (endswith (String c p) "/" && startswith source_url (String c p)).
    + destruct (negb (startswith (String c p) "/")); cbn [mbind res_bind].
      * destruct (negb _); discriminate.
      * congruence.
    + cbn [mbind res_bind]. congruence.
Qed.

Lemma make_canonical_raises (title : string) (e : Exn) :
  make_canonical title = Raise e -> e = IndexError.
Proof.
  unfold make_canonical. destruct (replace title " " "_"); [congruence|discriminate].
Qed.

Section RoundFacts.

Context {World : Type}.
Variable tools : Tools World.

Lemma assert_isfiles_quiet (filenames : list string) (st : State World) :
  assert_isfiles filenames st = (Ok tt, st, []) \/
  assert_isfiles filenames st = (Raise AssertionError, st, []).
Proof.
  induction filenames as [|f rest IH]; [left; reflexivity|].
  cbn [assert_isfiles].
  cbv beta iota zeta delta [isfile lift mbind M_bind assert].
  destruct (bool_decide _); [|right; reflexivity].
  destruct IH as [-> | ->]; [left|right]; reflexivity.
Qed.

Lemma commit_files_round (filenames : list string) (username : string)
    (date : option string) (comment : string) (user_mapping : gmap string string)
    (args : Args) (missing_users : gmap string Z) (st : State World) :
  let out := commit_files tools filenames username date comment user_mapping args
               missing_users st in
  files_round args filenames date
    (author_of username user_mapping (default_email args))
    (match comment with EmptyString => "No comment" | _ => comment end)
    (resolve_author username user_mapping (default_email args) missing_users).2
    out.1.1 out.2.
Proof.
  rewrite <- (resolve_author_author username user_mapping (default_email args) missing_users).
  unfold commit_files.
  destruct (resolve_author username user_mapping (default_email args) missing_users)
    as [author mu1].
  cbv beta iota zeta delta [lift mbind M_bind assert mret M_ret raise run call_git_commit].
  destruct (negb (bool_decide (filenames = []))); [|constructor].
  destruct (assert_isfiles_quiet filenames st) as [-> | ->]; [|constructor].
  destruct (os_system tools st (git_add_cmd args filenames)) as [rc st1].
  destruct (rc =? 0) eqn:Erc.
  - apply Z.eqb_eq in Erc as ->.
    destruct date as [d|]; [|cbn; constructor; reflexivity].
    destruct (run_git_commit tools st1 _ _) as [[[rc2 o] e] w].
    pose proof (files_commit args filenames (Some d) author
                  (match comment with EmptyString => "No comment" | _ => comment end)
                  mu1 d rc2 eq_refl) as H.
    destruct (rc2 =? 0); exact H.
  - cbn. constructor. apply Z.eqb_neq, Erc.
Qed.

Lemma commit_revision_round (mw_filename md_filename username : string)
    (date : option string) (comment : string) (user_mapping : gmap string string)
    (args : Args) (missing_users : gmap string Z) (st : State World) :
  let out := commit_revision tools mw_filename md_filename username date comment
               user_mapping args missing_users st in
  files_round args [md_filename; mw_filename] date
    (author_of username user_mapping (default_email args))
    (match comment with EmptyString => "Change to wiki page" | _ => comment end)
    (resolve_author username user_mapping (default_email args) missing_users).2
    out.1.1 out.2.
Proof.
  unfold commit_revision.
  pose proof (commit_files_round [md_filename; mw_filename] username date
                (match comment with EmptyString => "Change to wiki page" | _ => comment end)
                user_mapping args missing_users st) as H.
  cbv zeta in H.
  replace (match match comment with EmptyString => "Change to wiki page" | _ => comment end
           with EmptyString => "No comment"
           | _ => match comment with EmptyString => "Change to wiki page" | _ => comment end
           end)
    with (match comment with EmptyString => "Change to wiki page" | _ => comment end) in H
    by (destruct comment; reflexivity).
  cbv beta iota zeta delta [isfile lift mbind M_bind assert].
  destruct (bool_decide (is_Some (files st !! md_filename))); [|constructor].
  destruct (bool_decide (is_Some (files st !! mw_filename))); [|constructor].
  destruct (commit_files tools _ _ _ _ _ _ _ st) as [[res st1] acts].
  exact H.
Qed.

Lemma path_join_cons (a : string) (c : ascii) (f : string) :
  exists c1 f1, path_join a (String c f) = String c1 f1.
Proof.
  unfold path_join. destruct (startswith (String c f) "/"); [eauto|].
  destruct a as [|b a].
  - cbn [String.eqb orb]. rewrite app_empty_l. eauto.
  - destruct (String.eqb (String b a) EmptyString || endswith (String b a) "/");
      rewrite app_cons; eauto.
Qed.

Lemma commit_file_round (title : string) (filename : option string)
    (date : option string) (username : string) (contents : option string)
    (comment : string) (user_mapping : gmap string string) (args : Args)
    (missing_users : gmap string Z) (st : State World) :
  let out := commit_file tools title filename date username contents comment
               user_mapping args missing_users st in
  (exists e, is_exit e = false /\ out.1.1 = Raise e /\ out.2 = []) \/
  (exists path,
     match filename with
     | Some (String c f) => Ok (String c f)
     | _ => canonical ← make_canonical (slice_from 5 title);
            Ok (path_join (prefix args) canonical)
     end = Ok path /\
     files_round args [path] date
       (author_of username user_mapping (default_email args))
       (match comment with EmptyString => "No comment" | _ => comment end)
       (resolve_author username user_mapping (default_email args) missing_users).2
       out.1.1 out.2).
Proof.
  unfold commit_file.
  cbv beta iota zeta delta [lift mbind M_bind assert mret M_ret raise write_file].
  destruct (startswith title "File:"); [|left; exists AssertionError; auto].
  assert (Hcanon : forall e, make_canonical (slice_from 5 title) = Raise e ->
                             is_exit e = false).
  { intros e ->%make_canonical_raises. reflexivity. }
  destruct filename as [[|c f]|];
    [destruct (make_canonical (slice_from 5 title)) as [canonical|e];
     [|left; exists e; auto]
    |
    |destruct (make_canonical (slice_from 5 title)) as [canonical|e];
     [|left; exists e; auto]];
    (destruct (option_bind string string (b64decode tools) contents) as [payload|];
     [|left; exists TypeError; auto]);
    match goal with
    | |- context [commit_files tools ?fs ?u ?d ?c ?um ?a ?mu ?s] =>
        pose proof (commit_files_round fs u d c um a mu s) as H; cbv zeta in H;
        destruct (commit_files tools fs u d c um a mu s) as [[res st2] acts]
    end;
    right; eexists; (split; [reflexivity|exact H]).
Qed.

End RoundFacts.

Section RowFacts.

Context {World : Type}.
Variable tools : Tools World.

(** What [dump_revision] can have done: nothing, the cleaner having
    failed or the page being a redirect; or the transcoder, once. *)
Lemma dump_revision_round (mw_filename md_filename text title : string)
    (args : Args) (date : option string) (st : State World) :
  let out := dump_revision tools mw_filename md_filename text title args date st in
  (exists e, is_exit e = false /\ out.1.1 = Raise e /\ out.2 = []) \/
  (out.1.1 = Ok true /\ out.2 = []) \/
  (exists returncode stdout stderr,
     out.2 = [ActPandoc (pandoc_argv args mw_filename) returncode stdout stderr] /\
     (((returncode <> 0 \/ stdout = EmptyString) /\ out.1.1 = Ok false) \/
      (returncode = 0 /\ stdout <> EmptyString /\
       (out.1.1 = Ok true \/ out.1.1 = Raise AssertionError)))).
Proof.
  unfold dump_revision.
  destruct (cleanup_mediawiki text) as [[text1 categories]|e] eqn:E.
  2:{ left. exists e. apply cleanup_mediawiki_raises in E as ->. auto. }
  cbv beta iota zeta delta [lift mbind M_bind mret M_ret write_file call_pandoc].
  destruct (redirect_target text1) as [redirect|]; [right; left; auto|].
  cbn [world files].
  destruct (run_pandoc tools _ _) as [[returncode stdout] stderr].
  right. right. exists returncode, stdout, stderr.
  destruct (returncode =? 0) eqn:Erc.
  - apply Z.eqb_eq in Erc as ->. cbn [negb orb].
    destruct (String.eqb stdout EmptyString) eqn:Eout.
    + apply String.eqb_eq in Eout as ->. split; [reflexivity|]. left. auto.
    + apply String.eqb_neq in Eout.
      destruct (cleanup_markdown stdout _ _) as [body|e] eqn:Emd.
      * split; [reflexivity|]. right. auto.
      * apply cleanup_markdown_raises in Emd as ->.
        split; [reflexivity|]. right. auto.
  - apply Z.eqb_neq in Erc. cbn [negb orb]. split; [reflexivity|]. left. auto.
Qed.

Lemma upload_round (row : RevisionRecord) (contents : option string)
    (user_mapping : gmap string string)
    (page_prefixes : list string) (args : Args) (missing_users : gmap string Z)
    (st : State World) :
  ignore_by_prefix (rev_title row) page_prefixes = false ->
  startswith (rev_title row) "File:" = true ->
  let out :=
    commit_file tools (rev_title row)
      (if truthy (rev_filename row)
       then path_join (prefix args) <$> rev_filename row else rev_filename row)
      (rev_date row) (rev_username row) contents (rev_comment row)
      user_mapping args missing_users st in
  row_round user_mapping page_prefixes args missing_users row out.1.1 out.2.
Proof.
  intros Hign Hfile.
  pose proof (commit_file_round tools (rev_title row)
                (if truthy (rev_filename row)
                 then path_join (prefix args) <$> rev_filename row else rev_filename row)
                (rev_date row) (rev_username row) contents (rev_comment row)
                user_mapping args missing_users st) as H.
  cbv zeta in H |- *.
  destruct (commit_file tools _ _ _ _ _ _ _ _ _ _) as [[res st1] acts].
  cbn [fst snd] in H |- *.
  destruct H as [(e & He & -> & ->)|(path & Hpath & Hround)].
  { apply round_raise, He. }
  assert (Hmsg : match rev_comment row with
                 | EmptyString => "No comment" | _ => rev_comment row end
                 = round_message row).
  { unfold round_message. rewrite Hfile. destruct (rev_comment row); reflexivity. }
  rewrite Hmsg in Hround.
  assert (Hname : exists name, upload_name row = Ok name /\
                               path = path_join (prefix args) name).
  { unfold upload_name. destruct (rev_filename row) as [[|c f]|]; cbn in Hpath.
    - destruct (make_canonical _) as [canonical|]; [|discriminate].
      cbn in Hpath. injection Hpath as <-. eauto.
    - destruct (path_join_cons (prefix args) c f) as (c1 & f1 & E).
      rewrite E in Hpath. injection Hpath as <-. rewrite <- E. eauto.
    - destruct (make_canonical _) as [canonical|]; [|discriminate].
      cbn in Hpath. injection Hpath as <-. eauto. }
  destruct Hname as (name & Hname & ->).
  exact (round_upload _ _ _ _ _ name res acts Hign Hfile Hname Hround).
Qed.

(** A round of the loop has one of the shapes of [row_round]. *)
Lemma commit_row_round (row : RevisionRecord) (user_mapping : gmap string string)
    (page_prefixes : list string) (args : Args) (missing_users : gmap string Z)
    (st : State World) :
  let out := commit_row tools row user_mapping page_prefixes args missing_users st in
  row_round user_mapping page_prefixes args missing_users row out.1.1 out.2.
Proof.
  pose proof (upload_round row (rev_content row) user_mapping page_prefixes args
                missing_users st) as Hupload.
  unfold commit_row.
  cbv beta iota zeta delta [lift mbind M_bind mret M_ret raise assert is_none]
    in Hupload |- *.
  destruct (ignore_by_prefix (rev_title row) page_prefixes) eqn:Eign.
  { destruct (rev_content row); [|destruct (startswith (rev_title row) "File:")];
      first [apply round_skip; left; exact Eign|apply round_raise; reflexivity]. }
  destruct (startswith (rev_title row) "File:") eqn:Efile.
  { specialize (Hupload eq_refl eq_refl).
    destruct (rev_content row);
      destruct (commit_file tools _ _ _ _ _ _ _ _ _ _) as [[res st1] acts];
      exact Hupload. }
  clear Hupload.
  destruct (rev_content row) as [text|] eqn:Ec; [|apply round_raise; reflexivity].
  destruct (startswith (rev_title row) "Template:") eqn:Etempl.
  { apply round_skip. right. auto. }
  assert (Hpage : ordinary_page page_prefixes row) by (repeat split; assumption).
  destruct (rev_filename row) as [[|c f]|]; cbn [truthy fmap option_fmap option_map];
    try (apply round_raise; reflexivity).
  assert (Hmsg : match rev_comment row with
                 | EmptyString => "Change to wiki page" | _ => rev_comment row end
                 = round_message row).
  { unfold round_message. rewrite Efile. destruct (rev_comment row); reflexivity. }
  set (mw := make_filename (rev_title row) (mediawiki_ext args) (prefix args)) in *.
  set (md := make_filename (rev_title row) (markdown_ext args) (prefix args)) in *.
  pose proof (dump_revision_round mw md text (rev_title row) args (rev_date row) st)
    as Hdump.
  cbv zeta in Hdump.
  destruct (dump_revision tools mw md text (rev_title row) args (rev_date row) st)
    as [[converted st1] acts1].
  cbn [fst snd] in Hdump.
  pose proof (commit_revision_round tools mw md (rev_username row) (rev_date row)
                (rev_comment row) user_mapping args missing_users st1) as Hcommit.
  cbv zeta in Hcommit. rewrite Hmsg in Hcommit.
  destruct Hdump as [(e & He & -> & ->)|[[-> ->]|(rc & out & err & -> & Hdump)]].
  - apply round_raise, He.
  - destruct (commit_revision tools mw md _ _ _ _ _ _ st1) as [[res st2] acts].
    cbn [fst snd] in Hcommit |- *.
    exact (round_page _ _ _ _ _ [] res acts Hpage (or_introl eq_refl) Hcommit).
  - destruct Hdump as [[Hfail ->]|(-> & Hout & [-> | ->])].
    + unfold run. destruct (os_system tools st1 (git_reset_cmd args)) as [code st2].
      pose proof (round_reset user_mapping page_prefixes args missing_users row
                    rc out err code Hpage Hfail) as H.
      fold mw in H. destruct (code =? 0); exact H.
    + destruct (commit_revision tools mw md _ _ _ _ _ _ st1) as [[res st2] acts].
      cbn [fst snd] in Hcommit |- *.
      refine (round_page _ _ _ _ _ [ActPandoc (pandoc_argv args mw) 0 out err] res acts
                Hpage (or_intror _) Hcommit).
      exists out, err. split; [exact Hout|reflexivity].
    + refine (round_page _ _ _ _ _ [ActPandoc (pandoc_argv args mw) 0 out err]
                (Raise AssertionError) [] Hpage (or_intror _) (files_assert _ _ _ _ _ _)).
      exists out, err. split; [exact Hout|reflexivity].
Qed.

End RowFacts.

(** ** The runs of the commit loop *)

Section LoopFacts.

Context {World : Type}.
Variable tools : Tools World.

Lemma commit_loop_rounds (rows : list RevisionRecord) (user_mapping : gmap string string)
    (page_prefixes : list string) (args : Args) (missing_users : gmap string Z)
    (st : State World) :
  loop_rounds user_mapping page_prefixes args missing_users rows
    (commit_loop tools rows user_mapping page_prefixes args missing_users st).1.1
    (commit_loop tools rows user_mapping page_prefixes args missing_users st).2.
Proof.
  revert missing_users st. induction rows as [|row rest IH]; intros mu st.
  - apply rounds_done.
  - cbn [commit_loop].
    pose proof (commit_row_round tools row user_mapping page_prefixes args mu st) as H.
    cbv zeta in H.
    destruct (commit_row tools row user_mapping page_prefixes args mu st)
      as [[[mu1|e] st1] acts]; cbn [fst snd] in H.
    + specialize (IH mu1 st1).
      destruct (commit_loop tools rest user_mapping page_prefixes args mu1 st1)
        as [[res st2] log].
      cbn [fst snd] in IH |- *. eapply rounds_next; eassumption.
    + cbn [fst snd]. apply rounds_abort, H.
Qed.

End LoopFacts.

Lemma ends_as_quiet (res : Res (gmap string Z)) (pre acts : list Action) :
  Forall (fun b => failed b = false) pre ->
  ends_as res acts -> ends_as res (pre ++ acts).
Proof.
  intros Hpre. unfold ends_as. destruct res as [mu|e].
  - intros H. apply Forall_app. auto.
  - destruct e; try (intros H; apply Forall_app; auto).
    intros [Hcode (p & a & -> & Ha & Hrc & Hp)]. split; [exact Hcode|].
    exists (pre ++ p), a. rewrite app_assoc. repeat split; try assumption.
    apply Forall_app. auto.
Qed.

Lemma files_round_ends (args : Args) (filenames : list string) (date : option string)
    (author message : string) (missing_users1 : gmap string Z)
    (res : Res (gmap string Z)) (acts : list Action) :
  files_round args filenames date author message missing_users1 res acts ->
  ends_as res acts.
Proof.
  intros [|rc Hrc| |d rc Hd]; cbn [ends_as].
  - constructor.
  - split; [exact Hrc|]. exists [], (ActSystem (git_add_cmd args filenames) rc).
    repeat split; [|constructor]. cbn. apply Z.eqb_neq in Hrc. rewrite Hrc. reflexivity.
  - repeat constructor.
  - destruct (rc =? 0) eqn:E; cbn [ends_as].
    + repeat constructor. cbn. rewrite E. reflexivity.
    + split; [apply Z.eqb_neq, E|].
      exists [ActSystem (git_add_cmd args filenames) 0],
             (ActCommit (git_commit_argv args filenames d author) message rc).
      repeat split; [cbn; rewrite E; reflexivity|repeat constructor].
Qed.

Lemma row_round_ends (user_mapping : gmap string string) (page_prefixes : list string)
    (args : Args) (missing_users : gmap string Z) (row : RevisionRecord)
    (res : Res (gmap string Z)) (acts : list Action) :
  row_round user_mapping page_prefixes args missing_users row res acts ->
  ends_as res acts.
Proof.
  intros [e He| |name res0 acts0 _ _ _ H|rc out err code _ _|pre res0 acts0 _ Hpre H].
  - destruct e; try discriminate; constructor.
  - constructor.
  - eapply files_round_ends, H.
  - destruct (code =? 0) eqn:E; cbn [ends_as].
    + repeat constructor. cbn. rewrite E. reflexivity.
    + split; [apply Z.eqb_neq, E|].
      eexists [_], _. repeat split; [cbn; rewrite E; reflexivity|repeat constructor].
  - apply ends_as_quiet; [|eapply files_round_ends, H].
    destruct Hpre as [->|(out & err & _ & ->)]; repeat constructor.
Qed.

Lemma snd_pair_map (row : RevisionRecord) (acts : list Action) :
  snd <$> map (pair row) acts = acts.
Proof. induction acts as [|a acts IH]; [reflexivity|]. cbn. f_equal. exact IH. Qed.

Lemma loop_rounds_ends (user_mapping : gmap string string) (page_prefixes : list string)
    (args : Args) (missing_users : gmap string Z) (rows : list RevisionRecord)
    (res : Res (gmap string Z)) (log : list (RevisionRecord * Action)) :
  loop_rounds user_mapping page_prefixes args missing_users rows res log ->
  ends_as res (snd <$> log).
Proof.
  induction 1 as [mu|mu row rest mu1 acts res log Hrow _ IH|mu row rest e acts Hrow].
  - constructor.
  - rewrite fmap_app, snd_pair_map. apply ends_as_quiet; [|exact IH].
    exact (row_round_ends _ _ _ _ _ _ _ Hrow).
  - rewrite snd_pair_map. exact (row_round_ends _ _ _ _ _ _ _ Hrow).
Qed.

Section RunTheorems.

Context {World : Type}.
Variable tools : Tools World.

(** X21: a run of the commit loop ends with [sys.exit] exactly when one of
    the git processes it started, [os.system] or the commit, came back
    with a code other than zero: then that process is the last one of the
    run, no process before it failed, and the exit status is its return
    code.  In every other run, whether it ends normally or with an
    exception, no git process failed; the code of the transcoder never
    ends the run. *)
Theorem git_failure_ends_run (table : list RevisionRecord)
    (user_mapping : gmap string string) (page_prefixes : list string) (args : Args)
    (missing_users : gmap string Z) (st : State World) :
  let out := commit_revisions tools table user_mapping page_prefixes args missing_users st in
  match out.1.1 with
  | Raise (SystemExit code) =>
      code <> 0 /\
      exists pre a, snd <$> out.2 = pre ++ [a] /\ failed a = true /\
                    return_code_of a = code /\
                    Forall (fun b => failed b = false) pre
  | _ => Forall (fun b => failed b = false) (snd <$> out.2)
  end.
Proof.
  intros out.
  exact (loop_rounds_ends _ _ _ _ _ _ _
           (commit_loop_rounds tools (order_by_date_title table) user_mapping
              page_prefixes args missing_users st)).
Qed.

End RunTheorems.

(** ** The commits of a run *)

Lemma round_message_nonempty (row : RevisionRecord) : round_message row <> EmptyString.
Proof.
  unfold round_message. destruct (rev_comment row); [|discriminate].
  destruct (startswith (rev_title row) "File:"); discriminate.
Qed.

(** The commit of [commit_files] stands right after its [git add]. *)
Lemma files_round_commit (args : Args) (filenames : list string) (date : option string)
    (author message : string) (missing_users1 : gmap string Z)
    (res : Res (gmap string Z)) (acts : list Action)
    (i : nat) (argv : list string) (stdin : string) (returncode : Z) :
  files_round args filenames date author message missing_users1 res acts ->
  acts !! i = Some (ActCommit argv stdin returncode) ->
  i = 1%nat /\
  acts !! 0%nat = Some (ActSystem (git_add_cmd args filenames) 0) /\
  exists d, date = Some d /\ argv = git_commit_argv args filenames d author /\
            stdin = message.
Proof.
  intros [|rc Hrc| |d rc Hd] Hi.
  - discriminate.
  - destruct i as [|[|i]]; discriminate.
  - destruct i as [|[|i]]; discriminate.
  - destruct i as [|[|[|i]]]; try discriminate.
    injection Hi as <- <- <-. split; [reflexivity|]. split; [reflexivity|].
    exists d. auto.
Qed.

Lemma row_round_commit (user_mapping : gmap string string) (page_prefixes : list string)
    (args : Args) (missing_users : gmap string Z) (row : RevisionRecord)
    (res : Res (gmap string Z)) (acts : list Action)
    (i : nat) (argv : list string) (stdin : string) (returncode : Z) :
  row_round user_mapping page_prefixes args missing_users row res acts ->
  acts !! i = Some (ActCommit argv stdin returncode) ->
  exists filenames d j,
    ignore_by_prefix (rev_title row) page_prefixes = false /\
    staged_files args row = Ok filenames /\
    rev_date row = Some d /\
    argv = git_commit_argv args filenames d
             (author_of (rev_username row) user_mapping (default_email args)) /\
    stdin = round_message row /\
    i = S j /\
    acts !! j = Some (ActSystem (git_add_cmd args filenames) 0).
Proof.
  intros [e He| |name res0 acts0 Hign Hfile Hname H|rc out err code _ _
         |pre res0 acts0 (Hign & Hfile & _) Hpre H] Hi.
  - discriminate.
  - discriminate.
  - destruct (files_round_commit _ _ _ _ _ _ _ _ _ _ _ _ H Hi)
      as (-> & Hadd & d & Hd & -> & ->).
    exists [path_join (prefix args) name], d, 0%nat.
    repeat split; try assumption.
    unfold staged_files. rewrite Hfile, Hname. reflexivity.
  - destruct i as [|[|i]]; discriminate.
  - assert (Hst : staged_files args row
                  = Ok [make_filename (rev_title row) (markdown_ext args) (prefix args);
                        make_filename (rev_title row) (mediawiki_ext args) (prefix args)]).
    { unfold staged_files. rewrite Hfile. reflexivity. }
    destruct Hpre as [->|(out & err & _ & ->)].
    + destruct (files_round_commit _ _ _ _ _ _ _ _ _ _ _ _ H Hi)
        as (-> & Hadd & d & Hd & -> & ->).
      exists [make_filename (rev_title row) (markdown_ext args) (prefix args);
               make_filename (rev_title row) (mediawiki_ext args) (prefix args)], d, 0%nat.
      repeat split; assumption.
    + destruct i as [|i]; [discriminate|]. cbn in Hi.
      destruct (files_round_commit _ _ _ _ _ _ _ _ _ _ _ _ H Hi)
        as (-> & Hadd & d & Hd & -> & ->).
      exists [make_filename (rev_title row) (markdown_ext args) (prefix args);
               make_filename (rev_title row) (mediawiki_ext args) (prefix args)], d, 1%nat.
      repeat split; assumption.
Qed.

Lemma loop_rounds_commit (user_mapping : gmap string string) (page_prefixes : list string)
    (args : Args) (missing_users : gmap string Z) (rows : list RevisionRecord)
    (res : Res (gmap string Z)) (log : list (RevisionRecord * Action))
    (i : nat) (row : RevisionRecord) (argv : list string) (stdin : string)
    (returncode : Z) :
  loop_rounds user_mapping page_prefixes args missing_users rows res log ->
  log !! i = Some (row, ActCommit argv stdin returncode) ->
  exists filenames d j,
    In row rows /\
    ignore_by_prefix (rev_title row) page_prefixes = false /\
    staged_files args row = Ok filenames /\
    rev_date row = Some d /\
    argv = git_commit_argv args filenames d
             (author_of (rev_username row) user_mapping (default_email args)) /\
    stdin = round_message row /\
    i = S j /\
    log !! j = Some (row, ActSystem (git_add_cmd args filenames) 0).
Proof.
  intros Hloop. revert i.
  assert (Hround : forall mu r res0 acts i,
    row_round user_mapping page_prefixes args mu r res0 acts ->
    map (pair r) acts !! i = Some (row, ActCommit argv stdin returncode) ->
    r = row /\
    exists filenames d j,
      ignore_by_prefix (rev_title row) page_prefixes = false /\
      staged_files args row = Ok filenames /\
      rev_date row = Some d /\
      argv = git_commit_argv args filenames d
               (author_of (rev_username row) user_mapping (default_email args)) /\
      stdin = round_message row /\
      i = S j /\
      map (pair r) acts !! j = Some (row, ActSystem (git_add_cmd args filenames) 0)).
  { intros mu r res0 acts i Hrow Hi.
    change (map (pair r) acts) with (pair r <$> acts) in Hi |- *.
    rewrite list_lookup_fmap in Hi.
    destruct (acts !! i) as [a|] eqn:Ea; [|discriminate].
    injection Hi as <- ->. split; [reflexivity|].
    destruct (row_round_commit _ _ _ _ _ _ _ _ _ _ _ Hrow Ea)
      as (fs & d & j & H1 & H2 & H3 & H4 & H5 & H6 & H7).
    exists fs, d, j. repeat split; try assumption.
    rewrite list_lookup_fmap, H7. reflexivity. }
  induction Hloop as [mu|mu r rest mu1 acts res log Hrow _ IH|mu r rest e acts Hrow];
    intros i Hi.
  - discriminate.
  - apply lookup_app_Some in Hi as [Hl|[Hlen Hr]].
    + destruct (Hround _ _ _ _ _ Hrow Hl)
        as (-> & fs & d & j & H1 & H2 & H3 & H4 & H5 & H6 & H7).
      exists fs, d, j. repeat split; try assumption; [left; reflexivity|].
      apply lookup_app_l_Some, H7.
    + destruct (IH _ Hr) as (fs & d & j & H0 & H1 & H2 & H3 & H4 & H5 & H6 & H7).
      exists fs, d, (length (map (pair r) acts) + j)%nat.
      repeat split; try assumption; [right; exact H0|lia|].
      rewrite lookup_app_r by lia.
      replace (length (map (pair r) acts) + j - length (map (pair r) acts))%nat with j
        by lia.
      exact H7.
  - destruct (Hround _ _ _ _ _ Hrow Hi)
      as (-> & fs & d & j & H1 & H2 & H3 & H4 & H5 & H6 & H7).
    exists fs, d, j. repeat split; try assumption. left. reflexivity.
Qed.

(** A round issues one commit at most. *)
Lemma row_round_committed (user_mapping : gmap string string) (page_prefixes : list string)
    (args : Args) (missing_users : gmap string Z) (row : RevisionRecord)
    (res : Res (gmap string Z)) (acts : list Action) :
  row_round user_mapping page_prefixes args missing_users row res acts ->
  committed (map (pair row) acts) = [] \/ committed (map (pair row) acts) = [row].
Proof.
  assert (Hfiles : forall fs d a m mu1 res0 acts0,
    files_round args fs d a m mu1 res0 acts0 ->
    committed (map (pair row) acts0) = [] \/ committed (map (pair row) acts0) = [row]).
  { intros fs d a m mu1 res0 acts0 [|rc Hrc| |d0 rc Hd]; cbn; auto. }
  intros [e He| |name res0 acts0 _ _ _ H|rc out err code _ _|pre res0 acts0 _ Hpre H].
  - left. reflexivity.
  - left. reflexivity.
  - eapply Hfiles, H.
  - left. reflexivity.
  - rewrite map_app, committed_app.
    destruct Hpre as [->|(out & err & _ & ->)]; cbn; eapply Hfiles, H.
Qed.

Lemma loop_rounds_sublist (user_mapping : gmap string string) (page_prefixes : list string)
    (args : Args) (missing_users : gmap string Z) (rows : list RevisionRecord)
    (res : Res (gmap string Z)) (log : list (RevisionRecord * Action)) :
  loop_rounds user_mapping page_prefixes args missing_users rows res log ->
  sublist (committed log) rows.
Proof.
  induction 1 as [mu|mu r rest mu1 acts res log Hrow _ IH|mu r rest e acts Hrow].
  - constructor.
  - rewrite committed_app.
    destruct (row_round_committed _ _ _ _ _ _ _ Hrow) as [-> | ->]; cbn [app].
    + apply sublist_cons, IH.
    + apply sublist_skip, IH.
  - destruct (row_round_committed _ _ _ _ _ _ _ Hrow) as [-> | ->].
    + apply sublist_nil_l.
    + apply sublist_skip, sublist_nil_l.
Qed.

Lemma insert_row_perm (r : RevisionRecord) (l : list RevisionRecord) :
  insert_row r l ≡ₚ r :: l.
Proof.
  induction l as [|x l IH]; cbn [insert_row]; [reflexivity|].
  destruct (row_leb r x); [reflexivity|].
  rewrite IH. apply Permutation_swap.
Qed.

(** The cursor yields every row of the table once. *)
Lemma order_by_perm (table : list RevisionRecord) :
  order_by_date_title table ≡ₚ table.
Proof.
  unfold order_by_date_title. induction table as [|r table IH]; [reflexivity|].
  cbn [foldr]. rewrite insert_row_perm, IH. reflexivity.
Qed.

Section CommitTheorems.

Context {World : Type}.
Variable tools : Tools World.

(** X22: every commit of a run is the one [commit_files] builds for its
    row: the row is not under an excluded prefix and has a date, the
    command line is [git commit] on the files staged for the row, with
    that date and the author resolved from the username of the row, the
    message is the comment of the row or, the comment being empty, the
    default of the caller, never empty; and the process started just
    before the commit is the [git add] of the same files, which came back
    with zero. *)
Theorem commit_follows_its_add (table : list RevisionRecord)
    (user_mapping : gmap string string) (page_prefixes : list string) (args : Args)
    (missing_users : gmap string Z) (st : State World)
    (i : nat) (row : RevisionRecord) (argv : list string) (stdin : string)
    (returncode : Z) :
  let log := (commit_revisions tools table user_mapping page_prefixes args
                missing_users st).2 in
  log !! i = Some (row, ActCommit argv stdin returncode) ->
  exists filenames d j,
    In row table /\
    ignore_by_prefix (rev_title row) page_prefixes = false /\
    staged_files args row = Ok filenames /\
    rev_date row = Some d /\
    argv = git_commit_argv args filenames d
             (author_of (rev_username row) user_mapping (default_email args)) /\
    stdin = round_message row /\
    stdin <> EmptyString /\
    i = S j /\
    log !! j = Some (row, ActSystem (git_add_cmd args filenames) 0).
Proof.
  intros log Hi.
  destruct (loop_rounds_commit _ _ _ _ _ _ _ _ _ _ _ _
              (commit_loop_rounds tools (order_by_date_title table) user_mapping
                 page_prefixes args missing_users st) Hi)
    as (fs & d & j & H0 & H1 & H2 & H3 & H4 & H5 & H6 & H7).
  exists fs, d, j. repeat split; try assumption.
  - apply (proj1 (order_by_In _ _)), H0.
  - rewrite H5. apply round_message_nonempty.
Qed.

(** X23: the rows of the commits of a run, in the order of the commits,
    are picked from the rows of the table in the order of the cursor,
    each row of the cursor being taken once at most: no round issues two
    commits, and no commit is issued out of turn. *)
Theorem commits_sublist_of_cursor (table : list RevisionRecord)
    (user_mapping : gmap string string) (page_prefixes : list string) (args : Args)
    (missing_users : gmap string Z) (st : State World) :
  sublist
    (committed (commit_revisions tools table user_mapping page_prefixes args
                  missing_users st).2)
    (order_by_date_title table) /\
  (length (committed (commit_revisions tools table user_mapping page_prefixes args
                        missing_users st).2) <= length table)%nat.
Proof.
  pose proof (loop_rounds_sublist _ _ _ _ _ _ _
                (commit_loop_rounds tools (order_by_date_title table) user_mapping
                   page_prefixes args missing_users st)) as H.
  split; [exact H|].
  apply sublist_length in H. rewrite H.
  rewrite (Permutation_length (order_by_perm table)). reflexivity.
Qed.

End CommitTheorems.

Lemma sample_run_third :
  (commit_revisions sample_tools sample_table ∅ page_prefixes_to_ignore
     sample_args ∅ empty_state).2 !! 2%nat
  = Some (apple_row,
          ActCommit
            (git_commit_argv sample_args ["wiki/Apple.md"; "wiki/Apple.mediawiki"]
               "2001-01-02T00:00:00Z" "bob <anonymous.contributor@example.org>")
            "Change to wiki page" 0).
Proof. vm_compute. reflexivity. Qed.

Lemma commit_follows_its_add_witness :
  exists filenames d j,
    In apple_row sample_table /\
    ignore_by_prefix (rev_title apple_row) page_prefixes_to_ignore = false /\
    staged_files sample_args apple_row = Ok filenames /\
    rev_date apple_row = Some d /\
    git_commit_argv sample_args ["wiki/Apple.md"; "wiki/Apple.mediawiki"]
      "2001-01-02T00:00:00Z" "bob <anonymous.contributor@example.org>"
    = git_commit_argv sample_args filenames d
        (author_of (rev_username apple_row) ∅ (default_email sample_args)) /\
    "Change to wiki page" = round_message apple_row /\
    "Change to wiki page" <> EmptyString /\
    2%nat = S j /\
    (commit_revisions sample_tools sample_table ∅ page_prefixes_to_ignore
       sample_args ∅ empty_state).2 !! j
    = Some (apple_row, ActSystem (git_add_cmd sample_args filenames) 0).
Proof.
  exact (commit_follows_its_add sample_tools sample_table ∅ page_prefixes_to_ignore
           sample_args ∅ empty_state 2 apple_row _ _ 0 sample_run_third).
Defined.

(** ** Runs that end normally *)

Lemma files_round_ok (args : Args) (filenames : list string) (date : option string)
    (author message : string) (missing_users1 missing_users2 : gmap string Z)
    (acts : list Action) :
  files_round args filenames date author message missing_users1 (Ok missing_users2) acts ->
  missing_users2 = missing_users1 /\
  exists d,
    acts = [ActSystem (git_add_cmd args filenames) 0;
            ActCommit (git_commit_argv args filenames d author) message 0].
Proof.
  intros H. remember (Ok missing_users2) as res eqn:Hres.
  destruct H as [|rc Hrc| |d rc Hd]; try discriminate.
  destruct (rc =? 0) eqn:E; [|discriminate].
  apply Z.eqb_eq in E as ->. injection Hres as ->. split; [reflexivity|].
  exists d. reflexivity.
Qed.

(** A round that ends normally passed the row over, reset the working
    tree after the transcoder, or made the one commit of the row. *)
Lemma row_round_ok (user_mapping : gmap string string) (page_prefixes : list string)
    (args : Args) (missing_users missing_users2 : gmap string Z) (row : RevisionRecord)
    (acts : list Action) :
  row_round user_mapping page_prefixes args missing_users row (Ok missing_users2) acts ->
  (missing_users2 = missing_users /\ acts = [] /\
   (ignore_by_prefix (rev_title row) page_prefixes = true \/
    (startswith (rev_title row) "File:" = false /\
     startswith (rev_title row) "Template:" = true))) \/
  (missing_users2 = missing_users /\
   startswith (rev_title row) "File:" = false /\
   exists a, is_pandoc a = true /\ acts = [a; ActSystem (git_reset_cmd args) 0]) \/
  (missing_users2
   = (resolve_author (rev_username row) user_mapping (default_email args) missing_users).2 /\
   exists pre a argv stdin,
     Forall (fun b => is_commit b = false) (pre ++ [a]) /\
     acts = pre ++ [a; ActCommit argv stdin 0]).
Proof.
  intros H. remember (Ok missing_users2) as res eqn:Hres.
  destruct H as [e He|Hskip|name res0 acts0 _ _ _ H|rc out err code (_ & Hfile & _) _
                |pre res0 acts0 _ Hpre H].
  - discriminate.
  - injection Hres as ->. left. auto.
  - subst res0. apply files_round_ok in H as [-> (d & ->)].
    right. right. split; [reflexivity|].
    exists [], (ActSystem (git_add_cmd args [path_join (prefix args) name]) 0).
    eexists _, _. split; [repeat constructor|reflexivity].
  - destruct (code =? 0) eqn:E; [|discriminate].
    apply Z.eqb_eq in E as ->. injection Hres as ->.
    right. left. split; [reflexivity|]. split; [exact Hfile|].
    eexists. split; [|reflexivity]. reflexivity.
  - subst res0. apply files_round_ok in H as [-> (d & ->)].
    right. right. split; [reflexivity|].
    exists pre. eexists _, _, _. split; [|reflexivity].
    apply Forall_app. split; [|repeat constructor].
    destruct Hpre as [->|(out & err & _ & ->)]; repeat constructor.
Qed.

Lemma resolve_author_tally (username : string) (user_mapping : gmap string string)
    (default_email : string) (missing_users : gmap string Z) (u : string) :
  tally (resolve_author username user_mapping default_email missing_users).2 u
  = tally missing_users u
    + (if tallied user_mapping username && String.eqb u username then 1 else 0).
Proof.
  unfold resolve_author, tallied, tally.
  destruct (lookup_bytes username user_mapping); [cbn; lia|].
  destruct username as [|c s]; [cbn; lia|]. cbn [andb snd].
  destruct (String.eqb_spec u (String c s)) as [->|Hne].
  - destruct (missing_users !! String c s) as [n|] eqn:E;
      rewrite lookup_insert_eq; cbn; lia.
  - destruct (missing_users !! String c s) as [n|];
      rewrite lookup_insert_ne by congruence; cbv iota; lia.
Qed.

Lemma commits_of_app (u : string) (l1 l2 : list (RevisionRecord * Action)) :
  commits_of u (l1 ++ l2) = commits_of u l1 + commits_of u l2.
Proof.
  unfold commits_of. rewrite committed_app, filter_app, length_app. lia.
Qed.

Lemma committed_quiet (row : RevisionRecord) (acts : list Action) :
  Forall (fun b => is_commit b = false) acts -> committed (map (pair row) acts) = [].
Proof.
  induction 1 as [|a acts Ha _ IH]; [reflexivity|].
  change (map (pair row) (a :: acts)) with ([(row, a)] ++ map (pair row) acts).
  rewrite committed_app, IH. unfold committed. cbn [filter list_filter].
  rewrite decide_False by (cbn; congruence). reflexivity.
Qed.

Lemma row_round_tally (user_mapping : gmap string string) (page_prefixes : list string)
    (args : Args) (missing_users missing_users2 : gmap string Z) (row : RevisionRecord)
    (acts : list Action) (u : string) :
  row_round user_mapping page_prefixes args missing_users row (Ok missing_users2) acts ->
  tally missing_users2 u
  = tally missing_users u
    + (if tallied user_mapping u then commits_of u (map (pair row) acts) else 0).
Proof.
  intros [(-> & -> & _)|[(-> & _ & a & Ha & ->)|(-> & pre & a & argv & stdin & Hq & ->)]]%row_round_ok.
  - change (commits_of u (map (pair row) [])) with 0.
    destruct (tallied user_mapping u); lia.
  - unfold commits_of. rewrite committed_quiet.
    + change (Z.of_nat (length (filter (fun r => rev_username r = u) []))) with 0.
      destruct (tallied user_mapping u); lia.
    + repeat constructor. destruct a; try discriminate; reflexivity.
  - rewrite resolve_author_tally. f_equal.
    replace (pre ++ [a; ActCommit argv stdin 0])
      with ((pre ++ [a]) ++ [ActCommit argv stdin 0])
      by (rewrite <- app_assoc; reflexivity).
    rewrite map_app, commits_of_app. unfold commits_of at 1.
    rewrite (committed_quiet _ _ Hq). unfold commits_of, committed.
    cbn [map filter list_filter snd is_commit fmap list_fmap fst].
    rewrite decide_True by reflexivity. cbn [fmap list_fmap fst filter list_filter].
    destruct (String.eqb_spec u (rev_username row)) as [->|Hne].
    + rewrite decide_True by reflexivity. rewrite andb_true_r.
      destruct (tallied user_mapping (rev_username row)); reflexivity.
    + rewrite decide_False by congruence. rewrite andb_false_r.
      destruct (tallied user_mapping u); reflexivity.
Qed.

Lemma loop_rounds_tally (user_mapping : gmap string string) (page_prefixes : list string)
    (args : Args) (missing_users missing_users2 : gmap string Z)
    (rows : list RevisionRecord) (log : list (RevisionRecord * Action)) (u : string) :
  loop_rounds user_mapping page_prefixes args missing_users rows (Ok missing_users2) log ->
  tally missing_users2 u
  = tally missing_users u + (if tallied user_mapping u then commits_of u log else 0).
Proof.
  intros H. remember (Ok missing_users2) as res eqn:Hres.
  induction H as [mu|mu r rest mu1 acts res log Hrow _ IH|mu r rest e acts Hrow].
  - injection Hres as ->. change (commits_of u []) with 0.
    destruct (tallied user_mapping u); lia.
  - rewrite (IH Hres), (row_round_tally _ _ _ _ _ _ _ u Hrow), commits_of_app.
    destruct (tallied user_mapping u); lia.
  - discriminate.
Qed.

Lemma loop_rounds_covered (user_mapping : gmap string string) (page_prefixes : list string)
    (args : Args) (missing_users missing_users2 : gmap string Z)
    (rows : list RevisionRecord) (log : list (RevisionRecord * Action))
    (row : RevisionRecord) :
  loop_rounds user_mapping page_prefixes args missing_users rows (Ok missing_users2) log ->
  In row rows ->
  ignore_by_prefix (rev_title row) page_prefixes = false ->
  startswith (rev_title row) "File:" = true \/
  startswith (rev_title row) "Template:" = false ->
  (exists argv stdin, In (row, ActCommit argv stdin 0) log) \/
  (startswith (rev_title row) "File:" = false /\
   In (row, ActSystem (git_reset_cmd args) 0) log).
Proof.
  intros H. remember (Ok missing_users2) as res eqn:Hres.
  induction H as [mu|mu r rest mu1 acts res log Hrow _ IH|mu r rest e acts Hrow];
    intros Hin Hign Hkind.
  - destruct Hin.
  - destruct Hin as [->|Hin].
    + apply row_round_ok in Hrow
        as [(_ & _ & Hskip)|[(_ & Hfile & a & _ & ->)|(_ & pre & a & argv & stdin & _ & ->)]].
      * exfalso. destruct Hskip as [Hs|[Hf Ht]]; [congruence|].
        destruct Hkind; congruence.
      * right. split; [exact Hfile|]. apply in_app_iff. left. right. left. reflexivity.
      * left. exists argv, stdin. apply in_app_iff. left. apply in_map, in_app_iff.
        right. right. left. reflexivity.
    + destruct (IH Hres Hin Hign Hkind) as [(argv & stdin & H1)|[Hf H1]].
      * left. exists argv, stdin. apply in_app_iff. right. exact H1.
      * right. split; [exact Hf|]. apply in_app_iff. right. exact H1.
  - discriminate.
Qed.

Lemma tallied_spec (user_mapping : gmap string string) (u : string) :
  tallied user_mapping u = true <->
  u <> EmptyString /\ (user_mapping !! u = None \/ is_ascii u = false).
Proof.
  unfold tallied, lookup_bytes.
  destruct (is_ascii u) eqn:Ea.
  - destruct (user_mapping !! u) as [g|] eqn:Eu.
    + split; [discriminate|]. intros [_ [H|H]]; discriminate.
    + destruct u; split; try discriminate; try (intros [H _]; congruence).
      intros _. split; [discriminate|left; reflexivity].
  - destruct u; [discriminate|].
    split; [|reflexivity]. intros _. split; [discriminate|right; reflexivity].
Qed.

Section NormalRuns.

Context {World : Type}.
Variable tools : Tools World.

(** X24: in a run of the commit loop that ends normally, the tally of a
    username that is not empty and that the lookup does not find in the
    user mapping, because it is no key of it or because it has a
    character outside ASCII, has risen by the number of commits of rows
    of that username; the tally of any other username is as it was
    before the run. *)
Theorem tally_counts_commits (table : list RevisionRecord)
    (user_mapping : gmap string string) (page_prefixes : list string) (args : Args)
    (missing_users missing_users2 : gmap string Z) (st : State World) (u : string) :
  let out := commit_revisions tools table user_mapping page_prefixes args missing_users st in
  out.1.1 = Ok missing_users2 ->
  tally missing_users2 u
  = tally missing_users u + (if tallied user_mapping u then commits_of u out.2 else 0) /\
  (tallied user_mapping u = true <->
   u <> EmptyString /\ (user_mapping !! u = None \/ is_ascii u = false)).
Proof.
  intros out Hout.
  pose proof (commit_loop_rounds tools (order_by_date_title table) user_mapping
                page_prefixes args missing_users st) as H.
  fold (commit_revisions tools table user_mapping page_prefixes args missing_users st) in H.
  fold out in H. rewrite Hout in H.
  split; [exact (loop_rounds_tally _ _ _ _ _ _ _ u H)|].
  apply tallied_spec.
Qed.

(** X25: a run of the commit loop that ends normally has dealt with every
    row of the table that is neither under an excluded prefix nor a
    template: there is a commit of the row that came back with zero, or,
    for a page only, a [git reset --hard] in its round that came back
    with zero.  No such row is dropped without a trace. *)
Theorem normal_run_covers_rows (table : list RevisionRecord)
    (user_mapping : gmap string string) (page_prefixes : list string) (args : Args)
    (missing_users missing_users2 : gmap string Z) (st : State World)
    (row : RevisionRecord) :
  let out := commit_revisions tools table user_mapping page_prefixes args missing_users st in
  out.1.1 = Ok missing_users2 ->
  In row table ->
  ignore_by_prefix (rev_title row) page_prefixes = false ->
  startswith (rev_title row) "File:" = true \/
  startswith (rev_title row) "Template:" = false ->
  (exists argv stdin, In (row, ActCommit argv stdin 0) out.2) \/
  (startswith (rev_title row) "File:" = false /\
   In (row, ActSystem (git_reset_cmd args) 0) out.2).
Proof.
  intros out Hout Hin Hign Hkind.
  pose proof (commit_loop_rounds tools (order_by_date_title table) user_mapping
                page_prefixes args missing_users st) as H.
  fold (commit_revisions tools table user_mapping page_prefixes args missing_users st) in H.
  fold out in H. rewrite Hout in H.
  apply (loop_rounds_covered _ _ _ _ _ _ _ row H); try assumption.
  apply order_by_In, Hin.
Qed.

End NormalRuns.

Lemma sample_run_ok :
  (commit_revisions sample_tools sample_table ∅ page_prefixes_to_ignore
     sample_args ∅ empty_state).1.1
  = Ok (<["alice" := 2]> (<["bob" := 1]> ∅)).
Proof. vm_compute. reflexivity. Qed.

Lemma tally_counts_commits_witness :
  tally (<["alice" := 2]> (<["bob" := 1]> ∅)) "alice"
  = tally ∅ "alice"
    + (if tallied ∅ "alice"
       then commits_of "alice"
              (commit_revisions sample_tools sample_table ∅ page_prefixes_to_ignore
                 sample_args ∅ empty_state).2
       else 0) /\
  (tallied ∅ "alice" = true <->
   "alice" <> EmptyString /\
   ((∅ : gmap string string) !! "alice" = None \/ is_ascii "alice" = false)).
Proof.
  exact (tally_counts_commits sample_tools sample_table ∅ page_prefixes_to_ignore
           sample_args ∅ _ empty_state "alice" sample_run_ok).
Defined.

Lemma normal_run_covers_rows_witness :
  (exists argv stdin,
     In (broken_row, ActCommit argv stdin 0)
       (commit_revisions sample_tools sample_table ∅ page_prefixes_to_ignore
          sample_args ∅ empty_state).2) \/
  (startswith (rev_title broken_row) "File:" = false /\
   In (broken_row, ActSystem (git_reset_cmd sample_args) 0)
     (commit_revisions sample_tools sample_table ∅ page_prefixes_to_ignore
        sample_args ∅ empty_state).2).
Proof.
  apply (normal_run_covers_rows sample_tools sample_table ∅ page_prefixes_to_ignore
           sample_args ∅ _ empty_state broken_row sample_run_ok).
  - right. right. left. reflexivity.
  - reflexivity.
  - right. reflexivity.
Defined.
